(** * analyze_api_logs: a shallow embedding of [function.py]

    The development follows the source top to bottom: the values a log
    entry may hold, [_parse_timestamp], the validate-and-accumulate loop,
    the per-endpoint statistics and classifier, the sliding-window anomaly
    detectors, the caching analysis and the final report.

    Modelling conventions.
    - Python [int] is [Z]; a finite Python [float] is the rational it
      denotes ([Q]) and float arithmetic is exact ([nan] and [inf]
      inputs are outside the model).  The code rounds to binary64 where
      the model does not: the running sums of response times, the
      averages and rates, [max_response - min_response] and
      [t.timestamp()].  A value of the report can therefore differ from
      the model's in its last bits; what is decided by comparing such a
      value is stated for the inputs on which the rounding changes
      nothing ([whole_times], [in_epoch_range] below).
    - An [int] that meets a [float] is converted to one; the model leaves
      out the [OverflowError] of an [int] too large for that, and of a
      quotient of two [int]s too large for a [float].
    - The [endpoint], [method] and [user_id] of a record are strings or
      absent, as the specification has them; other values are outside
      the model.
    - A [dict], [defaultdict] or [Counter] is an association list in
      insertion order, because the report lists follow iteration order.
    - An exception is a value of [result]; [try/except: continue] is a
      pattern match on it.
    - [datetime.fromisoformat] is library code: it is a parameter of the
      development ([fromisoformat]), and a small concrete parser is given
      for the examples.
    - A naive datetime is read in the local zone of the process, taken to
      be UTC; the [ValueError] or [OverflowError] of [t.timestamp()] and
      [datetime.fromtimestamp] on dates the platform cannot convert is
      left out.
    - Text built for the report ([isoformat()] renderings, the
      recommendation sentence) is kept as the values it is built from. *)

From Stdlib Require Import ZArith QArith Qabs Qround List String Ascii Bool Lia Lqa.
From Stdlib Require Import Permutation Sorted.
Import ListNotations.

Open Scope Z_scope.

(** ** Exceptions *)

Inductive exn := ValueError | TypeError | IndexError.

Inductive result (A : Type) :=
| Ok (a : A)
| Raise (e : exn).
Arguments Ok {A} a.
Arguments Raise {A} e.

Definition bind {A B} (r : result A) (k : A -> result B) : result B :=
  match r with
  | Ok a => k a
  | Raise e => Raise e
  end.

Notation "x <- r ;; k" := (bind r (fun x => k))
  (at level 61, r at next level, right associativity).

Definition rmap {A B} (f : A -> B) (r : result A) : result B :=
  match r with
  | Ok a => Ok (f a)
  | Raise e => Raise e
  end.

(** ** Insertion-ordered dictionaries *)

Section ODict.
Context {K V : Type}.
Variable eqb : K -> K -> bool.

Fixpoint get (k : K) (d : list (K * V)) : option V :=
  match d with
  | [] => None
  | (k', v) :: d' => if eqb k k' then Some v else get k d'
  end.

(** [d[k] = f(d[k])] on a [defaultdict] whose factory returns [dflt]:
    an existing key keeps its position, a new key goes last. *)
Fixpoint upd (k : K) (f : V -> V) (dflt : V) (d : list (K * V)) : list (K * V) :=
  match d with
  | [] => [(k, f dflt)]
  | (k', v) :: d' =>
      if eqb k k' then (k', f v) :: d' else (k', v) :: upd k f dflt d'
  end.
End ODict.

Definition values {K V} (d : list (K * V)) : list V := map snd d.
Definition keys {K V} (d : list (K * V)) : list K := map fst d.

Definition sumZ (l : list Z) : Z := fold_right Z.add 0 l.

(** [Counter()[k] += 1] *)
Definition incr {K} (eqb : K -> K -> bool) (k : K) (c : list (K * Z)) : list (K * Z) :=
  upd eqb k (fun n => n + 1) 0 c.

Definition or_dflt {V} (dflt : V) (o : option V) : V :=
  match o with
  | Some v => v
  | None => dflt
  end.

(** A loop that files each [x] of [xs] under [key x] with
    [d[key x] = f x d[key x]], and the value one key accumulates. *)
Definition group {K V X} (eqb : K -> K -> bool) (key : X -> K)
    (f : X -> V -> V) (dflt : V) (xs : list X) (d : list (K * V)) : list (K * V) :=
  fold_left (fun acc x => upd eqb (key x) (f x) dflt acc) xs d.

Definition fold_from {X V} (f : X -> V -> V) (xs : list X) (v : V) : V :=
  fold_left (fun v x => f x v) xs v.

(** ** Sorting ([sorted] is stable) *)

Section Sorting.
Context {A : Type}.
Variable leb : A -> A -> bool.

Fixpoint insert (x : A) (l : list A) : list A :=
  match l with
  | [] => [x]
  | y :: l' => if leb x y then x :: y :: l' else y :: insert x l'
  end.

Definition sorted (l : list A) : list A := fold_right insert [] l.
End Sorting.

(** ** Python values held by a log entry *)

Inductive pyval :=
| PNone
| PBool (b : bool)
| PInt (z : Z)
| PFloat (q : Q)
| PStr (s : string).

Definition truthy (v : pyval) : bool :=
  match v with
  | PNone => false
  | PBool b => b
  | PInt z => negb (z =? 0)
  | PFloat q => negb (Qeq_bool q 0%Q)
  | PStr s => negb (String.eqb s "")
  end.

(** [isinstance(v, (int, float))] together with the number [v] denotes;
    [bool] is a subclass of [int]. *)
Definition as_number (v : pyval) : option Q :=
  match v with
  | PBool b => Some (inject_Z (Z.b2z b))
  | PInt z => Some (inject_Z z)
  | PFloat q => Some q
  | _ => None
  end.

(** [isinstance(v, int)] together with the integer [v] denotes. *)
Definition as_int (v : pyval) : option Z :=
  match v with
  | PBool b => Some (Z.b2z b)
  | PInt z => Some z
  | _ => None
  end.

Definition Qltb (a b : Q) : bool := negb (Qle_bool b a).

(** ** datetime *)

(** [tzinfo = None] is a naive datetime; [Some off] is an aware one whose
    UTC offset is [off] seconds. *)
Record datetime := {
  year : Z; month : Z; day : Z;
  hour : Z; minute : Z; second : Z; microsecond : Z;
  tzinfo : option Z
}.

Definition is_leap (y : Z) : bool :=
  (y mod 4 =? 0) && (negb (y mod 100 =? 0) || (y mod 400 =? 0)).

Definition days_before_year (y : Z) : Z :=
  let p := y - 1 in p * 365 + p / 4 - p / 100 + p / 400.

Definition days_in_month (y m : Z) : Z :=
  if m =? 2 then (if is_leap y then 29 else 28)
  else if (m =? 4) || (m =? 6) || (m =? 9) || (m =? 11) then 30
  else 31.

Definition days_before_month (y m : Z) : Z :=
  sumZ (map (days_in_month y) (map Z.of_nat (seq 1 (Z.to_nat (m - 1))))).

Definition ymd2ord (y m d : Z) : Z :=
  days_before_year y + days_before_month y m + d.

(** Microseconds between 1970-01-01T00:00:00 and the wall-clock fields. *)
Definition wall_us (t : datetime) : Z :=
  ((ymd2ord (year t) (month t) (day t) - ymd2ord 1970 1 1) * 86400
   + hour t * 3600 + minute t * 60 + second t) * 1000000 + microsecond t.

(** Microseconds since the epoch.  A naive datetime is read in the local
    zone of the process, taken to be UTC. *)
Definition instant_us (t : datetime) : Z :=
  match tzinfo t with
  | Some off => wall_us t - off * 1000000
  | None => wall_us t
  end.

(** [int(t.timestamp())]: [int] truncates toward zero.  [t.timestamp()]
    is a float; for an aware datetime within 2^34 seconds of the epoch
    (until the year 2514) it still tells two microseconds apart and the
    truncation below is the one the code computes; further away the
    float can round up to the next second. *)
Definition timestamp_int (t : datetime) : Z := instant_us t ÷ 1000000.

(** [a < b] on datetimes: comparing a naive with an aware one raises. *)
Definition dt_lt (a b : datetime) : result bool :=
  match tzinfo a, tzinfo b with
  | Some _, Some _ => Ok (instant_us a <? instant_us b)
  | None, None => Ok (wall_us a <? wall_us b)
  | _, _ => Raise TypeError
  end.

(** [sorted] on a list of datetimes of one kind orders them by instant. *)
Definition dt_leb (a b : datetime) : bool := instant_us a <=? instant_us b.

Definition digit (n : Z) : ascii := ascii_of_nat (48 + Z.to_nat (n mod 10)).

Definition pad2 (n : Z) : string :=
  String (digit (n / 10)) (String (digit n) EmptyString).

Definition pad4 (n : Z) : string :=
  String (digit (n / 1000)) (String (digit (n / 100)) (pad2 n)).

(** [ts.strftime("%Y-%m-%dT%H:00:00Z")]: the fields are those of the
    datetime as written, whatever its offset.  The year is printed with
    four digits; for a year below 1000 that depends on the platform
    (glibc prints it without leading zeros). *)
Definition strftime_hour (ts : datetime) : string :=
  (pad4 (year ts) ++ "-" ++ pad2 (month ts) ++ "-" ++ pad2 (day ts)
   ++ "T" ++ pad2 (hour ts) ++ ":00:00Z")%string.

(** [s.replace('Z', '+00:00')] *)
Fixpoint replace_Z (s : string) : string :=
  match s with
  | EmptyString => EmptyString
  | String c s' =>
      if Ascii.eqb c "Z"%char then ("+00:00" ++ replace_Z s')%string
      else String c (replace_Z s')
  end.

(** ** Log entries *)

(** One decoded log dict.  [timestamp], [response_time_ms] and
    [status_code] hold any value; [endpoint], [method] and [user_id] hold
    a string or are absent ([None]).  The two size fields are read by the
    source and never used, so they are left out. *)
Record log_entry := {
  timestamp : pyval;
  endpoint : option string;
  method : option string;
  response_time_ms : pyval;
  status_code : pyval;
  user_id : option string
}.

(** An element of [logs]: a dict, or something that is not one ([None]),
    on which [entry.get] raises. *)
Definition raw := option log_entry.

(** The values bound by the [try] block of the loop for an entry that is
    not skipped. *)
Record event := {
  ev_ts : datetime;
  ev_endpoint : string;
  ev_method : string;
  ev_rt : Q;
  ev_status : Z;
  ev_user : string
}.

(** [entry.get(key) or dflt] *)
Definition get_or (v : option string) (dflt : string) : string :=
  match v with
  | Some s => if String.eqb s "" then dflt else s
  | None => dflt
  end.

(** ** Thresholds *)

Record thresholds (A : Type) := { medium : A; high : A; critical : A }.
Arguments medium {A} t.
Arguments high {A} t.
Arguments critical {A} t.

Definition RESPONSE_THRESHOLDS : thresholds Z :=
  {| medium := 500; high := 1000; critical := 2000 |}.

Definition ERROR_RATE_THRESHOLDS : thresholds Q :=
  {| medium := 5%Q; high := 10%Q; critical := 15%Q |}.

Inductive severity := Medium | High | Critical.

(** ** Accumulators *)

(** The per-endpoint dict; [None] in [d_min_response] is [math.inf] and in
    [d_max_response] is [-math.inf]. *)
Record endpoint_data := {
  d_count : Z;
  d_sum_response : Q;
  d_min_response : option Q;
  d_max_response : option Q;
  d_errors : Z;
  d_status_counter : list (Z * Z);
  d_methods : list (string * Z)
}.

Definition new_endpoint_data : endpoint_data :=
  {| d_count := 0; d_sum_response := 0%Q;
     d_min_response := None; d_max_response := None;
     d_errors := 0; d_status_counter := []; d_methods := [] |}.

(** [min(m, rt)] and [max(m, rt)]: the first argument wins a tie. *)
Definition py_min (m : option Q) (rt : Q) : Q :=
  match m with
  | None => rt
  | Some a => if Qltb rt a then rt else a
  end.

Definition py_max (m : option Q) (rt : Q) : Q :=
  match m with
  | None => rt
  | Some a => if Qltb a rt then rt else a
  end.

(** The local variables of [analyze_api_logs] that the loop updates. *)
Record state := {
  total : Z;
  sum_response : Q;
  earliest : option datetime;
  latest : option datetime;
  hourly : list (string * Z);
  endpoint_info : list (string * endpoint_data);
  user_counts : list (string * Z);
  per_endpoint_timestamps : list (string * list datetime);
  per_endpoint_errors : list (string * list datetime)
}.

Definition initial_state : state :=
  {| total := 0; sum_response := 0%Q; earliest := None; latest := None;
     hourly := []; endpoint_info := []; user_counts := [];
     per_endpoint_timestamps := []; per_endpoint_errors := [] |}.

(** Lines 94-102.  The sum is exact here and a running float sum in the
    code when a response time is a float. *)
Definition record_request (ev : event) (d : endpoint_data) : endpoint_data :=
  {| d_count := d_count d + 1;
     d_sum_response := (d_sum_response d + ev_rt ev)%Q;
     d_min_response := Some (py_min (d_min_response d) (ev_rt ev));
     d_max_response := Some (py_max (d_max_response d) (ev_rt ev));
     d_errors := if ev_status ev >=? 400 then d_errors d + 1 else d_errors d;
     d_status_counter := incr Z.eqb (ev_status ev) (d_status_counter d);
     d_methods := incr String.eqb (ev_method ev) (d_methods d) |}.

(** Lines 84-107: the part of the loop body after the [try] block. *)
Definition accumulate (st : state) (ev : event) : result state :=
  let ts := ev_ts ev in
  is_earlier <- match earliest st with
                | None => Ok true
                | Some e => dt_lt ts e
                end ;;
  is_later <- match latest st with
              | None => Ok true
              | Some l => dt_lt l ts
              end ;;
  Ok {| total := total st;
        sum_response := (sum_response st + ev_rt ev)%Q;
        earliest := if is_earlier then Some ts else earliest st;
        latest := if is_later then Some ts else latest st;
        hourly := incr String.eqb (strftime_hour ts) (hourly st);
        endpoint_info :=
          upd String.eqb (ev_endpoint ev) (record_request ev)
              new_endpoint_data (endpoint_info st);
        user_counts := incr String.eqb (ev_user ev) (user_counts st);
        per_endpoint_timestamps :=
          upd String.eqb (ev_endpoint ev) (fun l => l ++ [ts]) []
              (per_endpoint_timestamps st);
        per_endpoint_errors :=
          if ev_status ev >=? 400
          then upd String.eqb (ev_endpoint ev) (fun l => l ++ [ts]) []
                   (per_endpoint_errors st)
          else per_endpoint_errors st |}.

Definition count_entry (st : state) : state :=
  {| total := total st + 1;
     sum_response := sum_response st;
     earliest := earliest st; latest := latest st;
     hourly := hourly st; endpoint_info := endpoint_info st;
     user_counts := user_counts st;
     per_endpoint_timestamps := per_endpoint_timestamps st;
     per_endpoint_errors := per_endpoint_errors st |}.

Section Engine.

(** [datetime.fromisoformat]; [None] stands for its [ValueError]. *)
Variable fromisoformat : string -> option datetime.

Definition _parse_timestamp (ts : pyval) : result datetime :=
  if negb (truthy ts) then Raise ValueError
  else match ts with
       | PStr s =>
           match fromisoformat (replace_Z s) with
           | Some t => Ok t
           | None => Raise ValueError
           end
       | _ => Raise ValueError
       end.

(** Lines 65-82: the [try] block.  [None] is every path that reaches a
    [continue]: an exception caught by [except Exception], a response
    time that is missing, not a number or negative, a status code that
    is missing or not an [int]. *)
Definition validate (entry : raw) : option event :=
  match entry with
  | None => None
  | Some e =>
      match _parse_timestamp (timestamp e) with
      | Raise _ => None
      | Ok ts =>
          match as_number (response_time_ms e) with
          | None => None
          | Some rt =>
              if Qltb rt 0%Q then None
              else match as_int (status_code e) with
                   | None => None
                   | Some status =>
                       Some {| ev_ts := ts;
                               ev_endpoint := get_or (endpoint e) "/";
                               ev_method := get_or (method e) "GET";
                               ev_rt := rt;
                               ev_status := status;
                               ev_user := get_or (user_id e) "anonymous" |}
                   end
          end
      end
  end.

(** One iteration of the [for] loop at line 62. *)
Definition loop_body (st : state) (entry : raw) : result state :=
  let st := count_entry st in
  match validate entry with
  | None => Ok st
  | Some ev => accumulate st ev
  end.

Fixpoint for_each (st : state) (logs : list raw) : result state :=
  match logs with
  | [] => Ok st
  | entry :: rest => st' <- loop_body st entry ;; for_each st' rest
  end.

End Engine.

(** ** Endpoint statistics and the classifier (lines 133-184) *)

Record endpoint_stat := {
  es_endpoint : string;
  es_request_count : Z;
  es_avg_response_time_ms : Q;
  es_slowest_request_ms : option Q;
  es_fastest_request_ms : option Q;
  es_error_count : Z;
  es_most_common_status : option Z
}.

Inductive issue :=
| SlowEndpoint (ep : string) (avg_response_time_ms : Q) (threshold_ms : Z)
               (sev : severity)
| HighErrorRate (ep : string) (error_rate_percentage : Q) (sev : severity).

(** [Counter.most_common(1)]: the first entry, in insertion order, that
    holds the largest count. *)
Fixpoint most_common_1 {K} (c : list (K * Z)) : option (K * Z) :=
  match c with
  | [] => None
  | (k, n) :: c' =>
      match most_common_1 c' with
      | Some (k', n') => if n <? n' then Some (k', n') else Some (k, n)
      | None => Some (k, n)
      end
  end.

(** [d["sum_response"] / d["count"]] *)
Definition avg_rt_of (d : endpoint_data) : Q :=
  (d_sum_response d / inject_Z (d_count d))%Q.

(** [(d["errors"] / d["count"]) * 100] *)
Definition err_rate_of (d : endpoint_data) : Q :=
  (inject_Z (d_errors d) / inject_Z (d_count d) * 100)%Q.

Definition response_severity (avg_rt : Q) : option severity :=
  if Qltb (inject_Z (critical RESPONSE_THRESHOLDS)) avg_rt then Some Critical
  else if Qltb (inject_Z (high RESPONSE_THRESHOLDS)) avg_rt then Some High
  else if Qltb (inject_Z (medium RESPONSE_THRESHOLDS)) avg_rt then Some Medium
  else None.

Definition error_severity (err_rate : Q) : option severity :=
  if Qltb (critical ERROR_RATE_THRESHOLDS) err_rate then Some Critical
  else if Qltb (high ERROR_RATE_THRESHOLDS) err_rate then Some High
  else if Qltb (medium ERROR_RATE_THRESHOLDS) err_rate then Some Medium
  else None.

Definition slow_endpoint_issue (ep : string) (d : endpoint_data) : list issue :=
  match response_severity (avg_rt_of d) with
  | Some sev =>
      [SlowEndpoint ep (avg_rt_of d) (medium RESPONSE_THRESHOLDS) sev]
  | None => []
  end.

Definition high_error_rate_issue (ep : string) (d : endpoint_data) : list issue :=
  match error_severity (err_rate_of d) with
  | Some sev => [HighErrorRate ep (err_rate_of d) sev]
  | None => []
  end.

Definition stat_of (ep : string) (d : endpoint_data) : endpoint_stat :=
  {| es_endpoint := ep;
     es_request_count := d_count d;
     es_avg_response_time_ms := avg_rt_of d;
     es_slowest_request_ms := d_max_response d;
     es_fastest_request_ms := d_min_response d;
     es_error_count := d_errors d;
     es_most_common_status := option_map fst (most_common_1 (d_status_counter d)) |}.

Definition endpoint_stats_of (info : list (string * endpoint_data)) : list endpoint_stat :=
  map (fun '(ep, d) => stat_of ep d) info.

Definition performance_issues_of (info : list (string * endpoint_data)) : list issue :=
  flat_map (fun '(ep, d) => slow_endpoint_issue ep d ++ high_error_rate_issue ep d) info.

(** ** Recommendations (lines 187-193)

    The text [f"Consider caching for {ep} ({n} requests)"] is kept as the
    pair it is built from. *)
Inductive recommendation := ConsiderCaching (ep : string) (request_count : Z).

Definition recommendations_of (stats : list endpoint_stat) : list recommendation :=
  flat_map (fun s =>
    if (es_request_count s >? 100) && Qltb (es_avg_response_time_ms s) 500%Q
    then [ConsiderCaching (es_endpoint s) (es_request_count s)]
    else []) stats.

(** ** Anomaly detection (lines 195-266) *)

(** The [timestamp] of a spike is the datetime whose [isoformat()] the
    source stores; the [time_window] of a cluster is the pair of epoch
    seconds whose UTC rendering the source stores. *)
Inductive anomaly :=
| RequestSpike (ep : string) (at_time : datetime) (normal_rate : Q)
               (actual_rate : Z) (sev : severity)
| ResponseDegradation (ep : string) (avg_response_time_ms : Q)
                      (peak_response_time_ms : Q) (sev : severity)
| ErrorCluster (ep : string) (window_start window_end : Z)
               (error_count : Z) (sev : severity)
| UnusualUserBehavior (user : string) (request_count : Z) (sev : severity).

(** [while secs[right] - secs[left] > 300: left += 1].  The loop makes at
    most [right - left] steps, which is the fuel the callers pass. *)
Fixpoint advance (fuel : nat) (secs : list Z) (right left : nat) : nat :=
  match fuel with
  | O => left
  | S fuel' =>
      if nth right secs 0 - nth left secs 0 >? 300
      then advance fuel' secs right (S left)
      else left
  end.

(** The spike loop from position [right] on, [todo] positions left to
    visit: the list of [window_count] values appended. *)
Fixpoint sliding (secs : list Z) (todo right left : nat) : list Z :=
  match todo with
  | O => []
  | S todo' =>
      let left' := advance (right - left) secs right left in
      (Z.of_nat right - Z.of_nat left' + 1)
        :: sliding secs todo' (S right) left'
  end.

Definition window_counts (secs : list Z) : list Z :=
  sliding secs (List.length secs) 0 0.

(** [max(l)] on a non-empty list of integers. *)
Definition max_of (l : list Z) : Z :=
  match l with
  | [] => 0
  | x :: l' => fold_left Z.max l' x
  end.

(** [l.index(x)] for an [x] that occurs in [l]. *)
Fixpoint index (x : Z) (l : list Z) : nat :=
  match l with
  | [] => O
  | y :: l' => if x =? y then O else S (index x l')
  end.

(** The body of the loop at line 198 for one endpoint. *)
Definition request_spike (ep : string) (times : list datetime) : list anomaly :=
  match times with
  | [] => []
  | t0 :: _ =>
      let times_sorted := sorted dt_leb times in
      let secs := map timestamp_int times_sorted in
      let wc := window_counts secs in
      let avg_rate :=
        (inject_Z (sumZ wc) / inject_Z (Z.max 1 (Z.of_nat (List.length wc))))%Q in
      let peak := max_of wc in
      if Qltb 0%Q avg_rate && Qltb (3 * avg_rate)%Q (inject_Z peak)
         && (peak >=? 10)
      then [RequestSpike ep
              (nth (index (nth (index peak wc) secs 0) secs) times_sorted t0)
              avg_rate peak (if peak >? 50 then High else Medium)]
      else []
  end.

(** The body of the loop at line 225 for one endpoint. *)
Definition response_degradation (ep : string) (d : endpoint_data) : list anomaly :=
  match d_max_response d with
  | Some mx =>
      if Qltb (2 * avg_rt_of d)%Q mx
         && Qltb (inject_Z (medium RESPONSE_THRESHOLDS)) mx
      then [ResponseDegradation ep (avg_rt_of d) mx High]
      else []
  | None => []
  end.

(** The cluster loop from position [right] on: the [(left, right)] at
    which it breaks, if it does. *)
Fixpoint cluster_scan (secs : list Z) (todo right left : nat) : option (nat * nat) :=
  match todo with
  | O => None
  | S todo' =>
      let left' := advance (right - left) secs right left in
      if Z.of_nat right - Z.of_nat left' + 1 >=? 10
      then Some (left', right)
      else cluster_scan secs todo' (S right) left'
  end.

(** The body of the loop at line 240 for one endpoint.  The window is
    kept as the two epoch seconds that [datetime.fromtimestamp] renders. *)
Definition error_cluster (ep : string) (err_times : list datetime) : list anomaly :=
  match err_times with
  | [] => []
  | _ =>
      let secs := sorted Z.leb (map timestamp_int err_times) in
      match cluster_scan secs (List.length secs) 0 0 with
      | Some (l, r) =>
          let n := Z.of_nat r - Z.of_nat l + 1 in
          [ErrorCluster ep (nth l secs 0) (nth r secs 0) n
              (if n >? 50 then Critical else High)]
      | None => []
      end
  end.

(** Lines 259-266. *)
Definition unusual_user (user_counts : list (string * Z)) : result (list anomaly) :=
  match most_common_1 user_counts with
  | None => Raise IndexError
  | Some (top_user, top_count) =>
      if Qltb (1 # 2) (inject_Z top_count / inject_Z (sumZ (values user_counts)))%Q
      then Ok [UnusualUserBehavior top_user top_count High]
      else Ok []
  end.

(** ** Caching opportunities (lines 269-291) *)

Record caching_opportunity := {
  co_endpoint : string;
  potential_cache_hit_rate : Z;
  current_requests : Z;
  potential_requests_saved : Z;
  estimated_cost_savings_usd : Q;
  recommended_ttl_minutes : Z;
  recommendation_confidence : string
}.

(** [int(x)] on a number: truncation toward zero. *)
Definition py_int (x : Q) : Z :=
  if Qltb x 0%Q then Qceiling x else Qfloor x.

(** [round(x)] to the nearest integer, a tie going to the even one. *)
Definition round_half_even (x : Q) : Z :=
  let f := Qfloor x in
  let r := (x - inject_Z f)%Q in
  if Qltb r (1 # 2) then f
  else if Qltb (1 # 2) r then f + 1
  else if Z.even f then f else f + 1.

(** [round(x, 4)] *)
Definition round_4 (x : Q) : Q :=
  (inject_Z (round_half_even (x * 10000)) / 10000)%Q.

(** [d["methods"].get("GET", 0) / d["count"]] *)
Definition get_ratio_of (d : endpoint_data) : Q :=
  (inject_Z (match get String.eqb "GET"%string (d_methods d) with
             | Some n => n
             | None => 0
             end) / inject_Z (d_count d))%Q.

(** [d["max_response"] - d["min_response"] < 500]; with an infinite
    bound the difference is [-inf].  The difference is exact here and a
    float in the code: the two agree on whole numbers below 2^53. *)
Definition consistent_of (d : endpoint_data) : bool :=
  match d_max_response d, d_min_response d with
  | Some mx, Some mn => Qltb (mx - mn)%Q 500%Q
  | _, _ => true
  end.

(** The body of the loop at line 272 for one endpoint. *)
Definition caching_opportunity_of (ep : string) (d : endpoint_data) : list caching_opportunity :=
  if d_count d <? 1 then []
  else
    let get_ratio := get_ratio_of d in
    let err_rate := err_rate_of d in
    let consistent := consistent_of d in
    if (d_count d >? 100) && Qltb (8 # 10) get_ratio && Qltb err_rate 2%Q
       && consistent
    then
      let potential_hit := py_int (inject_Z (d_count d) * (8 # 10))%Q in
      let est_savings := (inject_Z potential_hit * (1 # 10000))%Q in
      [{| co_endpoint := ep;
          potential_cache_hit_rate := py_int (get_ratio * 100)%Q;
          current_requests := d_count d;
          potential_requests_saved := potential_hit;
          estimated_cost_savings_usd := round_4 est_savings;
          recommended_ttl_minutes := 15;
          recommendation_confidence := "high" |}]
    else [].

Definition caching_opportunities_of (info : list (string * endpoint_data)) : list caching_opportunity :=
  flat_map (fun '(ep, d) => caching_opportunity_of ep d) info.

(** ** The report (lines 293-323) *)

Record summary_t := {
  total_requests : Z;
  time_range_start : option datetime;
  time_range_end : option datetime;
  avg_response_time_ms : option Q;
  error_rate_percentage : option Q
}.

Record report := {
  summary : summary_t;
  endpoint_stats : list endpoint_stat;
  performance_issues : list issue;
  recommendations : list recommendation;
  hourly_distribution : list (string * Z);
  top_users_by_requests : list (string * Z);
  anomalies : list anomaly;
  caching_opportunities : list caching_opportunity
}.

(** The literal returned at line 112. *)
Definition empty_report : report :=
  {| summary := {| total_requests := 0;
                   time_range_start := None; time_range_end := None;
                   avg_response_time_ms := None;
                   error_rate_percentage := None |};
     endpoint_stats := []; performance_issues := []; recommendations := [];
     hourly_distribution := []; top_users_by_requests := [];
     anomalies := []; caching_opportunities := [] |}.

(** [k[11:16]] *)
Definition hour_label (k : string) : string := substring 11 5 k.

(** Lines 307-311. *)
Definition hourly_formatted_of (hourly : list (string * Z)) : list (string * Z) :=
  fold_left (fun acc '(k, v) => upd String.eqb (hour_label k) (fun n => n + v) 0 acc)
            (sorted (fun a b => String.leb (fst a) (fst b)) hourly) [].

(** [user_counts.most_common(5)] *)
Definition most_common_5 (c : list (string * Z)) : list (string * Z) :=
  firstn 5 (sorted (fun a b => snd b <=? snd a) c).

Definition valid_requests_of (st : state) : Z :=
  sumZ (map d_count (values (endpoint_info st))).

(** Lines 110-323: everything after the loop. *)
Definition build_report (st : state) : result report :=
  let valid_requests := valid_requests_of st in
  if valid_requests =? 0 then Ok empty_report
  else
    let info := endpoint_info st in
    let avg_response := (sum_response st / inject_Z valid_requests)%Q in
    let total_errors := sumZ (map d_errors (values info)) in
    let error_rate_pct :=
      (inject_Z total_errors / inject_Z valid_requests * 100)%Q in
    let stats := endpoint_stats_of info in
    let spikes :=
      flat_map (fun '(ep, times) => request_spike ep times)
               (per_endpoint_timestamps st) in
    let degradations :=
      flat_map (fun '(ep, d) => response_degradation ep d) info in
    let clusters :=
      flat_map (fun '(ep, errs) => error_cluster ep errs)
               (per_endpoint_errors st) in
    user_anomaly <- unusual_user (user_counts st) ;;
    Ok {| summary := {| total_requests := valid_requests;
                        time_range_start := earliest st;
                        time_range_end := latest st;
                        avg_response_time_ms := Some avg_response;
                        error_rate_percentage := Some error_rate_pct |};
          endpoint_stats :=
            sorted (fun a b => - es_request_count a <=? - es_request_count b) stats;
          performance_issues := performance_issues_of info;
          recommendations := recommendations_of stats;
          hourly_distribution := hourly_formatted_of (hourly st);
          top_users_by_requests := most_common_5 (user_counts st);
          anomalies := spikes ++ degradations ++ clusters ++ user_anomaly;
          caching_opportunities := caching_opportunities_of info |}.

(** [analyze_api_logs(logs)]; [logs = None] is Python's [None]. *)
Definition analyze_api_logs (fromisoformat : string -> option datetime)
    (logs : option (list raw)) : result report :=
  match logs with
  | None => Raise ValueError
  | Some entries =>
      st <- for_each fromisoformat initial_state entries ;;
      build_report st
  end.

(** ** A concrete parser for the examples

    [fromisoformat_seconds] reads the layout
    [YYYY-MM-DDTHH:MM:SS] followed by nothing (a naive datetime) or by
    [+HH:MM] / [-HH:MM] (an aware one), and checks the field ranges the
    way [datetime] does.  It is the part of [datetime.fromisoformat]
    that the examples below exercise. *)

Definition digit_value (c : ascii) : option Z :=
  let n := nat_of_ascii c in
  if (48 <=? n)%nat && (n <=? 57)%nat then Some (Z.of_nat (n - 48)) else None.

(** Read exactly [n] decimal digits. *)
Fixpoint read_digits (n : nat) (acc : Z) (s : string) : option (Z * string) :=
  match n with
  | O => Some (acc, s)
  | S n' =>
      match s with
      | String c s' =>
          match digit_value c with
          | Some v => read_digits n' (acc * 10 + v) s'
          | None => None
          end
      | EmptyString => None
      end
  end.

Definition expect (c : ascii) (s : string) : option string :=
  match s with
  | String c' s' => if Ascii.eqb c c' then Some s' else None
  | EmptyString => None
  end.

Definition obind {A B} (o : option A) (k : A -> option B) : option B :=
  match o with
  | Some a => k a
  | None => None
  end.

Definition read_offset (s : string) : option (option Z) :=
  match s with
  | EmptyString => Some None
  | String c s' =>
      obind (if Ascii.eqb c "+" then Some 1
             else if Ascii.eqb c "-" then Some (-1) else None) (fun sign =>
      obind (read_digits 2 0 s') (fun '(hh, s1) =>
      obind (expect ":" s1) (fun s2 =>
      obind (read_digits 2 0 s2) (fun '(mm, s3) =>
      match s3 with
      | EmptyString =>
          if (hh <? 24) && (mm <? 60)
          then Some (Some (sign * (hh * 3600 + mm * 60)))
          else None
      | _ => None
      end))))
  end.

Definition fromisoformat_seconds (s : string) : option datetime :=
  obind (read_digits 4 0 s) (fun '(y, s) =>
  obind (expect "-" s) (fun s =>
  obind (read_digits 2 0 s) (fun '(mo, s) =>
  obind (expect "-" s) (fun s =>
  obind (read_digits 2 0 s) (fun '(d, s) =>
  obind (expect "T" s) (fun s =>
  obind (read_digits 2 0 s) (fun '(h, s) =>
  obind (expect ":" s) (fun s =>
  obind (read_digits 2 0 s) (fun '(mi, s) =>
  obind (expect ":" s) (fun s =>
  obind (read_digits 2 0 s) (fun '(sec, s) =>
  obind (read_offset s) (fun tz =>
  if (1 <=? y) && (1 <=? mo) && (mo <=? 12) && (1 <=? d)
     && (d <=? days_in_month y mo) && (h <? 24) && (mi <? 60) && (sec <? 60)
  then Some {| year := y; month := mo; day := d;
               hour := h; minute := mi; second := sec; microsecond := 0;
               tzinfo := tz |}
  else None)))))))))))).

(** ** Vocabulary of the specification *)

(** The events of the records that pass the [try] block, in input order. *)
Definition valid_events (fromisoformat : string -> option datetime)
    (logs : list raw) : list event :=
  flat_map (fun entry =>
              match validate fromisoformat entry with
              | Some ev => [ev]
              | None => []
              end) logs.

(** Validation in the words of the specification: a parseable timestamp,
    a response time that is present, numeric and not negative, a status
    code that is present and an integer. *)
Definition parseable_timestamp (fromisoformat : string -> option datetime)
    (v : pyval) : bool :=
  match v with
  | PStr s =>
      negb (String.eqb s "")
      && match fromisoformat (replace_Z s) with Some _ => true | None => false end
  | _ => false
  end.

Definition nonnegative_number (v : pyval) : bool :=
  match as_number v with
  | Some q => Qle_bool 0%Q q
  | None => false
  end.

Definition is_integer (v : pyval) : bool :=
  match as_int v with
  | Some _ => true
  | None => false
  end.

Definition passes_validation (fromisoformat : string -> option datetime)
    (entry : raw) : bool :=
  match entry with
  | Some e =>
      parseable_timestamp fromisoformat (timestamp e)
      && nonnegative_number (response_time_ms e)
      && is_integer (status_code e)
  | None => false
  end.

Definition events_of (ep : string) (evs : list event) : list event :=
  filter (fun ev => String.eqb (ev_endpoint ev) ep) evs.

Definition events_by (user : string) (evs : list event) : list event :=
  filter (fun ev => String.eqb (ev_user ev) user) evs.

Definition is_error (ev : event) : bool := ev_status ev >=? 400.

Definition count_of {A} (p : A -> bool) (l : list A) : Z :=
  Z.of_nat (List.length (filter p l)).

(** The aggregate the loop builds from the events of one endpoint. *)
Definition aggregate (evs : list event) : endpoint_data :=
  fold_left (fun d ev => record_request ev d) evs new_endpoint_data.

(** The number of events, among the first [r + 1] of [secs], that are at
    most 300 seconds older than the one at position [r]. *)
Definition trailing_count (secs : list Z) (r : nat) : Z :=
  count_of (fun s => nth r secs 0 - s <=? 300) (firstn (S r) secs).

(** The request count the report gives for an endpoint, 0 when the
    endpoint has no entry. *)
Definition request_count_in (r : report) (ep : string) : Z :=
  match find (fun s => String.eqb (es_endpoint s) ep) (endpoint_stats r) with
  | Some s => es_request_count s
  | None => 0
  end.

Definition is_spike_of (ep : string) (a : anomaly) : bool :=
  match a with
  | RequestSpike ep' _ _ _ _ => String.eqb ep' ep
  | _ => false
  end.

Definition is_cluster_of (ep : string) (a : anomaly) : bool :=
  match a with
  | ErrorCluster ep' _ _ _ _ => String.eqb ep' ep
  | _ => false
  end.

Definition is_user_anomaly (a : anomaly) : bool :=
  match a with
  | UnusualUserBehavior _ _ _ => true
  | _ => false
  end.

(** The hour of the instant, in UTC. *)
Definition utc_hour (t : datetime) : Z := (instant_us t / 3600000000) mod 24.



(** The value of [left] once the loop has handled position [r], both in
    the spike loop and in the cluster loop: [left] starts at 0 and each
    position advances it with the [while] loop. *)
Fixpoint left_after (secs : list Z) (r : nat) : nat :=
  match r with
  | O => advance 0 secs 0 0
  | S r' => advance (S r' - left_after secs r') secs (S r') (left_after secs r')
  end.

Definition left_before (secs : list Z) (r : nat) : nat :=
  match r with
  | O => O
  | S r' => left_after secs r'
  end.

(** [right - left + 1] at position [r]. *)
Definition width (secs : list Z) (r : nat) : Z :=
  Z.of_nat r - Z.of_nat (left_after secs r) + 1.

Definition ascending (secs : list Z) : Prop :=
  forall i j, (i <= j)%nat -> (j < List.length secs)%nat ->
              nth i secs 0 <= nth j secs 0.


Definition is_issue_of (ep : string) (i : issue) : bool :=
  match i with
  | SlowEndpoint ep' _ _ _ => String.eqb ep' ep
  | HighErrorRate ep' _ _ => String.eqb ep' ep
  end.

Definition is_get (ev : event) : bool := String.eqb (ev_method ev) "GET".

Definition is_caching_of (ep : string) (c : caching_opportunity) : bool :=
  String.eqb (co_endpoint c) ep.

(** [max_response - min_response < bound] over a set of events: any two
    response times differ by less than [bound]. *)
Definition spread_below (evs : list event) (bound : Q) : Prop :=
  forall a b, In a (map ev_rt evs) -> In b (map ev_rt evs) -> (a - b < bound)%Q.

Definition aware (t : datetime) : bool :=
  match tzinfo t with
  | Some _ => true
  | None => false
  end.

(** ** Sample inputs *)

Definition entry (ts : string) (ep method : string) (rt status : Z) (user : string) : raw :=
  Some {| timestamp := PStr ts; endpoint := Some ep; method := Some method;
          response_time_ms := PInt rt; status_code := PInt status;
          user_id := Some user |}.

(** A valid entry, an impossible month, an element that is not a dict
    and a negative response time. *)
Definition sample_mixed : list raw :=
  [ entry "2025-01-15T10:00:00Z" "/api/users" "GET" 120 200 "user_001";
    entry "2025-13-01T00:00:00Z" "/api/x" "GET" 100 200 "user_002";
    None;
    entry "2025-01-15T10:00:00Z" "/api/x" "GET" (-10) 200 "user_003" ].

Definition report_or_empty (r : result report) : report :=
  match r with
  | Ok rep => rep
  | Raise _ => empty_report
  end.

Definition sample_mixed_report : report :=
  Eval vm_compute in
    report_or_empty (analyze_api_logs fromisoformat_seconds (Some sample_mixed)).

Definition sample_extra : raw :=
  entry "2025-01-15T10:05:00Z" "/api/users" "POST" 300 500 "user_002".

Definition sample_extended_report : report :=
  Eval vm_compute in
    report_or_empty
      (analyze_api_logs fromisoformat_seconds (Some (sample_mixed ++ [sample_extra]))).

(** The timestamp [s] seconds after 2025-01-15T10:00:00Z, for [s] below
    an hour. *)
Definition stamp (s : Z) : string :=
  ("2025-01-15T10:" ++ pad2 (s / 60) ++ ":" ++ pad2 (s mod 60) ++ "Z")%string.

(** Twelve failing requests to one endpoint, one second apart. *)
Definition error_burst : list raw :=
  map (fun s => entry (stamp s) "/api/pay" "POST" 100 500 "user_001")
      (map Z.of_nat (seq 0 12)).

Definition error_burst_report : report :=
  Eval vm_compute in
    report_or_empty (analyze_api_logs fromisoformat_seconds (Some error_burst)).

(** Ten requests more than 300 seconds apart, then ten within ten
    seconds. *)
Definition spike_logs : list raw :=
  map (fun s => entry (stamp s) "/api/feed" "GET" 100 200 "user_001")
      (map (fun i => Z.of_nat i * 301) (seq 0 10)
       ++ map (fun i => 3100 + Z.of_nat i) (seq 0 10)).

Definition spike_report : report :=
  Eval vm_compute in
    report_or_empty (analyze_api_logs fromisoformat_seconds (Some spike_logs)).

(** One hundred requests, sixty of them by one user. *)
Definition skewed_logs : list raw :=
  repeat (entry "2025-01-15T10:00:00Z" "/api/users" "GET" 100 200 "user_a") 60
  ++ repeat (entry "2025-01-15T10:00:00Z" "/api/users" "GET" 100 200 "user_b") 40.

Definition skewed_report : report :=
  Eval vm_compute in
    report_or_empty (analyze_api_logs fromisoformat_seconds (Some skewed_logs)).

(** Two slow requests to one endpoint, one of them failing. *)
Definition slow_failing_logs : list raw :=
  [ entry "2025-01-15T10:00:00Z" "/api/reports" "GET" 2500 500 "user_001";
    entry "2025-01-15T10:00:01Z" "/api/reports" "GET" 2600 200 "user_002" ].

Definition slow_failing_report : report :=
  Eval vm_compute in
    report_or_empty
      (analyze_api_logs fromisoformat_seconds (Some slow_failing_logs)).

(** 150 requests to one endpoint, 130 of them GET, none failing, all
    with the same response time. *)
Definition mostly_get_logs : list raw :=
  repeat (entry "2025-01-15T10:00:00Z" "/api/items" "GET" 100 200 "user_a") 130
  ++ repeat (entry "2025-01-15T11:00:00Z" "/api/items" "POST" 100 200 "user_b") 20.

Definition mostly_get_report : report :=
  Eval vm_compute in
    report_or_empty (analyze_api_logs fromisoformat_seconds (Some mostly_get_logs)).

(** A timestamp with a [Z] suffix followed by one without any offset. *)
Definition aware_then_naive : list raw :=
  [ entry "2025-01-15T10:00:00Z" "/api/users" "GET" 120 200 "user_001";
    entry "2025-01-15T10:05:00" "/api/users" "GET" 130 200 "user_002" ].

(** One request stamped 10:30 at UTC+05:30, which is 05:00 UTC. *)
Definition offset_logs : list raw :=
  [ entry "2025-01-15T10:30:00+05:30" "/api/users" "GET" 120 200 "user_001" ].

(** ** Further vocabulary *)

Definition all_aware (evs : list event) : bool :=
  forallb (fun ev => aware (ev_ts ev)) evs.

Definition all_naive (evs : list event) : bool :=
  forallb (fun ev => negb (aware (ev_ts ev))) evs.

(** The loop state has seen a valid event, and the bounds of the time
    range it holds are of kind [k] (aware or naive). *)
Definition seen_kind (k : bool) (st : state) : Prop :=
  (exists t, earliest st = Some t /\ aware t = k)
  /\ (exists t, latest st = Some t /\ aware t = k).

(** The time range held by the loop state fits the events [evs] seen so
    far: each bound is the timestamp of one of them, no event is earlier
    than [earliest] or later than [latest], and a bound is missing only
    when no event was seen. *)
Definition time_range_of (evs : list event) (st : state) : Prop :=
  (forall t, earliest st = Some t ->
             In t (map ev_ts evs)
             /\ forall ev, In ev evs -> instant_us t <= instant_us (ev_ts ev))
  /\ (forall t, latest st = Some t ->
                In t (map ev_ts evs)
                /\ forall ev, In ev evs -> instant_us (ev_ts ev) <= instant_us t)
  /\ (earliest st = None -> evs = [])
  /\ (latest st = None -> evs = []).

Definition is_degradation_of (ep : string) (a : anomaly) : bool :=
  match a with
  | ResponseDegradation ep' _ _ _ => String.eqb ep' ep
  | _ => false
  end.

Definition is_recommendation_of (ep : string) (x : recommendation) : bool :=
  match x with
  | ConsiderCaching ep' _ => String.eqb ep' ep
  end.

(** The sum of the response times of a list of events, in the order the
    loop adds them. *)
Definition total_rt (evs : list event) : Q :=
  fold_left Qplus (map ev_rt evs) 0%Q.

(** The entry of the statistics for an endpoint, if there is one. *)
Definition stat_in (r : report) (ep : string) : option endpoint_stat :=
  find (fun s => String.eqb (es_endpoint s) ep) (endpoint_stats r).

Definition has_status (c : Z) (ev : event) : bool := ev_status ev =? c.

(** Three requests to one endpoint, one of them ten times slower. *)
Definition degraded_logs : list raw :=
  [ entry "2025-01-15T10:00:00Z" "/api/search" "GET" 100 200 "user_001";
    entry "2025-01-15T10:00:01Z" "/api/search" "GET" 100 200 "user_002";
    entry "2025-01-15T10:00:02Z" "/api/search" "GET" 1000 200 "user_003" ].

Definition degraded_report : report :=
  Eval vm_compute in
    report_or_empty (analyze_api_logs fromisoformat_seconds (Some degraded_logs)).

(** The same hour of the day on two dates, and another hour. *)
Definition two_days_logs : list raw :=
  [ entry "2025-01-15T10:00:00Z" "/api/users" "GET" 100 200 "user_001";
    entry "2025-01-16T10:30:00Z" "/api/users" "GET" 100 200 "user_002";
    entry "2025-01-15T11:00:00Z" "/api/users" "GET" 100 200 "user_003" ].

Definition two_days_report : report :=
  Eval vm_compute in
    report_or_empty (analyze_api_logs fromisoformat_seconds (Some two_days_logs)).

(** ** The sample generator of [utils.py] *)

(** [s.replace(old, new)] for a non-empty [old]: every occurrence, left
    to right, without overlap.  [skip] counts the characters of a match
    still to be dropped. *)
Fixpoint replace_from (old new : string) (skip : nat) (s : string) : string :=
  match s with
  | EmptyString => EmptyString
  | String c s' =>
      match skip with
      | S k => replace_from old new k s'
      | O =>
          if String.prefix old s
          then (new ++ replace_from old new (String.length old - 1) s')%string
          else String c (replace_from old new 0 s')
      end
  end.

Definition str_replace (old new s : string) : string := replace_from old new 0 s.

Definition pad6 (n : Z) : string :=
  String (digit (n / 100000)) (String (digit (n / 10000)) (pad4 n)).

(** The UTC offset as [isoformat] prints it: [+HH:MM], with [:SS] when
    the offset has seconds. *)
Definition format_offset (off : Z) : string :=
  let a := Z.abs off in
  ((if (off <? 0)%Z then "-" else "+") ++ pad2 (a / 3600)%Z ++ ":"
   ++ pad2 (a mod 3600 / 60)%Z
   ++ (if (a mod 60 =? 0)%Z then "" else ":" ++ pad2 (a mod 60)%Z))%string.

(** [t.isoformat()] *)
Definition isoformat (t : datetime) : string :=
  (pad4 (year t) ++ "-" ++ pad2 (month t) ++ "-" ++ pad2 (day t)
   ++ "T" ++ pad2 (hour t) ++ ":" ++ pad2 (minute t) ++ ":" ++ pad2 (second t)
   ++ (if (microsecond t =? 0)%Z then "" else "." ++ pad6 (microsecond t))
   ++ match tzinfo t with
      | Some off => format_offset off
      | None => ""
      end)%string.

Definition next_day (ymd : Z * Z * Z) : Z * Z * Z :=
  let '(y, m, d) := ymd in
  if d <? days_in_month y m then (y, m, d + 1)
  else if m <? 12 then (y, m + 1, 1)
  else (y + 1, 1, 1).

(** [t + timedelta(seconds=s)] for [s >= 0], as long as the result is
    within the year 9999; past it the code raises [OverflowError]. *)
Definition plus_seconds (t : datetime) (s : Z) : datetime :=
  let tot := hour t * 3600 + minute t * 60 + second t + s in
  let '(y, m, d) :=
    Nat.iter (Z.to_nat (tot / 86400)) next_day (year t, month t, day t) in
  let rest := tot mod 86400 in
  {| year := y; month := m; day := d;
     hour := rest / 3600; minute := rest mod 3600 / 60; second := rest mod 60;
     microsecond := microsecond t; tzinfo := tzinfo t |}.

(** [str(n)] for [n >= 0]. *)
Fixpoint decimal_from (fuel : nat) (n : Z) (acc : string) : string :=
  match fuel with
  | O => acc
  | S fuel' =>
      let acc' := String (digit n) acc in
      if n <? 10 then acc' else decimal_from fuel' (n / 10) acc'
  end.

Definition decimal (n : Z) : string :=
  decimal_from (S (Z.to_nat n)) n EmptyString.

(** What the calls to [random] return in one iteration of the loop.
    [random.choice] and [random.choices] return an element of their
    list, given here by an index taken modulo the length of the list;
    [random.randint(1, 200)] is [1 + r_user mod 200]. *)
Record draws := {
  r_endpoint : nat;
  r_method : nat;
  r_gauss : Q;
  r_uniform : Q;
  r_error : nat;
  r_user : Z
}.

Definition sample_endpoints : list string :=
  ["/api/users"; "/api/payments"; "/api/reports"; "/api/search";
   "/api/notifications"]%string.

Definition sample_methods : list string := ["GET"; "POST"; "PUT"; "DELETE"]%string.

Definition sample_errors : list Z := [400; 404; 500].

Definition choice {A} (l : list A) (k : nat) (dflt : A) : A :=
  nth (k mod List.length l) l dflt.

Definition default_start : datetime :=
  {| year := 2025; month := 1; day := 15; hour := 10; minute := 0; second := 0;
     microsecond := 0; tzinfo := Some 0 |}.

(** The dict appended in iteration [i]; the two size fields are left
    out, as in [log_entry]. *)
Definition sample_entry (start : datetime) (i : nat) (rnd : draws) : raw :=
  let ts := plus_seconds start ((Z.of_nat i * 2) mod 3600) in
  let rt := py_int (Qabs (r_gauss rnd)) in
  let status :=
    if Qltb (5 # 100) (r_uniform rnd) then 200
    else choice sample_errors (r_error rnd) 0 in
  Some {| timestamp := PStr (str_replace "+00:00" "Z" (isoformat ts));
          endpoint := Some (choice sample_endpoints (r_endpoint rnd) EmptyString);
          method := Some (choice sample_methods (r_method rnd) EmptyString);
          response_time_ms := PInt rt;
          status_code := PInt status;
          user_id := Some ("user_" ++ decimal (1 + r_user rnd mod 200)%Z)%string |}.

(** [generate_sample_logs(n, start)]; [rnd i] holds the random draws of
    iteration [i]. *)
Definition generate_sample_logs (rnd : nat -> draws) (n : nat)
    (start : option datetime) : list raw :=
  let start := match start with
               | Some t => t
               | None => default_start
               end in
  map (fun i => sample_entry start i (rnd i)) (seq 0 n).

(** The timestamp written [s] seconds after the default start passes
    the parser, is aware, shows hour 10 and lies [s] seconds after
    2025-01-15T10:00:00Z. *)
Definition stamp_checks (s : Z) : bool :=
  match fromisoformat_seconds
          (replace_Z (str_replace "+00:00" "Z" (isoformat (plus_seconds default_start s)))) with
  | Some t =>
      aware t && (hour t =? 10) && (timestamp_int t =? 1736935200 + s)
  | None => false
  end.

(** ** Where the arithmetic of the model is that of the code

    The model adds, subtracts and divides response times exactly and
    truncates instants exactly; the code works in binary64 floats.  The
    two agree on the inputs described here, and the theorems that decide
    something by such arithmetic are stated for them. *)

(** Whole seconds from 1970-01-01T00:00:00Z to the instant of [t]. *)
Definition epoch_second (t : datetime) : Z := instant_us t / 1000000.

(** An aware datetime from 1970 until 2^34 seconds later (the year 2514).
    There the float [t.timestamp()] still tells two microseconds apart,
    so [int(t.timestamp())] is [epoch_second t]; later it can round up to
    the next second, and a naive datetime is read in the zone of the
    process. *)
Definition in_epoch_range (t : datetime) : bool :=
  aware t && (0 <=? instant_us t) && (instant_us t <? 2 ^ 34 * 1000000).

(** Response times that are whole numbers of milliseconds, [int] or
    [float], whose total stays below 2^52: every partial sum is then a
    whole number that a float holds exactly, differences are exact, and
    the float of the quotient by the count falls on the same side of a
    whole-number cutoff, or of half a response time, as the quotient
    itself. *)
Definition whole_times (evs : list event) : bool :=
  forallb (fun ev => (Qden (ev_rt ev) =? 1)%positive) evs
  && Qltb (total_rt evs) (inject_Z (2 ^ 52)).

(** Years that [strftime("%Y")] prints with four digits on every
    platform. *)
Definition four_digit_year (t : datetime) : bool :=
  (1000 <=? year t) && (year t <=? 9999).

(** The number of events, among the first [r + 1] of a sorted sequence
    of instants in microseconds, that are at most 300 seconds older than
    the one at position [r]: the window of the specification, measured
    on the instants themselves. *)
Definition trailing_count_us (us : list Z) (r : nat) : Z :=
  count_of (fun u => nth r us 0 - u <=? 300000000) (firstn (S r) us).

(** The events whose instant lies in the 300 seconds from [lo]. *)
Definition in_span (lo : Z) (ev : event) : bool :=
  (lo <=? instant_us (ev_ts ev)) && (instant_us (ev_ts ev) <=? lo + 300000000).

(** ** A concrete parser with microseconds

    [fromisoformat_micros] reads the layout of [fromisoformat_seconds]
    with an optional fraction of six digits after the seconds. *)

Definition read_fraction (s : string) : option (Z * string) :=
  match s with
  | String c s' => if Ascii.eqb c "." then read_digits 6 0 s' else Some (0, s)
  | EmptyString => Some (0, s)
  end.

Definition fromisoformat_micros (s : string) : option datetime :=
  obind (read_digits 4 0 s) (fun '(y, s) =>
  obind (expect "-" s) (fun s =>
  obind (read_digits 2 0 s) (fun '(mo, s) =>
  obind (expect "-" s) (fun s =>
  obind (read_digits 2 0 s) (fun '(d, s) =>
  obind (expect "T" s) (fun s =>
  obind (read_digits 2 0 s) (fun '(h, s) =>
  obind (expect ":" s) (fun s =>
  obind (read_digits 2 0 s) (fun '(mi, s) =>
  obind (expect ":" s) (fun s =>
  obind (read_digits 2 0 s) (fun '(sec, s) =>
  obind (read_fraction s) (fun '(us, s) =>
  obind (read_offset s) (fun tz =>
  if (1 <=? y) && (1 <=? mo) && (mo <=? 12) && (1 <=? d)
     && (d <=? days_in_month y mo) && (h <? 24) && (mi <? 60) && (sec <? 60)
  then Some {| year := y; month := mo; day := d;
               hour := h; minute := mi; second := sec; microsecond := us;
               tzinfo := tz |}
  else None))))))))))))).

(** [2025-01-15Thh:mm:ss.uuuuuuZ] *)
Definition stamp_us (h m s us : Z) : string :=
  ("2025-01-15T" ++ pad2 h ++ ":" ++ pad2 m ++ ":" ++ pad2 s ++ "."
   ++ pad6 us ++ "Z")%string.

(** Ten requests ten minutes apart from 08:00:00, then ten more: eight
    thirty seconds apart from 10:00:00, one at 10:05:00.5 and one at
    10:05:00.9, which is 300.9 seconds after the one at 10:00:00. *)
Definition subsecond_spike_logs : list raw :=
  map (fun i => entry (stamp_us (8 + i / 6) (i mod 6 * 10) 0 0)
                      "/api/feed" "GET" 100 200 "user_001")
      (map Z.of_nat (seq 0 10))
  ++ map (fun i => entry (stamp_us 10 (i / 2) (i mod 2 * 30) 0)
                         "/api/feed" "GET" 100 200 "user_001")
         (map Z.of_nat (seq 0 8))
  ++ [entry (stamp_us 10 5 0 500000) "/api/feed" "GET" 100 200 "user_001";
      entry (stamp_us 10 5 0 900000) "/api/feed" "GET" 100 200 "user_001"].

Definition subsecond_spike_report : report :=
  Eval vm_compute in
    report_or_empty (analyze_api_logs fromisoformat_micros (Some subsecond_spike_logs)).

(** Ten failing requests: nine thirty seconds apart from 10:00:00, the
    tenth at 10:05:00.9, which is 300.9 seconds after the first. *)
Definition late_error_logs : list raw :=
  map (fun i => entry (stamp_us 10 (i / 2) (i mod 2 * 30) 0)
                      "/api/pay" "POST" 100 500 "user_001")
      (map Z.of_nat (seq 0 9))
  ++ [entry (stamp_us 10 5 0 900000) "/api/pay" "POST" 100 500 "user_001"].

Definition late_error_report : report :=
  Eval vm_compute in
    report_or_empty (analyze_api_logs fromisoformat_micros (Some late_error_logs)).

(** The sorted timestamps of [subsecond_spike_logs], the request the
    report names and the last request. *)
Definition subsecond_spike_times : list datetime :=
  sorted dt_leb
    (map ev_ts (events_of "/api/feed"
                  (valid_events fromisoformat_micros subsecond_spike_logs))).

Definition at_10_05_00_5 : datetime :=
  {| year := 2025; month := 1; day := 15; hour := 10; minute := 5; second := 0;
     microsecond := 500000; tzinfo := Some 0 |}.

Definition at_10_05_00_9 : datetime :=
  {| year := 2025; month := 1; day := 15; hour := 10; minute := 5; second := 0;
     microsecond := 900000; tzinfo := Some 0 |}.

(** The error events of [late_error_logs]. *)
Definition late_errors : list event :=
  filter is_error (events_of "/api/pay"
                     (valid_events fromisoformat_micros late_error_logs)).

(** * Facts *)

(** ** Dictionaries *)

Section ODictFacts.
Context {K V : Type}.
Variable eqb : K -> K -> bool.
Hypothesis eqb_eq : forall a b, eqb a b = true <-> a = b.

Lemma eqb_refl_k (k : K) : eqb k k = true.
Proof. apply eqb_eq; reflexivity. Qed.

Lemma eqb_neq_k (a b : K) : a <> b -> eqb a b = false.
Proof.
  intro H. destruct (eqb a b) eqn:E; [|reflexivity].
  apply eqb_eq in E. contradiction.
Qed.

Lemma get_upd (k k' : K) (f : V -> V) (dflt : V) (d : list (K * V)) :
  get eqb k (upd eqb k' f dflt d)
  = if eqb k k' then Some (f (or_dflt dflt (get eqb k' d))) else get eqb k d.
Proof.
  induction d as [|[k0 v0] d IH]; simpl.
  - destruct (eqb k k'); reflexivity.
  - destruct (eqb k' k0) eqn:E0; simpl.
    + apply eqb_eq in E0; subst k0.
      destruct (eqb k k'); reflexivity.
    + rewrite IH. destruct (eqb k k') eqn:E1.
      * apply eqb_eq in E1; subst k'. rewrite E0. reflexivity.
      * reflexivity.
Qed.

Lemma keys_upd_incl (k' : K) (f : V -> V) (dflt : V) (d : list (K * V)) (k : K) :
  In k (keys (upd eqb k' f dflt d)) <-> k = k' \/ In k (keys d).
Proof.
  unfold keys. induction d as [|[k0 v0] d IH]; simpl.
  - intuition.
  - destruct (eqb k' k0) eqn:E0; simpl.
    + apply eqb_eq in E0; subst k0. intuition.
    + rewrite IH. intuition.
Qed.

Lemma NoDup_keys_upd (k' : K) (f : V -> V) (dflt : V) (d : list (K * V)) :
  NoDup (keys d) -> NoDup (keys (upd eqb k' f dflt d)).
Proof.
  unfold keys. induction d as [|[k0 v0] d IH]; simpl; intro H.
  - constructor; [intros []|constructor].
  - inversion H as [|? ? Hni Hnd]; subst.
    destruct (eqb k' k0) eqn:E0; simpl.
    + constructor; assumption.
    + constructor; [|apply IH; assumption].
      intro Hin. apply (keys_upd_incl k' f dflt d k0) in Hin.
      destruct Hin as [->|Hin]; [|contradiction].
      rewrite eqb_refl_k in E0. discriminate.
Qed.

Lemma get_In (d : list (K * V)) (k : K) (v : V) :
  NoDup (keys d) -> (In (k, v) d <-> get eqb k d = Some v).
Proof.
  unfold keys. induction d as [|[k0 v0] d IH]; simpl; intro H.
  - split; [intros []|discriminate].
  - inversion H as [|? ? Hni Hnd]; subst.
    destruct (eqb k k0) eqn:E0.
    + apply eqb_eq in E0; subst k0. split.
      * intros [Heq|Hin]; [congruence|].
        exfalso. apply Hni. apply (in_map fst) in Hin. exact Hin.
      * intro Heq. left. congruence.
    + rewrite <- (IH Hnd). split; [|auto].
      intros [Heq|Hin]; [|assumption].
      inversion Heq; subst. rewrite eqb_refl_k in E0. discriminate.
Qed.

Lemma get_None_keys (d : list (K * V)) (k : K) :
  get eqb k d = None <-> ~ In k (keys d).
Proof.
  unfold keys. induction d as [|[k0 v0] d IH]; simpl.
  - intuition.
  - destruct (eqb k k0) eqn:E0.
    + apply eqb_eq in E0; subst. split; [discriminate|]. intro H. exfalso; auto.
    + rewrite IH. split; [|tauto].
      intros H [Heq|Hin]; [|auto]. subst. rewrite eqb_refl_k in E0. discriminate.
Qed.

(** Grouping a list by key with [upd]: what a key ends up holding. *)
Section Group.
Context {X : Type}.
Variable key : X -> K.
Variable f : X -> V -> V.
Variable dflt : V.

Lemma group_cons (x : X) (xs : list X) (d : list (K * V)) :
  group eqb key f dflt (x :: xs) d
  = group eqb key f dflt xs (upd eqb (key x) (f x) dflt d).
Proof. reflexivity. Qed.

Lemma get_group (xs : list X) (d : list (K * V)) (k : K) :
  get eqb k (group eqb key f dflt xs d)
  = match filter (fun x => eqb (key x) k) xs with
    | [] => get eqb k d
    | l => Some (fold_from f l (or_dflt dflt (get eqb k d)))
    end.
Proof.
  revert d. induction xs as [|x xs IH]; intro d.
  - reflexivity.
  - rewrite group_cons, IH, get_upd. simpl.
    destruct (eqb (key x) k) eqn:E.
    + apply eqb_eq in E. subst k. rewrite eqb_refl_k. simpl.
      destruct (filter (fun x0 => eqb (key x0) (key x)) xs); reflexivity.
    + assert (E' : eqb k (key x) = false).
      { apply eqb_neq_k. intro Heq. subst k.
        rewrite eqb_refl_k in E. discriminate. }
      rewrite E'. reflexivity.
Qed.

Lemma NoDup_keys_group (xs : list X) (d : list (K * V)) :
  NoDup (keys d) -> NoDup (keys (group eqb key f dflt xs d)).
Proof.
  revert d. induction xs as [|x xs IH]; intros d H.
  - exact H.
  - rewrite group_cons. apply IH. apply NoDup_keys_upd. exact H.
Qed.

Lemma keys_group (xs : list X) (d : list (K * V)) (k : K) :
  In k (keys (group eqb key f dflt xs d)) <-> In k (map key xs) \/ In k (keys d).
Proof.
  revert d. induction xs as [|x xs IH]; intros d.
  - simpl. intuition.
  - rewrite group_cons, IH, keys_upd_incl. simpl. intuition.
Qed.

End Group.
End ODictFacts.

(** ** The loop *)

Section LoopFacts.
Variable fromisoformat : string -> option datetime.

Lemma for_each_app (l1 l2 : list raw) (st : state) :
  for_each fromisoformat st (l1 ++ l2) = (st' <- for_each fromisoformat st l1 ;; for_each fromisoformat st' l2).
Proof.
  revert st. induction l1 as [|e l1 IH]; intro st; simpl.
  - reflexivity.
  - destruct (loop_body fromisoformat st e); simpl; [apply IH|reflexivity].
Qed.

Lemma valid_events_app (l1 l2 : list raw) :
  valid_events fromisoformat (l1 ++ l2) = valid_events fromisoformat l1 ++ valid_events fromisoformat l2.
Proof. unfold valid_events. apply flat_map_app. Qed.

Lemma valid_events_cons (e : raw) (logs : list raw) :
  valid_events fromisoformat (e :: logs)
  = match validate fromisoformat e with
    | Some ev => ev :: valid_events fromisoformat logs
    | None => valid_events fromisoformat logs
    end.
Proof.
  unfold valid_events. simpl. destruct (validate fromisoformat e); reflexivity.
Qed.

(** A skipped entry only moves the counter of entries seen. *)
Lemma loop_body_skip (st : state) (e : raw) :
  validate fromisoformat e = None -> loop_body fromisoformat st e = Ok (count_entry st).
Proof. unfold loop_body. intros ->. reflexivity. Qed.

Lemma accumulate_count_entry (st : state) (ev : event) :
  accumulate (count_entry st) ev = rmap count_entry (accumulate st ev).
Proof.
  unfold accumulate. simpl.
  destruct (earliest st) as [e0|]; simpl;
    [destruct (dt_lt (ev_ts ev) e0); simpl; [|reflexivity]|];
    (destruct (latest st) as [l0|]; simpl;
     [destruct (dt_lt l0 (ev_ts ev)); simpl; reflexivity|reflexivity]).
Qed.

Lemma loop_body_count_entry (st : state) (e : raw) :
  loop_body fromisoformat (count_entry st) e = rmap count_entry (loop_body fromisoformat st e).
Proof.
  unfold loop_body. destruct (validate fromisoformat e).
  - apply accumulate_count_entry.
  - reflexivity.
Qed.

Lemma for_each_count_entry (logs : list raw) (st : state) :
  for_each fromisoformat (count_entry st) logs = rmap count_entry (for_each fromisoformat st logs).
Proof.
  revert st. induction logs as [|e logs IH]; intro st; simpl.
  - reflexivity.
  - rewrite loop_body_count_entry.
    destruct (loop_body fromisoformat st e); simpl; [apply IH|reflexivity].
Qed.

Lemma build_report_count_entry (st : state) :
  build_report (count_entry st) = build_report st.
Proof. reflexivity. Qed.

(** Dropping a skipped entry from the input does not change the
    outcome of the analysis. *)
Lemma analyze_drop_skipped (l1 l2 : list raw) (e : raw) :
  validate fromisoformat e = None ->
  analyze_api_logs fromisoformat (Some (l1 ++ e :: l2))
  = analyze_api_logs fromisoformat (Some (l1 ++ l2)).
Proof.
  intro Hskip. unfold analyze_api_logs.
  rewrite !for_each_app. destruct (for_each fromisoformat initial_state l1) as [st|x]; simpl.
  - rewrite (loop_body_skip st e Hskip). simpl.
    rewrite for_each_count_entry.
    destruct (for_each fromisoformat st l2); simpl; [apply build_report_count_entry|reflexivity].
  - reflexivity.
Qed.

Lemma accumulate_fields (st st' : state) (ev : event) :
  accumulate st ev = Ok st' ->
  endpoint_info st'
  = upd String.eqb (ev_endpoint ev) (record_request ev) new_endpoint_data
        (endpoint_info st)
  /\ user_counts st' = incr String.eqb (ev_user ev) (user_counts st)
  /\ hourly st' = incr String.eqb (strftime_hour (ev_ts ev)) (hourly st)
  /\ per_endpoint_timestamps st'
     = upd String.eqb (ev_endpoint ev) (fun l => l ++ [ev_ts ev]) []
           (per_endpoint_timestamps st)
  /\ per_endpoint_errors st'
     = (if is_error ev
        then upd String.eqb (ev_endpoint ev) (fun l => l ++ [ev_ts ev]) []
                 (per_endpoint_errors st)
        else per_endpoint_errors st).
Proof.
  unfold accumulate.
  destruct (match earliest st with
            | Some e => dt_lt (ev_ts ev) e
            | None => Ok true
            end); simpl; [|discriminate].
  destruct (match latest st with
            | Some l => dt_lt l (ev_ts ev)
            | None => Ok true
            end); simpl; [|discriminate].
  intro H. inversion H; subst; clear H. simpl. repeat split.
Qed.

(** The dictionaries after the loop, as groupings of the valid events. *)
Lemma for_each_fields (logs : list raw) (st st' : state) :
  for_each fromisoformat st logs = Ok st' ->
  let evs := valid_events fromisoformat logs in
  endpoint_info st'
  = group String.eqb ev_endpoint record_request new_endpoint_data evs
          (endpoint_info st)
  /\ user_counts st'
     = group String.eqb ev_user (fun _ n => n + 1) 0 evs (user_counts st)
  /\ hourly st'
     = group String.eqb (fun ev => strftime_hour (ev_ts ev))
             (fun _ n => n + 1) 0 evs (hourly st)
  /\ per_endpoint_timestamps st'
     = group String.eqb ev_endpoint (fun ev l => l ++ [ev_ts ev]) [] evs
             (per_endpoint_timestamps st)
  /\ per_endpoint_errors st'
     = group String.eqb ev_endpoint (fun ev l => l ++ [ev_ts ev]) []
             (filter is_error evs) (per_endpoint_errors st).
Proof.
  revert st. induction logs as [|e logs IH]; intros st H; simpl in H.
  - inversion H; subst. simpl. repeat split.
  - destruct (loop_body fromisoformat st e) as [st1|x] eqn:Hbody;
      simpl in H; [|discriminate].
    specialize (IH st1 H). cbv zeta in IH |- *.
    destruct IH as (I1 & I2 & I3 & I4 & I5).
    rewrite valid_events_cons.
    unfold loop_body in Hbody.
    destruct (validate fromisoformat e) as [ev|] eqn:Hv.
    + apply accumulate_fields in Hbody.
      destruct Hbody as (A1 & A2 & A3 & A4 & A5).
      cbn [filter]. rewrite !group_cons.
      unfold incr in A2, A3. cbn [count_entry endpoint_info user_counts
        hourly per_endpoint_timestamps per_endpoint_errors] in A1, A2, A3, A4, A5.
      rewrite <- A1, <- A2, <- A3, <- A4.
      repeat split; try assumption.
      destruct (is_error ev); [rewrite group_cons, <- A5|rewrite <- A5]; assumption.
    + inversion Hbody; subst. simpl in *. repeat split; assumption.
Qed.
End LoopFacts.

(** ** Validation *)

Section ValidationFacts.
Variable fromisoformat : string -> option datetime.

(** The [try] block lets an entry through exactly when it passes
    validation in the words of the specification. *)
Lemma validate_passes (e : raw) :
  passes_validation fromisoformat e
  = match validate fromisoformat e with
    | Some _ => true
    | None => false
    end.
Proof.
  destruct e as [le|]; [|reflexivity].
  unfold passes_validation, validate, _parse_timestamp,
    parseable_timestamp, nonnegative_number, is_integer, Qltb.
  destruct (timestamp le) as [|b|z|q|s]; simpl;
    try reflexivity;
    try (destruct b; reflexivity);
    try (destruct (negb (z =? 0)); reflexivity);
    try (destruct (negb (Qeq_bool q 0)); reflexivity).
  destruct (String.eqb s ""); simpl; [reflexivity|].
  destruct (fromisoformat (replace_Z s)); simpl; [|reflexivity].
  destruct (as_number (response_time_ms le)) as [rt|]; simpl; [|reflexivity].
  destruct (Qle_bool 0 rt); simpl; [|reflexivity].
  destruct (as_int (status_code le)); reflexivity.
Qed.

Lemma valid_events_length (logs : list raw) :
  List.length (valid_events fromisoformat logs)
  = List.length (filter (passes_validation fromisoformat) logs).
Proof.
  induction logs as [|e logs IH].
  - reflexivity.
  - rewrite valid_events_cons. simpl. rewrite validate_passes.
    destruct (validate fromisoformat e); simpl; congruence.
Qed.
End ValidationFacts.

(** ** Counts *)

Lemma sum_count_upd (ev : event) (k : string) (d : list (string * endpoint_data)) :
  sumZ (map d_count (values (upd String.eqb k (record_request ev) new_endpoint_data d)))
  = sumZ (map d_count (values d)) + 1.
Proof.
  unfold values. induction d as [|[k0 v0] d IH]; simpl.
  - reflexivity.
  - destruct (String.eqb k k0); simpl; [|rewrite IH]; lia.
Qed.

Lemma sum_count_group (evs : list event) (d : list (string * endpoint_data)) :
  sumZ (map d_count
          (values (group String.eqb ev_endpoint record_request new_endpoint_data evs d)))
  = sumZ (map d_count (values d)) + Z.of_nat (List.length evs).
Proof.
  revert d. induction evs as [|ev evs IH]; intro d.
  - simpl. lia.
  - rewrite group_cons, IH, sum_count_upd. simpl List.length. lia.
Qed.

Lemma fold_from_count (evs : list event) (d : endpoint_data) :
  d_count (fold_from record_request evs d) = d_count d + Z.of_nat (List.length evs).
Proof.
  revert d. induction evs as [|ev evs IH]; intro d.
  - simpl. lia.
  - unfold fold_from in *. simpl fold_left. rewrite IH. simpl. lia.
Qed.

Lemma fold_from_incr {X} (xs : list X) (n : Z) :
  fold_from (fun (_ : X) n => n + 1) xs n = n + Z.of_nat (List.length xs).
Proof.
  revert n. induction xs as [|x xs IH]; intro n.
  - simpl. lia.
  - unfold fold_from in *. simpl fold_left. rewrite IH. simpl List.length. lia.
Qed.

Lemma fold_from_snoc {X Y} (g : X -> Y) (xs : list X) (l : list Y) :
  fold_from (fun x l => l ++ [g x]) xs l = l ++ map g xs.
Proof.
  revert l. induction xs as [|x xs IH]; intro l.
  - simpl. rewrite app_nil_r. reflexivity.
  - unfold fold_from in *. simpl fold_left. rewrite IH, <- app_assoc. reflexivity.
Qed.

(** ** The report *)

Lemma build_report_inv (st : state) (r : report) :
  build_report st = Ok r ->
  (valid_requests_of st = 0 /\ r = empty_report)
  \/ (valid_requests_of st <> 0
      /\ exists user_anomaly,
          unusual_user (user_counts st) = Ok user_anomaly
          /\ total_requests (summary r) = valid_requests_of st
          /\ endpoint_stats r
             = sorted (fun a b => - es_request_count a <=? - es_request_count b)
                      (endpoint_stats_of (endpoint_info st))
          /\ performance_issues r = performance_issues_of (endpoint_info st)
          /\ hourly_distribution r = hourly_formatted_of (hourly st)
          /\ caching_opportunities r = caching_opportunities_of (endpoint_info st)
          /\ anomalies r
             = flat_map (fun '(ep, times) => request_spike ep times)
                        (per_endpoint_timestamps st)
               ++ flat_map (fun '(ep, d) => response_degradation ep d)
                           (endpoint_info st)
               ++ flat_map (fun '(ep, errs) => error_cluster ep errs)
                           (per_endpoint_errors st)
               ++ user_anomaly).
Proof.
  unfold build_report.
  destruct (valid_requests_of st =? 0) eqn:E.
  - intro H. inversion H. left. split; [apply Z.eqb_eq; exact E|reflexivity].
  - destruct (unusual_user (user_counts st)) as [ua|x]; simpl; [|discriminate].
    intro H. inversion H; subst; clear H. right.
    split; [apply Z.eqb_neq; exact E|].
    exists ua. simpl. repeat split.
Qed.

Section ReportFacts.
Variable fromisoformat : string -> option datetime.

Lemma analyze_inv (logs : list raw) (r : report) :
  analyze_api_logs fromisoformat (Some logs) = Ok r ->
  exists st, for_each fromisoformat initial_state logs = Ok st
             /\ build_report st = Ok r.
Proof.
  unfold analyze_api_logs.
  destruct (for_each fromisoformat initial_state logs) as [st|x]; simpl;
    [|discriminate].
  intro H. exists st. split; [reflexivity|exact H].
Qed.

Lemma valid_requests_length (logs : list raw) (st : state) :
  for_each fromisoformat initial_state logs = Ok st ->
  valid_requests_of st
  = Z.of_nat (List.length (valid_events fromisoformat logs)).
Proof.
  intro H. apply for_each_fields in H. cbv zeta in H.
  destruct H as (H1 & _). unfold valid_requests_of.
  rewrite H1, sum_count_group. reflexivity.
Qed.

Lemma total_requests_length (logs : list raw) (r : report) :
  analyze_api_logs fromisoformat (Some logs) = Ok r ->
  total_requests (summary r)
  = Z.of_nat (List.length (valid_events fromisoformat logs)).
Proof.
  intro H. apply analyze_inv in H. destruct H as (st & Hst & Hr).
  rewrite <- (valid_requests_length logs st Hst).
  apply build_report_inv in Hr.
  destruct Hr as [[Hz ->]|(_ & ua & _ & Ht & _)]; [rewrite Hz; reflexivity|exact Ht].
Qed.
End ReportFacts.

(** ** C1 *)

(** C1.  Whenever the analysis returns a report, its [total_requests] is
    exactly the number of input records that pass validation (parseable
    timestamp, response time present, numeric and not negative, status
    code present and an integer).  A record that fails validation
    contributes nothing: the loop body leaves the sums, the endpoint
    aggregates, the hourly buckets, the user counts, the time range and
    both time series as they were, and the report is the one obtained
    from the input without that record. *)
Theorem C1_total_requests_counts_valid_records
    (fromisoformat : string -> option datetime) (logs : list raw) (r : report) :
  analyze_api_logs fromisoformat (Some logs) = Ok r ->
  total_requests (summary r)
  = Z.of_nat (List.length (filter (passes_validation fromisoformat) logs))
  /\ forall l1 e l2,
       logs = l1 ++ e :: l2 ->
       passes_validation fromisoformat e = false ->
       (forall st, exists st',
           loop_body fromisoformat st e = Ok st'
           /\ sum_response st' = sum_response st
           /\ endpoint_info st' = endpoint_info st
           /\ hourly st' = hourly st
           /\ user_counts st' = user_counts st
           /\ earliest st' = earliest st
           /\ latest st' = latest st
           /\ per_endpoint_timestamps st' = per_endpoint_timestamps st
           /\ per_endpoint_errors st' = per_endpoint_errors st)
       /\ analyze_api_logs fromisoformat (Some (l1 ++ l2)) = Ok r.
Proof.
  intro H. split.
  - rewrite <- valid_events_length. apply total_requests_length. exact H.
  - intros l1 e l2 -> He.
    assert (Hv : validate fromisoformat e = None).
    { rewrite validate_passes in He.
      destruct (validate fromisoformat e); [discriminate|reflexivity]. }
    split.
    + intro st. exists (count_entry st).
      split; [apply loop_body_skip; exact Hv|].
      simpl. repeat split.
    + rewrite <- (analyze_drop_skipped fromisoformat l1 l2 e Hv). exact H.
Qed.

Lemma C1_witness :
  analyze_api_logs fromisoformat_seconds (Some sample_mixed)
  = Ok sample_mixed_report
  /\ total_requests (summary sample_mixed_report) = 1.
Proof.
  assert (H : analyze_api_logs fromisoformat_seconds (Some sample_mixed)
              = Ok sample_mixed_report) by (vm_compute; reflexivity).
  split; [exact H|].
  exact (proj1 (C1_total_requests_counts_valid_records
                  fromisoformat_seconds sample_mixed sample_mixed_report H)).
Defined.

(** ** Sorting *)

Section SortingFacts.
Context {A : Type}.
Variable leb : A -> A -> bool.

Lemma insert_perm (x : A) (l : list A) : Permutation (insert leb x l) (x :: l).
Proof.
  induction l as [|y l IH]; simpl.
  - apply Permutation_refl.
  - destruct (leb x y).
    + apply Permutation_refl.
    + apply perm_trans with (y :: x :: l).
      * apply perm_skip. exact IH.
      * apply perm_swap.
Qed.

Lemma sorted_perm (l : list A) : Permutation (sorted leb l) l.
Proof.
  induction l as [|x l IH]; simpl.
  - apply perm_nil.
  - apply perm_trans with (x :: sorted leb l).
    + apply insert_perm.
    + apply perm_skip. exact IH.
Qed.

Lemma sorted_length (l : list A) : List.length (sorted leb l) = List.length l.
Proof. apply Permutation_length. apply sorted_perm. Qed.

Hypothesis leb_total : forall a b, leb a b = true \/ leb b a = true.
Hypothesis leb_trans : forall a b c, leb a b = true -> leb b c = true -> leb a c = true.

Lemma insert_sorted (x : A) (l : list A) :
  StronglySorted (fun a b => leb a b = true) l ->
  StronglySorted (fun a b => leb a b = true) (insert leb x l).
Proof.
  induction 1 as [|y l Hs IH Hall]; simpl.
  - constructor; constructor.
  - destruct (leb x y) eqn:E.
    + constructor; [constructor; assumption|].
      constructor; [exact E|].
      rewrite Forall_forall in *. intros z Hz. eapply leb_trans; eauto.
    + constructor; [exact IH|].
      rewrite Forall_forall in *. intros z Hz.
      apply (Permutation_in _ (insert_perm x l)) in Hz.
      destruct Hz as [<-|Hz]; [|auto].
      destruct (leb_total x y) as [H|H]; [congruence|exact H].
Qed.

Lemma sorted_sorted (l : list A) :
  StronglySorted (fun a b => leb a b = true) (sorted leb l).
Proof.
  induction l as [|x l IH]; simpl.
  - constructor.
  - apply insert_sorted. exact IH.
Qed.
End SortingFacts.

(** ** Looking an endpoint up in the statistics *)

Lemma NoDup_map_inj {A B} (f : A -> B) (l : list A) (x y : A) :
  NoDup (map f l) -> In x l -> In y l -> f x = f y -> x = y.
Proof.
  induction l as [|a l IH]; simpl; intros Hnd Hx Hy Hf; [contradiction|].
  inversion Hnd as [|? ? Hni Hnd']; subst.
  destruct Hx as [<-|Hx], Hy as [<-|Hy].
  - reflexivity.
  - exfalso. apply Hni. rewrite Hf. apply in_map. exact Hy.
  - exfalso. apply Hni. rewrite <- Hf. apply in_map. exact Hx.
  - apply IH; assumption.
Qed.

Lemma find_perm_unique {A} (name : A -> string) (ep : string) (l l' : list A) :
  NoDup (map name l) -> Permutation l l' ->
  find (fun s => String.eqb (name s) ep) l
  = find (fun s => String.eqb (name s) ep) l'.
Proof.
  intros Hnd Hp.
  destruct (find (fun s => String.eqb (name s) ep) l) as [x|] eqn:Hx.
  - apply find_some in Hx. destruct Hx as (Hin & Hn).
    destruct (find (fun s => String.eqb (name s) ep) l') as [y|] eqn:Hy.
    + apply find_some in Hy. destruct Hy as (Hin' & Hn').
      apply Permutation_sym in Hp. apply (Permutation_in _ Hp) in Hin'.
      apply String.eqb_eq in Hn, Hn'.
      f_equal. apply (NoDup_map_inj name l); congruence.
    + exfalso. apply (Permutation_in _ Hp) in Hin.
      pose proof (find_none _ _ Hy x Hin) as Hc. simpl in Hc. congruence.
  - destruct (find (fun s => String.eqb (name s) ep) l') as [y|] eqn:Hy;
      [|reflexivity].
    exfalso. apply find_some in Hy. destruct Hy as (Hin' & Hn').
    apply Permutation_sym in Hp. apply (Permutation_in _ Hp) in Hin'.
    pose proof (find_none _ _ Hx y Hin') as Hc. simpl in Hc. congruence.
Qed.

Lemma find_stat_get (ep : string) (info : list (string * endpoint_data)) :
  find (fun s => String.eqb (es_endpoint s) ep) (endpoint_stats_of info)
  = option_map (stat_of ep) (get String.eqb ep info).
Proof.
  unfold endpoint_stats_of. induction info as [|[k d] info IH]; simpl.
  - reflexivity.
  - rewrite String.eqb_sym. destruct (String.eqb ep k) eqn:E.
    + apply String.eqb_eq in E. subst k. reflexivity.
    + exact IH.
Qed.

Lemma stats_names (info : list (string * endpoint_data)) :
  map es_endpoint (endpoint_stats_of info) = keys info.
Proof.
  unfold endpoint_stats_of, keys. rewrite map_map.
  apply map_ext. intros [k d]. reflexivity.
Qed.

Section RequestCount.
Variable fromisoformat : string -> option datetime.

(** The endpoint aggregates after the loop. *)
Lemma endpoint_info_get (logs : list raw) (st : state) (ep : string) :
  for_each fromisoformat initial_state logs = Ok st ->
  NoDup (keys (endpoint_info st))
  /\ get String.eqb ep (endpoint_info st)
     = match events_of ep (valid_events fromisoformat logs) with
       | [] => None
       | l => Some (aggregate l)
       end.
Proof.
  intro H. apply for_each_fields in H. cbv zeta in H.
  destruct H as (H1 & _). rewrite H1. split.
  - apply NoDup_keys_group; [apply String.eqb_eq|constructor].
  - rewrite get_group by apply String.eqb_eq. reflexivity.
Qed.

Lemma aggregate_count (evs : list event) :
  d_count (aggregate evs) = Z.of_nat (List.length evs).
Proof. unfold aggregate. apply (fold_from_count evs new_endpoint_data). Qed.

(** The request count the report shows for an endpoint is the number
    of valid events of that endpoint. *)
Lemma report_request_count (logs : list raw) (r : report) (ep : string) :
  analyze_api_logs fromisoformat (Some logs) = Ok r ->
  request_count_in r ep
  = Z.of_nat (List.length (events_of ep (valid_events fromisoformat logs))).
Proof.
  intro H. apply analyze_inv in H. destruct H as (st & Hst & Hr).
  pose proof (valid_requests_length fromisoformat logs st Hst) as Hlen.
  destruct (endpoint_info_get logs st ep Hst) as (Hnd & Hget).
  apply build_report_inv in Hr.
  destruct Hr as [[Hz ->]|(_ & ua & _ & _ & Hs & _)].
  - rewrite Hz in Hlen.
    destruct (valid_events fromisoformat logs); [reflexivity|].
    simpl List.length in Hlen. lia.
  - unfold request_count_in. rewrite Hs.
    rewrite <- (find_perm_unique es_endpoint ep (endpoint_stats_of (endpoint_info st))).
    + rewrite find_stat_get, Hget.
      destruct (events_of ep (valid_events fromisoformat logs)) as [|ev l] eqn:E.
      * reflexivity.
      * simpl option_map. cbv iota. simpl es_request_count.
        apply aggregate_count.
    + rewrite stats_names. exact Hnd.
    + apply Permutation_sym. apply sorted_perm.
Qed.
End RequestCount.

(** ** C9 *)

(** C9.  Let a record that passes validation be appended to an input
    sequence, and let the analysis return a report on both sequences.
    Then [total_requests] of the new report is that of the original plus
    exactly 1, and no endpoint's [request_count] is smaller in the new
    report than in the original (an endpoint without an entry counts 0). *)
Theorem C9_appending_a_valid_record
    (fromisoformat : string -> option datetime)
    (logs : list raw) (e : raw) (r r' : report) :
  passes_validation fromisoformat e = true ->
  analyze_api_logs fromisoformat (Some logs) = Ok r ->
  analyze_api_logs fromisoformat (Some (logs ++ [e])) = Ok r' ->
  total_requests (summary r') = total_requests (summary r) + 1
  /\ forall ep, request_count_in r ep <= request_count_in r' ep.
Proof.
  intros He H H'.
  rewrite validate_passes in He.
  destruct (validate fromisoformat e) as [ev|] eqn:Hv; [clear He|discriminate].
  assert (Hevs : valid_events fromisoformat (logs ++ [e])
                 = valid_events fromisoformat logs ++ [ev]).
  { rewrite valid_events_app, valid_events_cons, Hv. reflexivity. }
  split.
  - rewrite (total_requests_length fromisoformat _ _ H).
    rewrite (total_requests_length fromisoformat _ _ H').
    rewrite Hevs, length_app. simpl. lia.
  - intro ep.
    rewrite (report_request_count fromisoformat _ _ ep H).
    rewrite (report_request_count fromisoformat _ _ ep H').
    rewrite Hevs. unfold events_of. rewrite filter_app, length_app. lia.
Qed.

Lemma C9_witness :
  passes_validation fromisoformat_seconds sample_extra = true
  /\ total_requests (summary sample_extended_report)
     = total_requests (summary sample_mixed_report) + 1
  /\ request_count_in sample_mixed_report "/api/users"
     <= request_count_in sample_extended_report "/api/users".
Proof.
  assert (He : passes_validation fromisoformat_seconds sample_extra = true)
    by (vm_compute; reflexivity).
  assert (H : analyze_api_logs fromisoformat_seconds (Some sample_mixed)
              = Ok sample_mixed_report) by (vm_compute; reflexivity).
  assert (H' : analyze_api_logs fromisoformat_seconds
                 (Some (sample_mixed ++ [sample_extra]))
               = Ok sample_extended_report) by (vm_compute; reflexivity).
  destruct (C9_appending_a_valid_record fromisoformat_seconds
              sample_mixed sample_extra sample_mixed_report
              sample_extended_report He H H') as (Ht & Hc).
  split; [exact He|]. split; [exact Ht|apply Hc].
Defined.

(** ** The sliding window *)

Section Window.
Variable secs : list Z.

Lemma advance_bounds (fuel right left : nat) :
  (left <= advance fuel secs right left <= left + fuel)%nat.
Proof.
  revert left. induction fuel as [|fuel IH]; intro left; simpl.
  - lia.
  - destruct (nth right secs 0 - nth left secs 0 >? 300).
    + specialize (IH (S left)). lia.
    + lia.
Qed.

(** With [right - left] steps of fuel the [while] loop has run to its
    exit: the condition is false at the position returned. *)
Lemma advance_exit (fuel right left : nat) :
  (left + fuel = right)%nat ->
  nth right secs 0 - nth (advance fuel secs right left) secs 0 <= 300.
Proof.
  revert left. induction fuel as [|fuel IH]; intros left H; simpl.
  - replace left with right by lia. lia.
  - destruct (nth right secs 0 - nth left secs 0 >? 300) eqn:E.
    + apply IH. lia.
    + rewrite Z.gtb_ltb in E. apply Z.ltb_ge in E. exact E.
Qed.

Lemma advance_skipped (fuel right left j : nat) :
  (left <= j < advance fuel secs right left)%nat ->
  nth right secs 0 - nth j secs 0 > 300.
Proof.
  revert left. induction fuel as [|fuel IH]; intros left H; simpl in H.
  - lia.
  - destruct (nth right secs 0 - nth left secs 0 >? 300) eqn:E.
    + destruct (Nat.eq_dec j left) as [->|Hne].
      * rewrite Z.gtb_ltb in E. apply Z.ltb_lt in E. lia.
      * apply (IH (S left)). lia.
    + lia.
Qed.

Lemma left_after_step (r : nat) :
  left_after secs r = advance (r - left_before secs r) secs r (left_before secs r).
Proof. destruct r; reflexivity. Qed.

Lemma left_after_le (r : nat) : (left_after secs r <= r)%nat.
Proof.
  induction r as [|r IH].
  - simpl. lia.
  - rewrite left_after_step. unfold left_before.
    pose proof (advance_bounds (S r - left_after secs r) (S r) (left_after secs r)).
    lia.
Qed.

Lemma left_before_le (r : nat) : (left_before secs r <= r)%nat.
Proof. destruct r; simpl; [lia|]. pose proof (left_after_le r). lia. Qed.

Lemma left_after_mono (r : nat) : (left_after secs r <= left_after secs (S r))%nat.
Proof.
  rewrite (left_after_step (S r)). unfold left_before.
  pose proof (advance_bounds (S r - left_after secs r) (S r) (left_after secs r)).
  lia.
Qed.

Lemma left_after_exit (r : nat) :
  nth r secs 0 - nth (left_after secs r) secs 0 <= 300.
Proof.
  rewrite left_after_step. apply advance_exit.
  pose proof (left_before_le r). lia.
Qed.

Lemma width_first : width secs 0 = 1.
Proof. unfold width. pose proof (left_after_le 0). lia. Qed.

(** The window grows by at most one element per step. *)
Lemma width_step (r : nat) : width secs (S r) <= width secs r + 1.
Proof. unfold width. pose proof (left_after_mono r). lia. Qed.

Lemma sliding_width (todo r : nat) :
  sliding secs todo r (left_before secs r) = map (width secs) (seq r todo).
Proof.
  revert r. induction todo as [|todo IH]; intro r; simpl.
  - reflexivity.
  - rewrite <- left_after_step. f_equal. apply (IH (S r)).
Qed.

Lemma window_counts_width :
  window_counts secs = map (width secs) (seq 0 (List.length secs)).
Proof. unfold window_counts. apply (sliding_width (List.length secs) 0). Qed.

Lemma cluster_scan_find (todo r : nat) :
  cluster_scan secs todo r (left_before secs r)
  = option_map (fun k => (left_after secs k, k))
               (find (fun k => width secs k >=? 10) (seq r todo)).
Proof.
  revert r. induction todo as [|todo IH]; intro r; simpl.
  - reflexivity.
  - rewrite <- left_after_step. fold (width secs r).
    destruct (width secs r >=? 10); [reflexivity|apply (IH (S r))].
Qed.

Hypothesis secs_ascending : ascending secs.

Lemma left_after_skipped (r j : nat) :
  (r < List.length secs)%nat -> (j < left_after secs r)%nat ->
  nth r secs 0 - nth j secs 0 > 300.
Proof.
  revert j. induction r as [|r IH]; intros j Hr Hj.
  - pose proof (left_after_le 0). lia.
  - destruct (Nat.lt_ge_cases j (left_after secs r)) as [Hlt|Hge].
    + assert (nth r secs 0 - nth j secs 0 > 300) by (apply IH; lia).
      assert (nth r secs 0 <= nth (S r) secs 0) by (apply secs_ascending; lia).
      lia.
    + rewrite (left_after_step (S r)) in Hj. unfold left_before in Hj.
      apply (advance_skipped (S r - left_after secs r) (S r) (left_after secs r)).
      lia.
Qed.

Lemma left_after_inside (r j : nat) :
  (r < List.length secs)%nat -> (left_after secs r <= j <= r)%nat ->
  nth r secs 0 - nth j secs 0 <= 300.
Proof.
  intros Hr Hj. pose proof (left_after_exit r).
  assert (nth (left_after secs r) secs 0 <= nth j secs 0)
    by (apply secs_ascending; lia).
  lia.
Qed.
End Window.

Lemma filter_threshold {A} (p : A -> bool) (d : A) (l : list A) (a : nat) :
  (a <= List.length l)%nat ->
  (forall j, (j < a)%nat -> p (nth j l d) = false) ->
  (forall j, (a <= j < List.length l)%nat -> p (nth j l d) = true) ->
  List.length (filter p l) = (List.length l - a)%nat.
Proof.
  revert a. induction l as [|x l IH]; intros a Ha Hlo Hhi; simpl in *.
  - lia.
  - destruct a as [|a].
    + rewrite (Hhi O) by lia. simpl. rewrite (IH O); try lia.
      intros j Hj. apply (Hhi (S j)). lia.
    + rewrite (Hlo O) by lia. apply IH; try lia.
      * intros j Hj. apply (Hlo (S j)). lia.
      * intros j Hj. apply (Hhi (S j)). lia.
Qed.

(** On an ascending sequence the window count of the loop at position
    [r] is the number of events, up to [r], at most 300 seconds older
    than the event at [r]. *)
Lemma width_trailing_count (secs : list Z) (r : nat) :
  ascending secs -> (r < List.length secs)%nat ->
  width secs r = trailing_count secs r.
Proof.
  intros Hasc Hr. unfold trailing_count, count_of, width.
  pose proof (left_after_le secs r) as Hle.
  assert (Hlen : List.length (firstn (S r) secs) = S r)
    by (rewrite length_firstn; lia).
  rewrite (filter_threshold _ 0 (firstn (S r) secs) (left_after secs r)).
  - rewrite Hlen. lia.
  - lia.
  - intros j Hj. rewrite nth_firstn.
    replace (j <? S r)%nat with true by (symmetry; apply Nat.ltb_lt; lia).
    apply Z.leb_gt.
    pose proof (left_after_skipped secs Hasc r j Hr Hj). lia.
  - intros j Hj. rewrite nth_firstn.
    replace (j <? S r)%nat with true by (symmetry; apply Nat.ltb_lt; lia).
    apply Z.leb_le. apply (left_after_inside secs Hasc r j Hr). lia.
Qed.

Lemma find_seq_first (p : nat -> bool) (todo r k : nat) :
  find p (seq r todo) = Some k ->
  (r <= k < r + todo)%nat /\ p k = true
  /\ forall j, (r <= j < k)%nat -> p j = false.
Proof.
  revert r. induction todo as [|todo IH]; intros r H; simpl in H.
  - discriminate.
  - destruct (p r) eqn:E.
    + inversion H; subst. repeat split; try lia. exact E.
    + apply IH in H. destruct H as (Hk & Hp & Hj).
      repeat split; try lia; [exact Hp|].
      intros j Hjr. destruct (Nat.eq_dec j r) as [->|Hne]; [exact E|].
      apply Hj. lia.
Qed.

Lemma find_seq_none (p : nat -> bool) (todo r : nat) :
  find p (seq r todo) = None ->
  forall j, (r <= j < r + todo)%nat -> p j = false.
Proof.
  intros H j Hj. apply (find_none _ _ H). apply in_seq. lia.
Qed.

(** The cluster loop breaks at a window of exactly ten. *)
Lemma first_wide_window (secs : list Z) (k : nat) :
  width secs k >= 10 ->
  (forall j, (j < k)%nat -> width secs j < 10) ->
  width secs k = 10.
Proof.
  intros Hk Hbefore. destruct k as [|k].
  - rewrite width_first in Hk. lia.
  - pose proof (width_step secs k). pose proof (Hbefore k). lia.
Qed.

Lemma index_spec (x : Z) (l : list Z) :
  In x l ->
  (index x l < List.length l)%nat
  /\ nth (index x l) l 0 = x
  /\ forall j, (j < index x l)%nat -> nth j l 0 <> x.
Proof.
  induction l as [|y l IH]; simpl; intro H; [contradiction|].
  destruct (x =? y) eqn:E.
  - apply Z.eqb_eq in E. subst. repeat split; try lia.
  - apply Z.eqb_neq in E. destruct H as [H|H]; [congruence|].
    destruct (IH H) as (I1 & I2 & I3). split; [lia|]. split; [exact I2|].
    intros [|j] Hj; [congruence|]. apply I3. lia.
Qed.

Lemma fold_left_max_ge (l : list Z) (x : Z) :
  x <= fold_left Z.max l x /\ forall y, In y l -> y <= fold_left Z.max l x.
Proof.
  revert x. induction l as [|z l IH]; intro x; simpl.
  - split; [lia|intros y []].
  - destruct (IH (Z.max x z)) as (I1 & I2). split; [lia|].
    intros y [<-|Hy]; [lia|auto].
Qed.

Lemma fold_left_max_in (l : list Z) (x : Z) :
  fold_left Z.max l x = x \/ In (fold_left Z.max l x) l.
Proof.
  revert x. induction l as [|z l IH]; intro x; simpl.
  - left. reflexivity.
  - destruct (IH (Z.max x z)) as [H|H]; [|right; right; exact H].
    rewrite H. destruct (Z.max_spec x z) as [[_ ->]|[_ ->]]; [right; left|left]; reflexivity.
Qed.

Lemma max_of_spec (l : list Z) :
  l <> [] -> In (max_of l) l /\ forall y, In y l -> y <= max_of l.
Proof.
  destruct l as [|x l]; [congruence|]. intros _. simpl. split.
  - destruct (fold_left_max_in l x) as [H|H]; [left; symmetry; exact H|right; exact H].
  - pose proof (fold_left_max_ge l x) as (H1 & H2).
    intros y [<-|Hy]; [exact H1|auto].
Qed.

(** ** Sorted sequences are ascending *)

Lemma StronglySorted_ascending (l : list Z) :
  StronglySorted (fun a b => (a <=? b) = true) l -> ascending l.
Proof.
  induction 1 as [|x l Hs IH Hall]; intros i j Hij Hj; simpl in Hj.
  - lia.
  - destruct j as [|j].
    + replace i with O by lia. simpl. lia.
    + destruct i as [|i]; simpl.
      * rewrite Forall_forall in Hall. apply Z.leb_le. apply Hall.
        apply nth_In. lia.
      * apply IH; lia.
Qed.

Lemma Z_leb_total (a b : Z) : (a <=? b) = true \/ (b <=? a) = true.
Proof. rewrite !Z.leb_le. lia. Qed.

Lemma Z_leb_trans (a b c : Z) :
  (a <=? b) = true -> (b <=? c) = true -> (a <=? c) = true.
Proof. rewrite !Z.leb_le. lia. Qed.

Lemma sorted_Z_ascending (l : list Z) : ascending (sorted Z.leb l).
Proof.
  apply StronglySorted_ascending.
  apply sorted_sorted; [exact Z_leb_total|exact Z_leb_trans].
Qed.

Lemma timestamp_int_mono (a b : datetime) :
  dt_leb a b = true -> timestamp_int a <= timestamp_int b.
Proof.
  unfold dt_leb, timestamp_int. intro H. apply Z.leb_le in H.
  apply Z.quot_le_mono; lia.
Qed.

Lemma sorted_times_ascending (times : list datetime) :
  ascending (map timestamp_int (sorted dt_leb times)).
Proof.
  apply StronglySorted_ascending.
  assert (Hs : StronglySorted (fun a b => dt_leb a b = true) (sorted dt_leb times)).
  { apply sorted_sorted; unfold dt_leb; intros.
    - apply Z_leb_total.
    - eapply Z_leb_trans; eassumption. }
  induction Hs as [|x l Hs IH Hall]; simpl.
  - constructor.
  - constructor; [exact IH|].
    rewrite Forall_forall in *. intros z Hz.
    apply in_map_iff in Hz. destruct Hz as (y & <- & Hy).
    apply Z.leb_le. apply timestamp_int_mono. apply Hall. exact Hy.
Qed.

(** ** Anomalies by endpoint *)

Lemma filter_none {A} (p : A -> bool) (l : list A) :
  (forall a, In a l -> p a = false) -> filter p l = [].
Proof.
  induction l as [|x l IH]; simpl; intro H; [reflexivity|].
  rewrite (H x) by (left; reflexivity). apply IH. intros a Ha. apply H. right. exact Ha.
Qed.

Lemma filter_all {A} (p : A -> bool) (l : list A) :
  (forall a, In a l -> p a = true) -> filter p l = l.
Proof.
  induction l as [|x l IH]; simpl; intro H; [reflexivity|].
  rewrite (H x) by (left; reflexivity). f_equal. apply IH.
  intros a Ha. apply H. right. exact Ha.
Qed.

Lemma filter_flat_map_key {V A} (g : string -> V -> list A)
    (tag : string -> A -> bool) (d : list (string * V)) (ep : string) :
  (forall k v a, In a (g k v) -> tag ep a = String.eqb k ep) ->
  NoDup (keys d) ->
  filter (tag ep) (flat_map (fun '(k, v) => g k v) d)
  = match get String.eqb ep d with
    | Some v => g ep v
    | None => []
    end.
Proof.
  intros Htag. induction d as [|[k v] d IH]; simpl; intro Hnd; [reflexivity|].
  unfold keys in Hnd. simpl in Hnd. inversion Hnd as [|? ? Hni Hnd']; subst.
  rewrite filter_app. rewrite (IH Hnd').
  destruct (String.eqb ep k) eqn:E.
  - apply String.eqb_eq in E. subst k.
    rewrite filter_all.
    + replace (get String.eqb ep d) with (@None V); [apply app_nil_r|].
      symmetry. apply (get_None_keys String.eqb String.eqb_eq). exact Hni.
    + intros a Ha. rewrite (Htag ep v a Ha). apply String.eqb_refl.
  - rewrite filter_none; [reflexivity|].
    intros a Ha. rewrite (Htag k v a Ha). rewrite String.eqb_sym. exact E.
Qed.

Lemma request_spike_tag (ep k : string) (times : list datetime) (a : anomaly) :
  In a (request_spike k times) ->
  is_spike_of ep a = String.eqb k ep
  /\ is_cluster_of ep a = false /\ is_user_anomaly a = false.
Proof.
  unfold request_spike. destruct times as [|t0 times]; [intros []|].
  match goal with |- In a (if ?c then _ else _) -> _ => destruct c end;
    [|intros []].
  intros [<-|[]]. repeat split.
Qed.

Lemma response_degradation_tag (ep k : string) (d : endpoint_data) (a : anomaly) :
  In a (response_degradation k d) ->
  is_spike_of ep a = false
  /\ is_cluster_of ep a = false /\ is_user_anomaly a = false.
Proof.
  unfold response_degradation. destruct (d_max_response d); [|intros []].
  match goal with |- In a (if ?c then _ else _) -> _ => destruct c end;
    [|intros []].
  intros [<-|[]]. repeat split.
Qed.

Lemma error_cluster_tag (ep k : string) (errs : list datetime) (a : anomaly) :
  In a (error_cluster k errs) ->
  is_spike_of ep a = false
  /\ is_cluster_of ep a = String.eqb k ep /\ is_user_anomaly a = false.
Proof.
  unfold error_cluster. destruct errs as [|t0 errs]; [intros []|].
  match goal with |- In a (match ?c with _ => _ end) -> _ => destruct c as [[l r]|] end;
    [|intros []].
  intros [<-|[]]. repeat split.
Qed.

Lemma unusual_user_tag (ep : string) (uc : list (string * Z)) (ua : list anomaly) (a : anomaly) :
  unusual_user uc = Ok ua -> In a ua ->
  is_spike_of ep a = false
  /\ is_cluster_of ep a = false /\ is_user_anomaly a = true.
Proof.
  unfold unusual_user. destruct (most_common_1 uc) as [[u c]|]; [|discriminate].
  match goal with |- (if ?c then _ else _) = _ -> _ => destruct c end;
    intro H; inversion H; subst; [|intros []].
  intros [<-|[]]. repeat split.
Qed.

Lemma filter_comm {A} (p q : A -> bool) (l : list A) :
  filter p (filter q l) = filter q (filter p l).
Proof.
  induction l as [|x l IH]; simpl; [reflexivity|].
  destruct (p x) eqn:Ep, (q x) eqn:Eq; simpl; rewrite ?Ep, ?Eq, IH; reflexivity.
Qed.

Section SeriesFacts.
Variable fromisoformat : string -> option datetime.

(** The time series of an endpoint after the loop: the timestamps of its
    valid events in arrival order. *)
Lemma timestamps_get (logs : list raw) (st : state) (ep : string) :
  for_each fromisoformat initial_state logs = Ok st ->
  NoDup (keys (per_endpoint_timestamps st))
  /\ get String.eqb ep (per_endpoint_timestamps st)
     = match events_of ep (valid_events fromisoformat logs) with
       | [] => None
       | l => Some (map ev_ts l)
       end.
Proof.
  intro H. apply for_each_fields in H. cbv zeta in H.
  destruct H as (_ & _ & _ & H4 & _). rewrite H4. split.
  - apply NoDup_keys_group; [apply String.eqb_eq|constructor].
  - rewrite get_group by apply String.eqb_eq. fold (events_of ep (valid_events fromisoformat logs)).
    destruct (events_of ep (valid_events fromisoformat logs)) as [|ev l]; [reflexivity|].
    rewrite fold_from_snoc. reflexivity.
Qed.

Lemma errors_get (logs : list raw) (st : state) (ep : string) :
  for_each fromisoformat initial_state logs = Ok st ->
  NoDup (keys (per_endpoint_errors st))
  /\ get String.eqb ep (per_endpoint_errors st)
     = match filter is_error (events_of ep (valid_events fromisoformat logs)) with
       | [] => None
       | l => Some (map ev_ts l)
       end.
Proof.
  intro H. apply for_each_fields in H. cbv zeta in H.
  destruct H as (_ & _ & _ & _ & H5). rewrite H5. split.
  - apply NoDup_keys_group; [apply String.eqb_eq|constructor].
  - rewrite get_group by apply String.eqb_eq.
    unfold events_of. rewrite (filter_comm is_error).
    destruct (filter (fun ev => String.eqb (ev_endpoint ev) ep)
                (filter is_error (valid_events fromisoformat logs)))
      as [|ev l]; [reflexivity|].
    rewrite fold_from_snoc. reflexivity.
Qed.

Lemma no_valid_events (logs : list raw) (st : state) :
  for_each fromisoformat initial_state logs = Ok st ->
  valid_requests_of st = 0 -> valid_events fromisoformat logs = [].
Proof.
  intros H Hz. rewrite (valid_requests_length fromisoformat logs st H) in Hz.
  destruct (valid_events fromisoformat logs); [reflexivity|simpl in Hz; lia].
Qed.

(** The spikes the report holds for an endpoint are those of the spike
    loop on that endpoint's time series. *)
Lemma report_spikes (logs : list raw) (r : report) (ep : string) :
  analyze_api_logs fromisoformat (Some logs) = Ok r ->
  filter (is_spike_of ep) (anomalies r)
  = request_spike ep (map ev_ts (events_of ep (valid_events fromisoformat logs))).
Proof.
  intro H. apply analyze_inv in H. destruct H as (st & Hst & Hr).
  apply build_report_inv in Hr.
  destruct Hr as [[Hz ->]|(_ & ua & Hua & _ & _ & _ & _ & _ & Ha)].
  - rewrite (no_valid_events logs st Hst Hz). reflexivity.
  - rewrite Ha, !filter_app.
    destruct (timestamps_get logs st ep Hst) as (Hnd & Hget).
    rewrite (filter_flat_map_key request_spike is_spike_of); [|
      intros k v a Hin; apply (request_spike_tag ep k v a Hin) | exact Hnd].
    rewrite (filter_none _ (flat_map _ (endpoint_info st))).
    2:{ intros a Hin. apply in_flat_map in Hin. destruct Hin as ([k d] & _ & Hin).
        apply (response_degradation_tag ep k d a Hin). }
    rewrite (filter_none _ (flat_map _ (per_endpoint_errors st))).
    2:{ intros a Hin. apply in_flat_map in Hin. destruct Hin as ([k d] & _ & Hin).
        apply (error_cluster_tag ep k d a Hin). }
    rewrite (filter_none _ ua).
    2:{ intros a Hin. apply (unusual_user_tag ep _ ua a Hua Hin). }
    rewrite !app_nil_r, Hget.
    destruct (events_of ep (valid_events fromisoformat logs)); reflexivity.
Qed.

(** Likewise for the error clusters. *)
Lemma report_clusters (logs : list raw) (r : report) (ep : string) :
  analyze_api_logs fromisoformat (Some logs) = Ok r ->
  filter (is_cluster_of ep) (anomalies r)
  = error_cluster ep
      (map ev_ts (filter is_error (events_of ep (valid_events fromisoformat logs)))).
Proof.
  intro H. apply analyze_inv in H. destruct H as (st & Hst & Hr).
  apply build_report_inv in Hr.
  destruct Hr as [[Hz ->]|(_ & ua & Hua & _ & _ & _ & _ & _ & Ha)].
  - rewrite (no_valid_events logs st Hst Hz). reflexivity.
  - rewrite Ha, !filter_app.
    destruct (errors_get logs st ep Hst) as (Hnd & Hget).
    rewrite (filter_flat_map_key error_cluster is_cluster_of); [|
      intros k v a Hin; apply (error_cluster_tag ep k v a Hin) | exact Hnd].
    rewrite (filter_none _ (flat_map _ (endpoint_info st))).
    2:{ intros a Hin. apply in_flat_map in Hin. destruct Hin as ([k d] & _ & Hin).
        apply (response_degradation_tag ep k d a Hin). }
    rewrite (filter_none _ (flat_map _ (per_endpoint_timestamps st))).
    2:{ intros a Hin. apply in_flat_map in Hin. destruct Hin as ([k d] & _ & Hin).
        apply (request_spike_tag ep k d a Hin). }
    rewrite (filter_none _ ua).
    2:{ intros a Hin. apply (unusual_user_tag ep _ ua a Hua Hin). }
    rewrite !app_nil_r, Hget. simpl.
    destruct (filter is_error (events_of ep (valid_events fromisoformat logs)));
      reflexivity.
Qed.
End SeriesFacts.

(** ** Error clusters: C4 and C10 *)

Lemma error_cluster_find (ep : string) (errs : list datetime) :
  let secs := sorted Z.leb (map timestamp_int errs) in
  error_cluster ep errs
  = match find (fun k => width secs k >=? 10) (seq 0 (List.length secs)) with
    | Some k =>
        [ErrorCluster ep (nth (left_after secs k) secs 0) (nth k secs 0)
           (width secs k) (if width secs k >? 50 then Critical else High)]
    | None => []
    end.
Proof.
  cbv zeta. destruct errs as [|t0 errs]; [reflexivity|].
  unfold error_cluster.
  set (secs := sorted Z.leb (map timestamp_int (t0 :: errs))).
  change (cluster_scan secs (List.length secs) 0 0)
    with (cluster_scan secs (List.length secs) 0 (left_before secs 0)).
  rewrite cluster_scan_find.
  destruct (find (fun k => width secs k >=? 10) (seq 0 (List.length secs)));
    reflexivity.
Qed.

Lemma span_width (secs : list Z) :
  ascending secs ->
  (exists i, (i + 9 < List.length secs)%nat
             /\ nth (i + 9) secs 0 - nth i secs 0 <= 300)
  <-> (exists k, (k < List.length secs)%nat /\ width secs k >= 10).
Proof.
  intro Hasc. split.
  - intros (i & Hi & Hspan). exists (i + 9)%nat. split; [exact Hi|].
    unfold width.
    destruct (Nat.lt_ge_cases i (left_after secs (i + 9))) as [Hlt|Hge]; [|lia].
    pose proof (left_after_skipped secs Hasc (i + 9) i Hi Hlt). lia.
  - intros (k & Hk & Hw). unfold width in Hw.
    pose proof (left_after_le secs k).
    exists (k - 9)%nat. replace (k - 9 + 9)%nat with k by lia.
    split; [exact Hk|].
    apply (left_after_inside secs Hasc k (k - 9)); lia.
Qed.

(** C10.  Every [error_cluster] anomaly of a report has [error_count]
    exactly 10 and severity [high]: the loop breaks at the first window
    that reaches ten errors and a window gains at most one element per
    step, so the [critical] branch is never taken. *)
Theorem C10_error_cluster_count_is_ten
    (fromisoformat : string -> option datetime) (logs : list raw) (r : report)
    (ep : string) (window_start window_end error_count : Z) (sev : severity) :
  analyze_api_logs fromisoformat (Some logs) = Ok r ->
  In (ErrorCluster ep window_start window_end error_count sev) (anomalies r) ->
  error_count = 10 /\ sev = High.
Proof.
  intros H Hin.
  assert (Hf : In (ErrorCluster ep window_start window_end error_count sev)
                  (filter (is_cluster_of ep) (anomalies r))).
  { apply filter_In. split; [exact Hin|]. simpl. apply String.eqb_refl. }
  rewrite (report_clusters fromisoformat logs r ep H) in Hf.
  rewrite error_cluster_find in Hf. cbv zeta in Hf.
  match type of Hf with
  | In _ (match find ?p (seq 0 ?n) with _ => _ end) =>
      destruct (find p (seq 0 n)) as [k|] eqn:E; [|destruct Hf]
  end.
  apply find_seq_first in E. destruct E as (_ & Hk & Hbefore).
  match type of Hk with
  | (width ?s k >=? 10) = true =>
      assert (Hw : width s k = 10);
      [apply first_wide_window;
       [apply Z.geb_le in Hk; lia
       |intros j Hj; specialize (Hbefore j (conj (Nat.le_0_l j) Hj));
        rewrite Z.geb_leb in Hbefore; apply Z.leb_gt in Hbefore; exact Hbefore]
      |]
  end.
  destruct Hf as [Heq|[]]. rewrite Hw in Heq.
  inversion Heq; subst. split; reflexivity.
Qed.

Lemma C10_witness :
  analyze_api_logs fromisoformat_seconds (Some error_burst)
  = Ok error_burst_report
  /\ In (ErrorCluster "/api/pay" 1736935200 1736935209 10 High)
        (anomalies error_burst_report)
  /\ (10 = 10 /\ High = High).
Proof.
  assert (H : analyze_api_logs fromisoformat_seconds (Some error_burst)
              = Ok error_burst_report) by (vm_compute; reflexivity).
  assert (Hin : In (ErrorCluster "/api/pay" 1736935200 1736935209 10 High)
                   (anomalies error_burst_report))
    by (vm_compute; left; reflexivity).
  split; [exact H|]. split; [exact Hin|].
  exact (C10_error_cluster_count_is_ten fromisoformat_seconds error_burst
           error_burst_report "/api/pay" 1736935200 1736935209 10 High H Hin).
Defined.

(** The cluster loop on the values of [int(t.timestamp())]: when it
    reports and what it reports. *)
Lemma cluster_report_on_timestamps
    (fromisoformat : string -> option datetime) (logs : list raw) (r : report)
    (ep : string) :
  analyze_api_logs fromisoformat (Some logs) = Ok r ->
  let errs :=
    map ev_ts (filter is_error (events_of ep (valid_events fromisoformat logs))) in
  let secs := sorted Z.leb (map timestamp_int errs) in
  let found := filter (is_cluster_of ep) (anomalies r) in
  let span :=
    exists i, (i + 9 < List.length secs)%nat
              /\ nth (i + 9) secs 0 - nth i secs 0 <= 300 in
  (span ->
   exists l k,
     found = [ErrorCluster ep (nth l secs 0) (nth k secs 0)
                (trailing_count secs k)
                (if trailing_count secs k >? 50 then Critical else High)]
     /\ (k < List.length secs)%nat
     /\ 10 <= trailing_count secs k
     /\ (forall j, (j < k)%nat -> trailing_count secs j < 10)
     /\ (l <= k)%nat
     /\ trailing_count secs k = Z.of_nat k - Z.of_nat l + 1
     /\ nth k secs 0 - nth l secs 0 <= 300
     /\ (forall j, (j < l)%nat -> nth k secs 0 - nth j secs 0 > 300))
  /\ (~ span -> found = []).
Proof.
  intro H. cbv zeta.
  rewrite (report_clusters fromisoformat logs r ep H).
  rewrite error_cluster_find. cbv zeta.
  set (secs := sorted Z.leb
                 (map timestamp_int
                    (map ev_ts
                       (filter is_error
                          (events_of ep (valid_events fromisoformat logs)))))).
  assert (Hasc : ascending secs) by apply sorted_Z_ascending.
  pose proof (span_width secs Hasc) as Hspan.
  destruct (find (fun k => width secs k >=? 10) (seq 0 (List.length secs)))
    as [k|] eqn:E.
  - apply find_seq_first in E. destruct E as (Hk & Hw & Hbefore).
    assert (Hklen : (k < List.length secs)%nat) by lia.
    split.
    + intros _. exists (left_after secs k), k.
      rewrite <- (width_trailing_count secs k Hasc Hklen).
      split; [reflexivity|]. split; [exact Hklen|].
      split; [apply Z.geb_le in Hw; exact Hw|].
      split.
      { intros j Hj. rewrite <- (width_trailing_count secs j Hasc) by lia.
        specialize (Hbefore j (conj (Nat.le_0_l j) Hj)).
        rewrite Z.geb_leb in Hbefore. apply Z.leb_gt in Hbefore. exact Hbefore. }
      split; [apply left_after_le|].
      split; [reflexivity|].
      split; [apply left_after_exit|].
      intros j Hj. apply (left_after_skipped secs Hasc k j Hklen Hj).
    + intro Hno. exfalso. apply Hno. apply Hspan.
      exists k. split; [exact Hklen|]. apply Z.geb_le in Hw. lia.
  - split; [|reflexivity].
    intro Hs. exfalso. apply Hspan in Hs. destruct Hs as (k & Hk & Hw).
    pose proof (find_seq_none _ _ _ E k (conj (Nat.le_0_l k) Hk)) as Hc.
    simpl in Hc. rewrite Z.geb_leb in Hc. apply Z.leb_gt in Hc. lia.
Qed.

Lemma timestamp_int_epoch_second (t : datetime) :
  in_epoch_range t = true -> timestamp_int t = epoch_second t.
Proof.
  unfold in_epoch_range, timestamp_int, epoch_second. intro H.
  apply andb_prop in H. destruct H as (H & _).
  apply andb_prop in H. destruct H as (_ & H). apply Z.leb_le in H.
  apply Z.quot_div_nonneg; lia.
Qed.

Lemma timestamps_epoch_seconds (l : list datetime) :
  forallb in_epoch_range l = true -> map timestamp_int l = map epoch_second l.
Proof.
  intro H. apply map_ext_in. intros t Ht.
  apply timestamp_int_epoch_second.
  rewrite forallb_forall in H. apply H. exact Ht.
Qed.

Lemma forallb_sorted {A} (p : A -> bool) (leb : A -> A -> bool) (l : list A) :
  forallb p l = true -> forallb p (sorted leb l) = true.
Proof.
  intro H. rewrite forallb_forall in *. intros x Hx. apply H.
  apply (Permutation_in x (sorted_perm leb l)). exact Hx.
Qed.

Lemma count_of_lt {A} (p : A -> bool) (l : list A) (x : A) :
  In x l -> p x = false -> count_of p l < Z.of_nat (List.length l).
Proof.
  unfold count_of. induction l as [|y l IH]; intros Hin Hp; [destruct Hin|].
  simpl filter. destruct Hin as [->|Hin].
  - rewrite Hp. pose proof (filter_length_le p l). simpl List.length. lia.
  - specialize (IH Hin Hp). destruct (p y); simpl List.length; lia.
Qed.

(** C4, as amended.  For an endpoint whose error timestamps carry an
    offset and lie between 1970 and 2514, let [secs] be the sorted whole
    epoch seconds of its error events (status >= 400), fractions of a
    second dropped.  If ten consecutive entries of [secs] differ by at
    most 300, the report has exactly one [error_cluster] anomaly for the
    endpoint: it is that of the first position [k], scanning left to
    right, whose trailing window holds at least ten errors; it reports
    the span from the first second of that window to the second at [k]
    and the window's count, with severity [critical] if the count exceeds
    50 and [high] otherwise.  No anomaly is reported for later windows.
    If no ten consecutive entries of [secs] differ by at most 300, the
    report has no [error_cluster] anomaly for the endpoint. *)
Theorem C4_first_error_cluster_only
    (fromisoformat : string -> option datetime) (logs : list raw) (r : report)
    (ep : string) :
  analyze_api_logs fromisoformat (Some logs) = Ok r ->
  let errs :=
    map ev_ts (filter is_error (events_of ep (valid_events fromisoformat logs))) in
  forallb in_epoch_range errs = true ->
  let secs := sorted Z.leb (map epoch_second errs) in
  let found := filter (is_cluster_of ep) (anomalies r) in
  let span :=
    exists i, (i + 9 < List.length secs)%nat
              /\ nth (i + 9) secs 0 - nth i secs 0 <= 300 in
  (span ->
   exists l k,
     found = [ErrorCluster ep (nth l secs 0) (nth k secs 0)
                (trailing_count secs k)
                (if trailing_count secs k >? 50 then Critical else High)]
     /\ (k < List.length secs)%nat
     /\ 10 <= trailing_count secs k
     /\ (forall j, (j < k)%nat -> trailing_count secs j < 10)
     /\ (l <= k)%nat
     /\ trailing_count secs k = Z.of_nat k - Z.of_nat l + 1
     /\ nth k secs 0 - nth l secs 0 <= 300
     /\ (forall j, (j < l)%nat -> nth k secs 0 - nth j secs 0 > 300))
  /\ (~ span -> found = []).
Proof.
  intros H errs Hrange. cbv zeta.
  pose proof (cluster_report_on_timestamps fromisoformat logs r ep H) as Hc.
  cbv zeta in Hc. fold errs in Hc.
  rewrite (timestamps_epoch_seconds errs Hrange) in Hc. exact Hc.
Qed.

(** Ten failing requests to one endpoint, nine of them thirty seconds
    apart from 10:00:00 and the tenth at 10:05:00.9.  No span of 300
    seconds holds the ten of them, since the last is 300.9 seconds after
    the first; the report holds an [error_cluster] of ten errors all the
    same, because the loop compares whole seconds. *)
Lemma C4_cluster_over_more_than_300_seconds :
  analyze_api_logs fromisoformat_micros (Some late_error_logs)
  = Ok late_error_report
  /\ List.length late_errors = 10%nat
  /\ (forall lo, count_of (in_span lo) late_errors < 10)
  /\ filter (is_cluster_of "/api/pay") (anomalies late_error_report)
     = [ErrorCluster "/api/pay" 1736935200 1736935500 10 High].
Proof.
  split; [vm_compute; reflexivity|].
  split; [vm_compute; reflexivity|].
  split; [|vm_compute; reflexivity].
  intro lo.
  assert (Hlen : Z.of_nat (List.length late_errors) = 10) by (vm_compute; reflexivity).
  rewrite <- Hlen.
  set (first := {| ev_ts := {| year := 2025; month := 1; day := 15; hour := 10;
                                minute := 0; second := 0; microsecond := 0;
                                tzinfo := Some 0 |};
                   ev_endpoint := "/api/pay"; ev_method := "POST";
                   ev_rt := inject_Z 100; ev_status := 500;
                   ev_user := "user_001" |}).
  set (last := {| ev_ts := at_10_05_00_9;
                  ev_endpoint := "/api/pay"; ev_method := "POST";
                  ev_rt := inject_Z 100; ev_status := 500;
                  ev_user := "user_001" |}).
  assert (Hfirst : In first late_errors) by (vm_compute; left; reflexivity).
  assert (Hlast : In last late_errors) by (vm_compute; do 9 right; left; reflexivity).
  assert (Hi1 : instant_us (ev_ts first) = 1736935200000000) by (vm_compute; reflexivity).
  assert (Hi2 : instant_us (ev_ts last) = 1736935500900000) by (vm_compute; reflexivity).
  destruct (in_span lo first) eqn:E1.
  - apply (count_of_lt _ _ last Hlast).
    unfold in_span in *. rewrite Hi1 in E1. rewrite Hi2.
    apply andb_prop in E1. destruct E1 as (E1 & _). apply Z.leb_le in E1.
    apply andb_false_iff. right. apply Z.leb_gt. lia.
  - apply (count_of_lt _ _ first Hfirst). exact E1.
Qed.

Lemma C4_witness :
  analyze_api_logs fromisoformat_seconds (Some error_burst)
  = Ok error_burst_report
  /\ forallb in_epoch_range
       (map ev_ts (filter is_error
                     (events_of "/api/pay"
                        (valid_events fromisoformat_seconds error_burst)))) = true
  /\ exists a, filter (is_cluster_of "/api/pay") (anomalies error_burst_report) = [a].
Proof.
  assert (H : analyze_api_logs fromisoformat_seconds (Some error_burst)
              = Ok error_burst_report) by (vm_compute; reflexivity).
  assert (Hrange : forallb in_epoch_range
                     (map ev_ts (filter is_error
                                   (events_of "/api/pay"
                                      (valid_events fromisoformat_seconds error_burst))))
                   = true) by (vm_compute; reflexivity).
  split; [exact H|]. split; [exact Hrange|].
  destruct (C4_first_error_cluster_only fromisoformat_seconds error_burst
              error_burst_report "/api/pay" H Hrange) as (Hyes & _).
  destruct Hyes as (l & k & Hfound & _).
  - exists O. vm_compute. split; [lia|discriminate].
  - eexists. exact Hfound.
Defined.

(** ** Comparisons of rationals *)

Lemma Qltb_lt (a b : Q) : Qltb a b = true <-> (a < b)%Q.
Proof.
  unfold Qltb. rewrite negb_true_iff. split.
  - intro H. apply Qnot_le_lt. intro Hle.
    apply Qle_bool_iff in Hle. congruence.
  - intro H. destruct (Qle_bool b a) eqn:E; [|reflexivity].
    apply Qle_bool_iff in E. exfalso. apply (Qlt_not_le _ _ H). exact E.
Qed.

Lemma Qltb_ge (a b : Q) : Qltb a b = false <-> (b <= a)%Q.
Proof.
  unfold Qltb. rewrite negb_false_iff. apply Qle_bool_iff.
Qed.

(** ** Request spikes: C3 *)

Lemma nth_window_counts (secs : list Z) (k : nat) :
  (k < List.length secs)%nat -> nth k (window_counts secs) 0 = width secs k.
Proof.
  intro Hk. rewrite window_counts_width.
  rewrite (nth_indep _ 0 (width secs O)) by (rewrite length_map, length_seq; exact Hk).
  rewrite map_nth. rewrite seq_nth by exact Hk. reflexivity.
Qed.

Lemma length_window_counts (secs : list Z) :
  List.length (window_counts secs) = List.length secs.
Proof. rewrite window_counts_width, length_map, length_seq. reflexivity. Qed.

Lemma nth_timestamps (l : list datetime) (t0 : datetime) (j : nat) :
  (j < List.length l)%nat ->
  nth j (map timestamp_int l) 0 = timestamp_int (nth j l t0).
Proof.
  intro Hj.
  rewrite (nth_indep _ 0 (timestamp_int t0)) by (rewrite length_map; exact Hj).
  apply map_nth.
Qed.

(** The spike loop on the values of [int(t.timestamp())]: the counts it
    computes, when it reports, and which timestamp it reports. *)
Lemma spike_report_on_timestamps
    (fromisoformat : string -> option datetime) (logs : list raw) (r : report)
    (ep : string) :
  analyze_api_logs fromisoformat (Some logs) = Ok r ->
  let times := map ev_ts (events_of ep (valid_events fromisoformat logs)) in
  let times_sorted := sorted dt_leb times in
  let secs := map timestamp_int times_sorted in
  let wc := window_counts secs in
  let avg_rate :=
    (inject_Z (sumZ wc) / inject_Z (Z.max 1 (Z.of_nat (List.length wc))))%Q in
  let peak := max_of wc in
  let found := filter (is_spike_of ep) (anomalies r) in
  let flagged := (0 < avg_rate)%Q /\ (3 * avg_rate < inject_Z peak)%Q /\ 10 <= peak in
  ascending secs
  /\ List.length wc = List.length secs
  /\ (forall k, (k < List.length secs)%nat -> nth k wc 0 = trailing_count secs k)
  /\ (forall w, In w wc -> w <= peak)
  /\ (flagged ->
      exists i j t,
        found = [RequestSpike ep t avg_rate peak
                   (if peak >? 50 then High else Medium)]
        /\ (i < List.length secs)%nat
        /\ nth i wc 0 = peak
        /\ (forall i', (i' < i)%nat -> nth i' wc 0 < peak)
        /\ nth_error times_sorted j = Some t
        /\ timestamp_int t = nth i secs 0
        /\ (forall j', (j' < j)%nat -> nth j' secs 0 <> nth i secs 0))
  /\ (~ flagged -> found = []).
Proof.
  intro H. cbv zeta.
  rewrite (report_spikes fromisoformat logs r ep H).
  set (times := map ev_ts (events_of ep (valid_events fromisoformat logs))).
  set (times_sorted := sorted dt_leb times).
  set (secs := map timestamp_int times_sorted).
  set (wc := window_counts secs).
  set (avg_rate := (inject_Z (sumZ wc) / inject_Z (Z.max 1 (Z.of_nat (List.length wc))))%Q).
  set (peak := max_of wc).
  assert (Hasc : ascending secs) by apply sorted_times_ascending.
  assert (Hlen : List.length wc = List.length secs) by apply length_window_counts.
  split; [exact Hasc|]. split; [exact Hlen|].
  split.
  { intros k Hk. unfold wc. rewrite nth_window_counts by exact Hk.
    apply width_trailing_count; assumption. }
  destruct times as [|t0 times'] eqn:Etimes.
  - (* no event: nothing is flagged *)
    split; [intros w []|]. split; [|reflexivity].
    intros (Hpos & _). exfalso. vm_compute in Hpos. discriminate.
  - assert (Hne : wc <> []).
    { intro Hnil. apply (f_equal (@List.length Z)) in Hnil.
      rewrite Hlen in Hnil. unfold secs, times_sorted in Hnil.
      rewrite length_map, sorted_length in Hnil. discriminate. }
    destruct (max_of_spec wc Hne) as (Hin & Hmax). fold peak in Hin, Hmax.
    split; [exact Hmax|].
    unfold request_spike.
    fold times_sorted. fold secs. fold wc. fold avg_rate. fold peak.
    destruct (Qltb 0 avg_rate && Qltb (3 * avg_rate) (inject_Z peak)
              && (peak >=? 10)) eqn:Ec.
    + split; [|intro Hno; exfalso; apply Hno;
               apply andb_prop in Ec; destruct Ec as (Ec & E3);
               apply andb_prop in Ec; destruct Ec as (E1 & E2);
               apply Qltb_lt in E1; apply Qltb_lt in E2; apply Z.geb_le in E3;
               repeat split; assumption].
      intros _.
      destruct (index_spec peak wc Hin) as (Hi & Hnth & Hfirst).
      set (i := index peak wc) in *.
      assert (Hi' : (i < List.length secs)%nat) by lia.
      assert (Hsin : In (nth i secs 0) secs) by (apply nth_In; exact Hi').
      destruct (index_spec (nth i secs 0) secs Hsin) as (Hj & Hjn & Hjfirst).
      set (j := index (nth i secs 0) secs) in *.
      assert (Hj' : (j < List.length times_sorted)%nat)
        by (unfold secs in Hj; rewrite length_map in Hj; exact Hj).
      exists i, j, (nth j times_sorted t0).
      split; [reflexivity|]. split; [exact Hi'|]. split; [exact Hnth|].
      split.
      { intros i' Hi'lt. pose proof (Hfirst i' Hi'lt).
        assert (nth i' wc 0 <= peak) by (apply Hmax; apply nth_In; lia). lia. }
      split; [apply nth_error_nth'; exact Hj'|].
      split; [|exact Hjfirst].
      rewrite <- Hjn. unfold secs. symmetry. apply nth_timestamps. exact Hj'.
    + split; [|reflexivity].
      intros (F1 & F2 & F3). exfalso.
      apply Qltb_lt in F1, F2. apply Z.geb_le in F3.
      rewrite F1, F2, F3 in Ec. discriminate.
Qed.

(** C3, as amended.  For an endpoint whose valid timestamps carry an
    offset and lie between 1970 and 2514, let [secs] be the whole epoch
    seconds of its valid events sorted by time, fractions of a second
    dropped.  The spike loop computes, for every position [k], the number
    of events up to [k] whose epoch second is at most 300 less than that
    of the event at [k] (a difference of exactly 300 is inside).  With
    [avg_rate] the mean and [peak] the maximum of these counts, the
    report has a [request_spike] anomaly for the endpoint if and only if
    [avg_rate > 0], [peak > 3 * avg_rate] and [peak >= 10]; there is then
    exactly one, its severity is [high] when [peak > 50] and [medium]
    otherwise.  With [i] the first position whose count is [peak], the
    reported timestamp is that of the first event of the sorted sequence
    whose epoch second is that of position [i]: the event at position
    [j <= i], not always the one at [i]. *)
Theorem C3_request_spike_detection
    (fromisoformat : string -> option datetime) (logs : list raw) (r : report)
    (ep : string) :
  analyze_api_logs fromisoformat (Some logs) = Ok r ->
  let times := map ev_ts (events_of ep (valid_events fromisoformat logs)) in
  forallb in_epoch_range times = true ->
  let times_sorted := sorted dt_leb times in
  let secs := map epoch_second times_sorted in
  let wc := window_counts secs in
  let avg_rate :=
    (inject_Z (sumZ wc) / inject_Z (Z.max 1 (Z.of_nat (List.length wc))))%Q in
  let peak := max_of wc in
  let found := filter (is_spike_of ep) (anomalies r) in
  let flagged := (0 < avg_rate)%Q /\ (3 * avg_rate < inject_Z peak)%Q /\ 10 <= peak in
  ascending secs
  /\ List.length wc = List.length secs
  /\ (forall k, (k < List.length secs)%nat -> nth k wc 0 = trailing_count secs k)
  /\ (forall w, In w wc -> w <= peak)
  /\ (flagged ->
      exists i j t,
        found = [RequestSpike ep t avg_rate peak
                   (if peak >? 50 then High else Medium)]
        /\ (i < List.length secs)%nat
        /\ nth i wc 0 = peak
        /\ (forall i', (i' < i)%nat -> nth i' wc 0 < peak)
        /\ (j <= i)%nat
        /\ nth j secs 0 = nth i secs 0
        /\ (forall j', (j' < j)%nat -> nth j' secs 0 <> nth i secs 0)
        /\ nth_error times_sorted j = Some t)
  /\ (~ flagged -> found = []).
Proof.
  intros H times Hrange. cbv zeta.
  pose proof (spike_report_on_timestamps fromisoformat logs r ep H) as Hs.
  cbv zeta in Hs. fold times in Hs.
  rewrite (timestamps_epoch_seconds (sorted dt_leb times)) in Hs
    by (apply forallb_sorted; exact Hrange).
  destruct Hs as (Hasc & Hlen & Hcount & Hmax & Hyes & Hno).
  split; [exact Hasc|]. split; [exact Hlen|]. split; [exact Hcount|].
  split; [exact Hmax|]. split; [|exact Hno].
  intro Hf. destruct (Hyes Hf) as (i & j & t & Hfound & Hi & Hpeak & Hfirst & Hnth & Ht & Hj).
  exists i, j, t.
  assert (Hjlen : (j < List.length (sorted dt_leb times))%nat)
    by (apply nth_error_Some; rewrite Hnth; discriminate).
  assert (Hjs : nth j (map epoch_second (sorted dt_leb times)) 0
                = nth i (map epoch_second (sorted dt_leb times)) 0).
  { rewrite <- Ht.
    rewrite (nth_indep _ 0 (epoch_second t)) by (rewrite length_map; exact Hjlen).
    rewrite map_nth. rewrite (nth_error_nth _ _ t Hnth).
    symmetry. apply timestamp_int_epoch_second.
    assert (Hall : forallb in_epoch_range (sorted dt_leb times) = true)
      by (apply forallb_sorted; exact Hrange).
    rewrite forallb_forall in Hall. apply Hall.
    apply (nth_error_In _ _ Hnth). }
  repeat split; try assumption.
  destruct (Nat.le_gt_cases j i) as [Hle|Hgt]; [exact Hle|].
  exfalso. apply (Hj i Hgt). reflexivity.
Qed.

(** Twenty requests: ten ten minutes apart, then eight thirty seconds
    apart from 10:00:00, one at 10:05:00.5 and one at 10:05:00.9.  The
    report holds a spike with [actual_rate] 10, because the loop counts
    the request at 10:00:00 in the window of the one at 10:05:00.9,
    300.9 seconds later; counted on the instants, no window holds more
    than 9 requests within 300 seconds, so nothing would be flagged.  And
    the count 10 is first reached at the last request, at 10:05:00.9,
    while the timestamp reported is 10:05:00.5, where the count is 9. *)
Lemma C3_window_and_timestamp_on_whole_seconds :
  analyze_api_logs fromisoformat_micros (Some subsecond_spike_logs)
  = Ok subsecond_spike_report
  /\ filter (is_spike_of "/api/feed") (anomalies subsecond_spike_report)
     = [RequestSpike "/api/feed" at_10_05_00_5 (65 # 20) 10 Medium]
  /\ forallb (fun k =>
                trailing_count_us (map instant_us subsecond_spike_times) k <=? 9)
             (seq 0 (List.length subsecond_spike_times)) = true
  /\ max_of (window_counts (map timestamp_int subsecond_spike_times)) = 10
  /\ index 10 (window_counts (map timestamp_int subsecond_spike_times)) = 19%nat
  /\ nth_error subsecond_spike_times 19 = Some at_10_05_00_9
  /\ nth_error subsecond_spike_times 18 = Some at_10_05_00_5
  /\ nth 18 (window_counts (map timestamp_int subsecond_spike_times)) 0 = 9
  /\ at_10_05_00_5 <> at_10_05_00_9.
Proof.
  repeat split; try (vm_compute; reflexivity).
  discriminate.
Qed.

Lemma C3_witness :
  analyze_api_logs fromisoformat_seconds (Some spike_logs) = Ok spike_report
  /\ forallb in_epoch_range
       (map ev_ts (events_of "/api/feed"
                     (valid_events fromisoformat_seconds spike_logs))) = true
  /\ exists t avg,
       filter (is_spike_of "/api/feed") (anomalies spike_report)
       = [RequestSpike "/api/feed" t avg 10 Medium].
Proof.
  assert (H : analyze_api_logs fromisoformat_seconds (Some spike_logs)
              = Ok spike_report) by (vm_compute; reflexivity).
  assert (Hrange : forallb in_epoch_range
                     (map ev_ts (events_of "/api/feed"
                                   (valid_events fromisoformat_seconds spike_logs)))
                   = true) by (vm_compute; reflexivity).
  split; [exact H|]. split; [exact Hrange|].
  destruct (C3_request_spike_detection fromisoformat_seconds spike_logs
              spike_report "/api/feed" H Hrange) as (_ & _ & _ & _ & Hyes & _).
  destruct Hyes as (i & j & t & Hfound & _).
  - vm_compute. repeat split; try reflexivity; discriminate.
  - eexists. eexists. exact Hfound.
Defined.

Lemma Qlt_ratio_r (n : Z) (d : positive) (a b : Z) :
  0 < b -> ((n # d) < inject_Z a / inject_Z b)%Q <-> n * b < a * Zpos d.
Proof.
  intro Hb. destruct b as [|p|p]; try lia.
  unfold Qlt, Qdiv, Qmult, Qinv, inject_Z. simpl. lia.
Qed.

(** ** The busiest user: C8 *)

Lemma most_common_1_spec {K} (c : list (K * Z)) (k : K) (n : Z) :
  most_common_1 c = Some (k, n) ->
  In (k, n) c /\ forall k' n', In (k', n') c -> n' <= n.
Proof.
  revert k n. induction c as [|[k0 n0] c IH]; intros k n H; simpl in H.
  - discriminate.
  - destruct (most_common_1 c) as [[k1 n1]|] eqn:E.
    + destruct (IH k1 n1 eq_refl) as (Hin & Hmax).
      destruct (n0 <? n1) eqn:Elt; inversion H; subst; clear H.
      * apply Z.ltb_lt in Elt. split; [right; exact Hin|].
        intros k' n' [Heq|Hin']; [inversion Heq; subst; lia|eauto].
      * apply Z.ltb_ge in Elt. split; [left; reflexivity|].
        intros k' n' [Heq|Hin']; [inversion Heq; subst; lia|].
        specialize (Hmax k' n' Hin'). lia.
    + inversion H; subst; clear H. split; [left; reflexivity|].
      destruct c as [|[k1 n1] c]; [|simpl in E; destruct (most_common_1 c) as [[? ?]|];
        [destruct (n1 <? _)|]; discriminate].
      intros k' n' [Heq|[]]. inversion Heq; subst. lia.
Qed.

Lemma most_common_1_none {K} (c : list (K * Z)) :
  most_common_1 c = None -> c = [].
Proof.
  destruct c as [|[k0 n0] c]; [reflexivity|]. simpl.
  destruct (most_common_1 c) as [[k1 n1]|]; [destruct (n0 <? n1)|]; discriminate.
Qed.

Lemma sum_values_incr (k : string) (d : list (string * Z)) :
  sumZ (values (upd String.eqb k (fun n => n + 1) 0 d)) = sumZ (values d) + 1.
Proof.
  unfold values. induction d as [|[k0 v0] d IH]; simpl.
  - reflexivity.
  - destruct (String.eqb k k0); simpl; [|rewrite IH]; lia.
Qed.

Lemma sum_values_group {X} (key : X -> string) (xs : list X) (d : list (string * Z)) :
  sumZ (values (group String.eqb key (fun _ n => n + 1) 0 xs d))
  = sumZ (values d) + Z.of_nat (List.length xs).
Proof.
  revert d. induction xs as [|x xs IH]; intro d.
  - simpl. lia.
  - rewrite group_cons, IH, sum_values_incr. simpl List.length. lia.
Qed.

Lemma disjoint_filters_length {A} (p q : A -> bool) (l : list A) :
  (forall x, p x = true -> q x = false) ->
  (List.length (filter p l) + List.length (filter q l) <= List.length l)%nat.
Proof.
  intro Hpq. induction l as [|x l IH]; simpl; [lia|].
  destruct (p x) eqn:Ep.
  - rewrite (Hpq x Ep). simpl. lia.
  - destruct (q x); simpl; lia.
Qed.

Section UserFacts.
Variable fromisoformat : string -> option datetime.

Lemma user_counts_get (logs : list raw) (st : state) :
  for_each fromisoformat initial_state logs = Ok st ->
  let evs := valid_events fromisoformat logs in
  NoDup (keys (user_counts st))
  /\ sumZ (values (user_counts st)) = Z.of_nat (List.length evs)
  /\ forall u, get String.eqb u (user_counts st)
               = match events_by u evs with
                 | [] => None
                 | l => Some (Z.of_nat (List.length l))
                 end.
Proof.
  intro H. apply for_each_fields in H. cbv zeta in H |- *.
  destruct H as (_ & H2 & _). rewrite H2. split; [|split].
  - apply NoDup_keys_group; [apply String.eqb_eq|constructor].
  - rewrite sum_values_group. reflexivity.
  - intro u. rewrite get_group by apply String.eqb_eq.
    fold (events_by u (valid_events fromisoformat logs)).
    destruct (events_by u (valid_events fromisoformat logs)) as [|ev l];
      [reflexivity|].
    rewrite fold_from_incr. reflexivity.
Qed.

Lemma report_user_anomaly (logs : list raw) (r : report) :
  analyze_api_logs fromisoformat (Some logs) = Ok r ->
  valid_events fromisoformat logs <> [] ->
  exists st, for_each fromisoformat initial_state logs = Ok st
             /\ unusual_user (user_counts st)
                = Ok (filter is_user_anomaly (anomalies r)).
Proof.
  intros H Hne. apply analyze_inv in H. destruct H as (st & Hst & Hr).
  exists st. split; [exact Hst|].
  apply build_report_inv in Hr.
  destruct Hr as [[Hz _]|(_ & ua & Hua & _ & _ & _ & _ & _ & Ha)].
  - exfalso. apply Hne. apply (no_valid_events fromisoformat logs st Hst Hz).
  - rewrite Ha, !filter_app.
    rewrite (filter_none _ (flat_map _ (per_endpoint_timestamps st))).
    2:{ intros a Hin. apply in_flat_map in Hin. destruct Hin as ([k d] & _ & Hin).
        apply (request_spike_tag k k d a Hin). }
    rewrite (filter_none _ (flat_map _ (endpoint_info st))).
    2:{ intros a Hin. apply in_flat_map in Hin. destruct Hin as ([k d] & _ & Hin).
        apply (response_degradation_tag k k d a Hin). }
    rewrite (filter_none _ (flat_map _ (per_endpoint_errors st))).
    2:{ intros a Hin. apply in_flat_map in Hin. destruct Hin as ([k d] & _ & Hin).
        apply (error_cluster_tag k k d a Hin). }
    rewrite (filter_all _ ua).
    2:{ intros a Hin. apply (unusual_user_tag EmptyString _ ua a Hua Hin). }
    exact Hua.
Qed.
End UserFacts.

(** C8.  Whenever at least one record passes validation, there is a user
    [top_user] whose number of valid requests is the highest, and the
    report holds an [unusual_user_behavior] anomaly, carrying that user's
    id, their request count and severity [high], if and only if that
    count is strictly more than half of all valid requests; it holds no
    such anomaly otherwise.  Any user with more than half of the valid
    requests is [top_user], so 60 of 100 is flagged and exactly half is
    not. *)
Theorem C8_unusual_user_behavior
    (fromisoformat : string -> option datetime) (logs : list raw) (r : report) :
  analyze_api_logs fromisoformat (Some logs) = Ok r ->
  valid_events fromisoformat logs <> [] ->
  let evs := valid_events fromisoformat logs in
  let requests := fun u => Z.of_nat (List.length (events_by u evs)) in
  let total_valid := Z.of_nat (List.length evs) in
  let found := filter is_user_anomaly (anomalies r) in
  exists top_user,
    (forall u, requests u <= requests top_user)
    /\ (2 * requests top_user > total_valid ->
        found = [UnusualUserBehavior top_user (requests top_user) High])
    /\ (2 * requests top_user <= total_valid -> found = [])
    /\ (forall u, 2 * requests u > total_valid -> u = top_user).
Proof.
  intros H Hne. cbv zeta.
  destruct (report_user_anomaly fromisoformat logs r H Hne) as (st & Hst & Hua).
  destruct (user_counts_get fromisoformat logs st Hst) as (Hnd & Hsum & Hget).
  set (evs := valid_events fromisoformat logs) in *.
  assert (Hpos : 0 < Z.of_nat (List.length evs)).
  { destruct evs; [congruence|simpl; lia]. }
  unfold unusual_user in Hua.
  destruct (most_common_1 (user_counts st)) as [[u c]|] eqn:Emc.
  2:{ apply most_common_1_none in Emc. rewrite Emc in Hsum. simpl in Hsum. lia. }
  apply most_common_1_spec in Emc. destruct Emc as (Hin & Hmax).
  apply (get_In String.eqb String.eqb_eq _ _ _ Hnd) in Hin.
  rewrite Hget in Hin.
  assert (Hc : c = Z.of_nat (List.length (events_by u evs)) /\ 1 <= c).
  { destruct (events_by u evs) as [|ev l]; [discriminate|].
    inversion Hin. simpl List.length. lia. }
  destruct Hc as (Hc & Hc1).
  assert (Hall : forall u', Z.of_nat (List.length (events_by u' evs)) <= c).
  { intro u'. destruct (events_by u' evs) as [|ev l] eqn:E; [simpl; lia|].
    apply (Hmax u'). apply (get_In String.eqb String.eqb_eq _ _ _ Hnd).
    rewrite Hget, E. reflexivity. }
  exists u. rewrite <- Hc. split; [exact Hall|].
  rewrite Hsum in Hua.
  destruct (Qltb (1 # 2) (inject_Z c / inject_Z (Z.of_nat (List.length evs)))) eqn:Eq.
  - apply Qltb_lt in Eq. apply (proj1 (Qlt_ratio_r 1 2 c _ Hpos)) in Eq.
    inversion Hua as [Hf]. split; [intros _; reflexivity|].
    split; [intro; lia|].
    intros u' Hu'. destruct (string_dec u' u) as [|Hneq]; [assumption|exfalso].
    pose proof (disjoint_filters_length
                  (fun ev => String.eqb (ev_user ev) u')
                  (fun ev => String.eqb (ev_user ev) u) evs) as Hd.
    fold (events_by u' evs) in Hd. fold (events_by u evs) in Hd.
    assert (Hdis : forall x, String.eqb (ev_user x) u' = true ->
                             String.eqb (ev_user x) u = false).
    { intros x Hx. apply String.eqb_eq in Hx. subst u'.
      apply String.eqb_neq. exact Hneq. }
    specialize (Hd Hdis). specialize (Hall u'). lia.
  - apply Qltb_ge in Eq.
    assert (Hle : 2 * c <= Z.of_nat (List.length evs)).
    { destruct (Z.le_gt_cases (2 * c) (Z.of_nat (List.length evs))) as [|Hgt];
        [assumption|exfalso].
      apply (Qlt_not_le _ _ (proj2 (Qlt_ratio_r 1 2 c _ Hpos) ltac:(lia))).
      exact Eq. }
    inversion Hua as [Hf]. split; [intro; lia|]. split; [intros _; reflexivity|].
    intros u' Hu'. specialize (Hall u'). lia.
Qed.

Lemma C8_witness :
  analyze_api_logs fromisoformat_seconds (Some skewed_logs) = Ok skewed_report
  /\ valid_events fromisoformat_seconds skewed_logs <> []
  /\ filter is_user_anomaly (anomalies skewed_report)
     = [UnusualUserBehavior "user_a" 60 High].
Proof.
  assert (H : analyze_api_logs fromisoformat_seconds (Some skewed_logs)
              = Ok skewed_report) by (vm_compute; reflexivity).
  assert (Hne : valid_events fromisoformat_seconds skewed_logs <> [])
    by (vm_compute; discriminate).
  split; [exact H|]. split; [exact Hne|].
  destruct (C8_unusual_user_behavior fromisoformat_seconds skewed_logs
              skewed_report H Hne) as (top & _ & Hyes & _ & Huniq).
  assert (Htop : "user_a"%string = top) by (apply Huniq; vm_compute; reflexivity).
  subst top. apply Hyes. vm_compute. reflexivity.
Defined.

(** ** The classifier: C7 *)

Lemma Qltb_false_not (a b : Q) : Qltb a b = false -> ~ (a < b)%Q.
Proof. intros H Hlt. apply Qltb_ge in H. exact (Qlt_not_le _ _ Hlt H). Qed.




Lemma aggregate_sum (evs : list event) (d : endpoint_data) :
  d_sum_response (fold_from record_request evs d)
  = fold_left Qplus (map ev_rt evs) (d_sum_response d).
Proof.
  revert d. induction evs as [|ev evs IH]; intro d.
  - reflexivity.
  - unfold fold_from in *. simpl fold_left. rewrite IH. reflexivity.
Qed.

Lemma aggregate_errors (evs : list event) (d : endpoint_data) :
  d_errors (fold_from record_request evs d)
  = d_errors d + count_of is_error evs.
Proof.
  revert d. induction evs as [|ev evs IH]; intro d.
  - unfold count_of. simpl. lia.
  - unfold fold_from in *. simpl fold_left. rewrite IH.
    unfold count_of, is_error. simpl.
    destruct (ev_status ev >=? 400); simpl List.length; lia.
Qed.

Lemma slow_endpoint_tag (ep k : string) (d : endpoint_data) (i : issue) :
  In i (slow_endpoint_issue k d ++ high_error_rate_issue k d) ->
  is_issue_of ep i = String.eqb k ep.
Proof.
  unfold slow_endpoint_issue, high_error_rate_issue. intro H.
  apply in_app_or in H.
  destruct (response_severity (avg_rt_of d)), (error_severity (err_rate_of d));
    simpl in H; intuition; subst; reflexivity.
Qed.

Section IssueFacts.
Variable fromisoformat : string -> option datetime.

(** The issues the report holds for an endpoint are those of the two
    rules on that endpoint's aggregate, the slow-endpoint rule first. *)
Lemma report_issues (logs : list raw) (r : report) (ep : string) :
  analyze_api_logs fromisoformat (Some logs) = Ok r ->
  filter (is_issue_of ep) (performance_issues r)
  = match events_of ep (valid_events fromisoformat logs) with
    | [] => []
    | l => slow_endpoint_issue ep (aggregate l)
           ++ high_error_rate_issue ep (aggregate l)
    end.
Proof.
  intro H. apply analyze_inv in H. destruct H as (st & Hst & Hr).
  apply build_report_inv in Hr.
  destruct Hr as [[Hz ->]|(_ & ua & _ & _ & _ & Hp & _)].
  - rewrite (no_valid_events fromisoformat logs st Hst Hz). reflexivity.
  - rewrite Hp. unfold performance_issues_of.
    destruct (endpoint_info_get fromisoformat logs st ep Hst) as (Hnd & Hget).
    rewrite (filter_flat_map_key
               (fun k d => slow_endpoint_issue k d ++ high_error_rate_issue k d)
               is_issue_of); [|
      intros k v a Hin; apply (slow_endpoint_tag ep k v a Hin) | exact Hnd].
    rewrite Hget.
    destruct (events_of ep (valid_events fromisoformat logs)); reflexivity.
Qed.
End IssueFacts.



(** ** Caching opportunities: C6 *)

Lemma py_int_nonneg (x : Q) : (0 <= x)%Q -> py_int x = Qfloor x.
Proof.
  intro H. unfold py_int.
  destruct (Qltb x 0) eqn:E; [|reflexivity].
  apply Qltb_lt in E. exfalso. exact (Qlt_not_le _ _ E H).
Qed.

Lemma saved_floor (n : Z) :
  0 <= n -> py_int (inject_Z n * (8 # 10)) = 4 * n / 5.
Proof.
  intro Hn. rewrite py_int_nonneg.
  - unfold Qfloor, Qmult, inject_Z. cbn [Qnum Qden].
    replace (n * 8) with (2 * (4 * n)) by lia.
    change (Z.pos (1 * 10)) with (2 * 5). apply Z.div_mul_cancel_l; lia.
  - unfold Qle, Qmult, inject_Z. simpl. lia.
Qed.

Lemma hit_rate_floor (g n : Z) :
  0 <= g -> 0 < n -> py_int (inject_Z g / inject_Z n * 100) = 100 * g / n.
Proof.
  intros Hg Hn. destruct n as [|p|p]; try lia.
  rewrite py_int_nonneg.
  - unfold Qfloor, Qdiv, Qmult, Qinv, inject_Z. cbn [Qnum Qden].
    rewrite Pos.mul_1_r. f_equal. lia.
  - unfold Qle, Qdiv, Qmult, Qinv, inject_Z. simpl. lia.
Qed.

Lemma round_4_exact (k : Z) :
  round_4 (inject_Z k * (1 # 10000)) = (inject_Z k / 10000)%Q.
Proof.
  unfold round_4. f_equal. f_equal.
  unfold round_half_even.
  assert (Hf : Qfloor (inject_Z k * (1 # 10000) * 10000) = k).
  { unfold Qfloor, Qmult, inject_Z. cbn [Qnum Qden].
    rewrite Z.mul_1_r. change (Z.pos (1 * 10000 * 1)) with 10000.
    apply Z.div_mul. lia. }
  rewrite Hf.
  replace (Qltb (inject_Z k * (1 # 10000) * 10000 - inject_Z k) (1 # 2))
    with true; [reflexivity|].
  symmetry. apply Qltb_lt.
  unfold Qlt, Qminus, Qplus, Qopp, Qmult, inject_Z. simpl. lia.
Qed.

Lemma err_rate_lt (e n k : Z) :
  0 < n -> (inject_Z e / inject_Z n * 100 < inject_Z k)%Q <-> 100 * e < k * n.
Proof.
  intro Hn. destruct n as [|p|p]; try lia.
  unfold Qlt, Qdiv, Qmult, Qinv, inject_Z. cbn [Qnum Qden].
  rewrite !Pos.mul_1_r. lia.
Qed.

Lemma py_max_spec (m : option Q) (rt : Q) :
  (py_max m rt = rt \/ m = Some (py_max m rt))
  /\ (rt <= py_max m rt)%Q
  /\ forall a, m = Some a -> (a <= py_max m rt)%Q.
Proof.
  unfold py_max. destruct m as [a|].
  - destruct (Qltb a rt) eqn:E.
    + apply Qltb_lt in E. repeat split; [left; reflexivity|lra|].
      intros a' Ha. inversion Ha; subst. lra.
    + apply Qltb_ge in E. repeat split; [right; reflexivity|lra|].
      intros a' Ha. inversion Ha; subst. lra.
  - repeat split; [left; reflexivity|lra|discriminate].
Qed.

Lemma py_min_spec (m : option Q) (rt : Q) :
  (py_min m rt = rt \/ m = Some (py_min m rt))
  /\ (py_min m rt <= rt)%Q
  /\ forall a, m = Some a -> (py_min m rt <= a)%Q.
Proof.
  unfold py_min. destruct m as [a|].
  - destruct (Qltb rt a) eqn:E.
    + apply Qltb_lt in E. repeat split; [left; reflexivity|lra|].
      intros a' Ha. inversion Ha; subst. lra.
    + apply Qltb_ge in E. repeat split; [right; reflexivity|lra|].
      intros a' Ha. inversion Ha; subst. lra.
  - repeat split; [left; reflexivity|lra|discriminate].
Qed.

Lemma fold_max (evs : list event) (d : endpoint_data) :
  evs <> [] \/ d_max_response d <> None ->
  exists M,
    d_max_response (fold_from record_request evs d) = Some M
    /\ (d_max_response d = Some M \/ In M (map ev_rt evs))
    /\ (forall x, In x (map ev_rt evs) -> (x <= M)%Q)
    /\ (forall a, d_max_response d = Some a -> (a <= M)%Q).
Proof.
  revert d. induction evs as [|ev evs IH]; intros d H.
  - destruct H as [H|H]; [congruence|].
    destruct (d_max_response d) as [M|] eqn:E; [|congruence].
    exists M. simpl. rewrite E. repeat split; [left; reflexivity|intros x []|].
    intros a Ha. inversion Ha; subst. lra.
  - destruct (IH (record_request ev d)) as (M & HM & Hor & Hub & Hprev).
    { right. simpl. discriminate. }
    destruct (py_max_spec (d_max_response d) (ev_rt ev)) as (P1 & P2 & P3).
    assert (HpM : (py_max (d_max_response d) (ev_rt ev) <= M)%Q)
      by (apply Hprev; reflexivity).
    exists M. split; [exact HM|]. split; [|split].
    + destruct Hor as [Hor|Hor]; [|right; right; exact Hor].
      simpl in Hor. injection Hor as Heq. rewrite <- Heq.
      destruct P1 as [P1|P1]; [right; left; symmetry; exact P1|left; exact P1].
    + intros x [<-|Hx]; [lra|apply Hub; exact Hx].
    + intros a Ha. specialize (P3 a Ha). lra.
Qed.

Lemma fold_min (evs : list event) (d : endpoint_data) :
  evs <> [] \/ d_min_response d <> None ->
  exists m,
    d_min_response (fold_from record_request evs d) = Some m
    /\ (d_min_response d = Some m \/ In m (map ev_rt evs))
    /\ (forall x, In x (map ev_rt evs) -> (m <= x)%Q)
    /\ (forall a, d_min_response d = Some a -> (m <= a)%Q).
Proof.
  revert d. induction evs as [|ev evs IH]; intros d H.
  - destruct H as [H|H]; [congruence|].
    destruct (d_min_response d) as [M|] eqn:E; [|congruence].
    exists M. simpl. rewrite E. repeat split; [left; reflexivity|intros x []|].
    intros a Ha. inversion Ha; subst. lra.
  - destruct (IH (record_request ev d)) as (M & HM & Hor & Hub & Hprev).
    { right. simpl. discriminate. }
    destruct (py_min_spec (d_min_response d) (ev_rt ev)) as (P1 & P2 & P3).
    assert (HpM : (M <= py_min (d_min_response d) (ev_rt ev))%Q)
      by (apply Hprev; reflexivity).
    exists M. split; [exact HM|]. split; [|split].
    + destruct Hor as [Hor|Hor]; [|right; right; exact Hor].
      simpl in Hor. injection Hor as Heq. rewrite <- Heq.
      destruct P1 as [P1|P1]; [right; left; symmetry; exact P1|left; exact P1].
    + intros x [<-|Hx]; [lra|apply Hub; exact Hx].
    + intros a Ha. specialize (P3 a Ha). lra.
Qed.

(** [consistent] holds exactly when any two response times of the
    endpoint differ by less than 500. *)
Lemma consistent_spread (evs : list event) :
  evs <> [] ->
  consistent_of (aggregate evs) = true <-> spread_below evs 500.
Proof.
  intro Hne. unfold consistent_of.
  change (aggregate evs) with (fold_from record_request evs new_endpoint_data).
  destruct (fold_max evs new_endpoint_data (or_introl Hne))
    as (M & HM & HMin & HMub & _).
  destruct (fold_min evs new_endpoint_data (or_introl Hne))
    as (m & Hm & Hmin & Hmlb & _).
  rewrite HM, Hm. rewrite Qltb_lt. unfold spread_below. split.
  - intros H a b Ha Hb. specialize (HMub a Ha). specialize (Hmlb b Hb). lra.
  - intro H. apply H.
    + destruct HMin as [HMin|HMin]; [discriminate|exact HMin].
    + destruct Hmin as [Hmin|Hmin]; [discriminate|exact Hmin].
Qed.

Lemma aggregate_methods (evs : list event) (d : endpoint_data) :
  d_methods (fold_from record_request evs d)
  = group String.eqb ev_method (fun _ n => n + 1) 0 evs (d_methods d).
Proof.
  revert d. induction evs as [|ev evs IH]; intro d.
  - reflexivity.
  - rewrite group_cons. unfold fold_from in *. simpl fold_left. rewrite IH.
    reflexivity.
Qed.

Lemma aggregate_gets (evs : list event) :
  match get String.eqb "GET"%string (d_methods (aggregate evs)) with
  | Some n => n
  | None => 0
  end = count_of is_get evs.
Proof.
  change (aggregate evs) with (fold_from record_request evs new_endpoint_data).
  rewrite aggregate_methods, get_group by apply String.eqb_eq.
  unfold count_of. fold is_get.
  destruct (filter is_get evs) as [|ev l]; [reflexivity|].
  rewrite fold_from_incr. simpl or_dflt. lia.
Qed.

Lemma aggregate_error_count (evs : list event) :
  d_errors (aggregate evs) = count_of is_error evs.
Proof.
  change (aggregate evs) with (fold_from record_request evs new_endpoint_data).
  rewrite aggregate_errors. reflexivity.
Qed.

Lemma caching_of_aggregate (ep : string) (evs : list event) :
  evs <> [] ->
  let count := Z.of_nat (List.length evs) in
  let gets := count_of is_get evs in
  let errors := count_of is_error evs in
  let eligible :=
    count > 100 /\ 5 * gets > 4 * count /\ 100 * errors < 2 * count
    /\ spread_below evs 500 in
  (eligible ->
   caching_opportunity_of ep (aggregate evs)
   = [{| co_endpoint := ep;
         potential_cache_hit_rate := 100 * gets / count;
         current_requests := count;
         potential_requests_saved := 4 * count / 5;
         estimated_cost_savings_usd := (inject_Z (4 * count / 5) / 10000)%Q;
         recommended_ttl_minutes := 15;
         recommendation_confidence := "high" |}])
  /\ (~ eligible -> caching_opportunity_of ep (aggregate evs) = []).
Proof.
  intro Hne. cbv zeta.
  assert (Hpos : 0 < Z.of_nat (List.length evs))
    by (destruct evs; [congruence|simpl; lia]).
  assert (Hg : 0 <= count_of is_get evs) by (unfold count_of; lia).
  unfold caching_opportunity_of, get_ratio_of, err_rate_of.
  rewrite aggregate_gets, aggregate_count, aggregate_error_count.
  replace (Z.of_nat (List.length evs) <? 1) with false
    by (symmetry; apply Z.ltb_ge; lia).
  pose proof (consistent_spread evs Hne) as Hcons.
  pose proof (Qlt_ratio_r 8 10 (count_of is_get evs) _ Hpos) as Hratio.
  pose proof (err_rate_lt (count_of is_error evs) _ 2 Hpos) as Herr.
  destruct (Z.of_nat (List.length evs) >? 100) eqn:E1; simpl andb.
  2:{ split; [|reflexivity]. rewrite Z.gtb_ltb in E1. apply Z.ltb_ge in E1.
      intros (H1 & _). lia. }
  rewrite Z.gtb_ltb in E1. apply Z.ltb_lt in E1.
  destruct (Qltb (8 # 10)
              (inject_Z (count_of is_get evs) / inject_Z (Z.of_nat (List.length evs))))
    eqn:E2; simpl andb.
  2:{ split; [|reflexivity]. apply Qltb_false_not in E2.
      intros (_ & H2 & _). exfalso. apply E2. apply Hratio. lia. }
  apply Qltb_lt in E2. apply Hratio in E2.
  destruct (Qltb (inject_Z (count_of is_error evs)
                  / inject_Z (Z.of_nat (List.length evs)) * 100) 2)
    eqn:E3; simpl andb.
  2:{ split; [|reflexivity]. apply Qltb_false_not in E3.
      intros (_ & _ & H3 & _). exfalso. apply E3. apply Herr. exact H3. }
  apply Qltb_lt in E3. apply Herr in E3.
  destruct (consistent_of (aggregate evs)) eqn:E4.
  2:{ split; [|reflexivity]. intros (_ & _ & _ & H4).
      apply Hcons in H4. congruence. }
  split.
  - intros _.
    rewrite saved_floor by lia. rewrite hit_rate_floor by lia.
    rewrite round_4_exact. reflexivity.
  - intro Hno. exfalso. apply Hno.
    repeat split; try lia. apply Hcons. reflexivity.
Qed.

Lemma caching_tag (ep k : string) (d : endpoint_data) (c : caching_opportunity) :
  In c (caching_opportunity_of k d) -> is_caching_of ep c = String.eqb k ep.
Proof.
  unfold caching_opportunity_of.
  destruct (d_count d <? 1); [intros []|].
  match goal with |- In c (if ?b then _ else _) -> _ => destruct b end;
    [|intros []].
  intros [<-|[]]. reflexivity.
Qed.

(** C6, as amended.  For an endpoint whose response times are whole
    numbers of milliseconds with a total below 2^52 (so that the float
    difference [max_response - min_response] is exact): the endpoint has
    an entry in [caching_opportunities] if and only if its count exceeds
    100, its GET requests are more than 80% of its requests, its errors
    are less than 2% of its requests and its response times differ by
    less than 500 ms.  The entry is then
    unique and carries [potential_requests_saved = floor(count * 0.8)],
    [estimated_cost_savings_usd = saved / 10000] (four decimals),
    [potential_cache_hit_rate = floor(100 * GET / count)] (the GET ratio
    as a percentage, truncated and not rounded to the nearest integer),
    a TTL of 15 minutes and the confidence label ["high"]; for 150
    requests [potential_requests_saved] is 120. *)
Theorem C6_caching_opportunity_truncated
    (fromisoformat : string -> option datetime) (logs : list raw) (r : report)
    (ep : string) :
  analyze_api_logs fromisoformat (Some logs) = Ok r ->
  let evs := events_of ep (valid_events fromisoformat logs) in
  whole_times evs = true ->
  let count := Z.of_nat (List.length evs) in
  let gets := count_of is_get evs in
  let errors := count_of is_error evs in
  let found := filter (is_caching_of ep) (caching_opportunities r) in
  let eligible :=
    count > 100 /\ 5 * gets > 4 * count /\ 100 * errors < 2 * count
    /\ spread_below evs 500 in
  (eligible ->
   found = [{| co_endpoint := ep;
               potential_cache_hit_rate := 100 * gets / count;
               current_requests := count;
               potential_requests_saved := 4 * count / 5;
               estimated_cost_savings_usd := (inject_Z (4 * count / 5) / 10000)%Q;
               recommended_ttl_minutes := 15;
               recommendation_confidence := "high" |}])
  /\ (~ eligible -> found = [])
  /\ (count = 150 -> 4 * count / 5 = 120).
Proof.
  intros H evs _. subst evs. cbv zeta.
  assert (Hfound : filter (is_caching_of ep) (caching_opportunities r)
                   = match events_of ep (valid_events fromisoformat logs) with
                     | [] => []
                     | l => caching_opportunity_of ep (aggregate l)
                     end).
  { apply analyze_inv in H. destruct H as (st & Hst & Hr).
    apply build_report_inv in Hr.
    destruct Hr as [[Hz ->]|(_ & ua & _ & _ & _ & _ & _ & Hc & _)].
    - rewrite (no_valid_events fromisoformat logs st Hst Hz). reflexivity.
    - rewrite Hc. unfold caching_opportunities_of.
      destruct (endpoint_info_get fromisoformat logs st ep Hst) as (Hnd & Hget).
      rewrite (filter_flat_map_key caching_opportunity_of is_caching_of); [|
        intros k v a Hin; apply (caching_tag ep k v a Hin) | exact Hnd].
      rewrite Hget.
      destruct (events_of ep (valid_events fromisoformat logs)); reflexivity. }
  rewrite Hfound.
  destruct (events_of ep (valid_events fromisoformat logs)) as [|ev l] eqn:E.
  - split; [|split].
    + intros (Hc & _). simpl in Hc. lia.
    + reflexivity.
    + simpl. lia.
  - assert (Hne : ev :: l <> []) by discriminate.
    destruct (caching_of_aggregate ep (ev :: l) Hne) as (Hyes & Hno).
    split; [exact Hyes|]. split; [exact Hno|].
    intros ->. reflexivity.
Qed.

(** On 150 requests of which 130 are GET, the entry carries 86 where the
    GET ratio, 86.67%, rounds to 87. *)
Lemma C6_hit_rate_is_not_rounded :
  analyze_api_logs fromisoformat_seconds (Some mostly_get_logs)
  = Ok mostly_get_report
  /\ exists c,
       caching_opportunities mostly_get_report = [c]
       /\ co_endpoint c = "/api/items"%string
       /\ current_requests c = 150
       /\ potential_cache_hit_rate c = 86
       /\ round_half_even (inject_Z 130 / inject_Z 150 * 100) = 87
       /\ potential_cache_hit_rate c
          <> round_half_even (inject_Z 130 / inject_Z 150 * 100).
Proof.
  split; [vm_compute; reflexivity|].
  eexists. split; [vm_compute; reflexivity|].
  vm_compute. repeat split; discriminate.
Qed.

Lemma C6_witness :
  analyze_api_logs fromisoformat_seconds (Some mostly_get_logs)
  = Ok mostly_get_report
  /\ exists c,
       filter (is_caching_of "/api/items") (caching_opportunities mostly_get_report)
       = [c]
       /\ potential_requests_saved c = 120
       /\ potential_cache_hit_rate c = 86.
Proof.
  assert (H : analyze_api_logs fromisoformat_seconds (Some mostly_get_logs)
              = Ok mostly_get_report) by (vm_compute; reflexivity).
  split; [exact H|].
  assert (Hw : whole_times (events_of "/api/items"
                              (valid_events fromisoformat_seconds mostly_get_logs))
               = true) by (vm_compute; reflexivity).
  destruct (C6_caching_opportunity_truncated fromisoformat_seconds
              mostly_get_logs mostly_get_report "/api/items" H Hw) as (Hyes & _).
  eexists. split; [apply Hyes|split; vm_compute; reflexivity].
  assert (Hrts : map ev_rt (events_of "/api/items"
                              (valid_events fromisoformat_seconds mostly_get_logs))
                 = repeat (inject_Z 100) 150) by (vm_compute; reflexivity).
  repeat split; try (vm_compute; reflexivity).
  unfold spread_below. rewrite Hrts. intros a b Ha Hb.
  apply repeat_spec in Ha, Hb. subst. vm_compute. reflexivity.
Defined.

(** ** Failure and the empty report: C2 *)

Section Outcomes.
Variable fromisoformat : string -> option datetime.

Lemma for_each_all_skipped (logs : list raw) (st : state) :
  (forall e, In e logs -> validate fromisoformat e = None) ->
  exists st', for_each fromisoformat st logs = Ok st'
              /\ build_report st' = build_report st.
Proof.
  revert st. induction logs as [|e logs IH]; intros st H.
  - exists st. split; reflexivity.
  - simpl. rewrite (loop_body_skip fromisoformat st e) by (apply H; left; reflexivity).
    simpl. destruct (IH (count_entry st)) as (st' & Hst' & Hb).
    { intros e' He'. apply H. right. exact He'. }
    exists st'. split; [exact Hst'|]. rewrite Hb. apply build_report_count_entry.
Qed.

(** When no record passes validation the result is the empty report. *)
Lemma analyze_all_invalid (logs : list raw) :
  (forall e, In e logs -> passes_validation fromisoformat e = false) ->
  analyze_api_logs fromisoformat (Some logs) = Ok empty_report.
Proof.
  intro H. unfold analyze_api_logs.
  destruct (for_each_all_skipped logs initial_state) as (st' & Hst' & Hb).
  { intros e He. specialize (H e He). rewrite validate_passes in H.
    destruct (validate fromisoformat e); [discriminate|reflexivity]. }
  rewrite Hst'. simpl. rewrite Hb. reflexivity.
Qed.

Lemma accumulate_aware (st : state) (ev : event) :
  (forall t, earliest st = Some t -> aware t = true) ->
  (forall t, latest st = Some t -> aware t = true) ->
  aware (ev_ts ev) = true ->
  exists st', accumulate st ev = Ok st'
              /\ (forall t, earliest st' = Some t -> aware t = true)
              /\ (forall t, latest st' = Some t -> aware t = true).
Proof.
  intros He Hl Hts. unfold accumulate, dt_lt. unfold aware in Hts.
  destruct (tzinfo (ev_ts ev)) as [off|] eqn:Etz; [|discriminate].
  destruct (earliest st) as [e0|] eqn:Ee.
  - specialize (He e0 eq_refl). unfold aware in He.
    destruct (tzinfo e0) eqn:Ee0; [|discriminate]. simpl.
    destruct (latest st) as [l0|] eqn:El.
    + specialize (Hl l0 eq_refl). unfold aware in Hl.
      destruct (tzinfo l0) eqn:El0; [|discriminate]. simpl.
      eexists. split; [reflexivity|]. simpl.
      split; intros t Ht;
        [destruct (instant_us (ev_ts ev) <? instant_us e0)
        |destruct (instant_us l0 <? instant_us (ev_ts ev))];
        inversion Ht; subst; unfold aware; rewrite ?Etz, ?Ee0, ?El0; reflexivity.
    + simpl. eexists. split; [reflexivity|]. simpl.
      split; intros t Ht;
        [destruct (instant_us (ev_ts ev) <? instant_us e0)|];
        inversion Ht; subst; unfold aware; rewrite ?Etz, ?Ee0; reflexivity.
  - simpl. destruct (latest st) as [l0|] eqn:El.
    + specialize (Hl l0 eq_refl). unfold aware in Hl.
      destruct (tzinfo l0) eqn:El0; [|discriminate]. simpl.
      eexists. split; [reflexivity|]. simpl.
      split; intros t Ht;
        [|destruct (instant_us l0 <? instant_us (ev_ts ev))];
        inversion Ht; subst; unfold aware; rewrite ?Etz, ?El0; reflexivity.
    + simpl. eexists. split; [reflexivity|]. simpl.
      split; intros t Ht; inversion Ht; subst; unfold aware; rewrite Etz; reflexivity.
Qed.

Lemma for_each_aware (logs : list raw) (st : state) :
  (forall t, earliest st = Some t -> aware t = true) ->
  (forall t, latest st = Some t -> aware t = true) ->
  (forall ev, In ev (valid_events fromisoformat logs) -> aware (ev_ts ev) = true) ->
  exists st', for_each fromisoformat st logs = Ok st'.
Proof.
  revert st. induction logs as [|e logs IH]; intros st He Hl Hall.
  - exists st. reflexivity.
  - simpl. unfold loop_body. rewrite valid_events_cons in Hall.
    destruct (validate fromisoformat e) as [ev|].
    + destruct (accumulate_aware (count_entry st) ev He Hl) as (st1 & Hacc & He1 & Hl1).
      { apply Hall. left. reflexivity. }
      rewrite Hacc. simpl. apply (IH st1 He1 Hl1).
      intros ev' Hev'. apply Hall. right. exact Hev'.
    + simpl. apply (IH (count_entry st) He Hl Hall).
Qed.

Lemma build_report_returns (logs : list raw) (st : state) :
  for_each fromisoformat initial_state logs = Ok st ->
  exists r, build_report st = Ok r.
Proof.
  intro Hst. unfold build_report.
  destruct (valid_requests_of st =? 0) eqn:E; [eexists; reflexivity|].
  apply Z.eqb_neq in E.
  rewrite (valid_requests_length fromisoformat logs st Hst) in E.
  destruct (user_counts_get fromisoformat logs st Hst) as (_ & Hsum & _).
  unfold unusual_user.
  destruct (most_common_1 (user_counts st)) as [[u c]|] eqn:Emc.
  - match goal with |- context [if ?b then _ else _] => destruct b end;
      simpl; eexists; reflexivity.
  - apply most_common_1_none in Emc. rewrite Emc in Hsum. simpl in Hsum. lia.
Qed.

(** The analysis returns a report whenever the timestamps of the valid
    records all carry an offset. *)
Lemma analyze_returns_when_aware (logs : list raw) :
  (forall ev, In ev (valid_events fromisoformat logs) -> aware (ev_ts ev) = true) ->
  exists r, analyze_api_logs fromisoformat (Some logs) = Ok r.
Proof.
  intro Hall. unfold analyze_api_logs.
  destruct (for_each_aware logs initial_state) as (st & Hst); try exact Hall;
    try (simpl; discriminate).
  rewrite Hst. simpl. apply (build_report_returns logs st Hst).
Qed.
End Outcomes.

(** C2.  [analyze_api_logs(None)] fails with [ValueError] and the empty
    sequence gives the empty report (total 0, every list empty, time
    range, average and error rate null); [analyze_all_invalid] extends
    this to any sequence in which no record passes validation.  But a
    per-record problem can reach the caller: on two records that both
    pass validation, the first with a [Z] suffix and the second without
    an offset, the comparison with [earliest] at line 85, outside the
    [try] block, raises [TypeError]. *)
Theorem C2_naive_timestamp_raises :
  (forall fromisoformat, analyze_api_logs fromisoformat None = Raise ValueError)
  /\ (forall fromisoformat,
         analyze_api_logs fromisoformat (Some []) = Ok empty_report)
  /\ total_requests (summary empty_report) = 0
  /\ time_range_start (summary empty_report) = None
  /\ time_range_end (summary empty_report) = None
  /\ avg_response_time_ms (summary empty_report) = None
  /\ error_rate_percentage (summary empty_report) = None
  /\ forallb (passes_validation fromisoformat_seconds) aware_then_naive = true
  /\ analyze_api_logs fromisoformat_seconds (Some aware_then_naive)
     = Raise TypeError.
Proof.
  split; [reflexivity|]. split; [reflexivity|].
  repeat split; vm_compute; reflexivity.
Qed.

(** ** Hourly buckets: C5 *)

(** C5.  A valid event stamped 10:30 at UTC+05:30 lies in the UTC hour
    05:00, yet the loop files it under the key of its wall-clock hour,
    ["2025-01-15T10:00:00Z"], and the report counts it under ["10:00"]:
    [strftime] is applied to the datetime as written, without converting
    it to UTC. *)
Theorem C5_offset_event_bucketed_by_wall_clock_hour :
  exists ev,
    map (validate fromisoformat_seconds) offset_logs = [Some ev]
    /\ tzinfo (ev_ts ev) = Some 19800
    /\ utc_hour (ev_ts ev) = 5
    /\ strftime_hour (ev_ts ev) = "2025-01-15T10:00:00Z"%string
    /\ exists r,
         analyze_api_logs fromisoformat_seconds (Some offset_logs) = Ok r
         /\ hourly_distribution r = [("10:00"%string, 1)].
Proof.
  eexists. split; [vm_compute; reflexivity|].
  repeat split; try (vm_compute; reflexivity).
  eexists. split; vm_compute; reflexivity.
Qed.

Lemma hour_label_strftime (t : datetime) :
  hour_label (strftime_hour t) = (pad2 (hour t) ++ ":00")%string.
Proof. reflexivity. Qed.

Lemma hourly_formatted_group (h : list (string * Z)) :
  hourly_formatted_of h
  = group String.eqb (fun kv => hour_label (fst kv)) (fun kv n => n + snd kv) 0
          (sorted (fun a b => String.leb (fst a) (fst b)) h) [].
Proof.
  unfold hourly_formatted_of, group.
  generalize (@nil (string * Z)).
  induction (sorted (fun a b => String.leb (fst a) (fst b)) h) as [|[k v] l IH];
    intro acc; simpl; [reflexivity|apply IH].
Qed.

Lemma fold_from_sum (l : list (string * Z)) (n : Z) :
  fold_from (fun kv n => n + snd kv) l n = n + sumZ (map snd l).
Proof.
  revert n. induction l as [|kv l IH]; intro n.
  - simpl. lia.
  - unfold fold_from in *. simpl fold_left. rewrite IH. simpl. lia.
Qed.

Lemma sum_snd_perm (l l' : list (string * Z)) :
  Permutation l l' -> sumZ (map snd l) = sumZ (map snd l').
Proof. induction 1; simpl; lia. Qed.

Lemma filter_perm {A} (p : A -> bool) (l l' : list A) :
  Permutation l l' -> Permutation (filter p l) (filter p l').
Proof.
  induction 1 as [|x l l' Hp IH|x y l|l l' l'' H1 IH1 H2 IH2]; simpl.
  - constructor.
  - destruct (p x); [constructor|]; exact IH.
  - destruct (p x), (p y); try apply Permutation_refl. apply perm_swap.
  - eapply perm_trans; eassumption.
Qed.

Lemma sum_filter_incr (p : string -> bool) (k : string) (d : list (string * Z)) :
  sumZ (map snd (filter (fun kv => p (fst kv)) (incr String.eqb k d)))
  = sumZ (map snd (filter (fun kv => p (fst kv)) d)) + (if p k then 1 else 0).
Proof.
  unfold incr. induction d as [|[k0 v0] d IH]; simpl.
  - destruct (p k); simpl; lia.
  - destruct (String.eqb k k0) eqn:E; simpl.
    + apply String.eqb_eq in E. subst k0. destruct (p k); simpl; lia.
    + destruct (p k0); simpl; rewrite IH; lia.
Qed.

Lemma sum_filter_group {X} (key : X -> string) (p : string -> bool)
    (xs : list X) (d : list (string * Z)) :
  sumZ (map snd (filter (fun kv => p (fst kv))
                   (group String.eqb key (fun _ n => n + 1) 0 xs d)))
  = sumZ (map snd (filter (fun kv => p (fst kv)) d))
    + count_of (fun x => p (key x)) xs.
Proof.
  revert d. induction xs as [|x xs IH]; intro d.
  - unfold count_of. simpl. lia.
  - rewrite group_cons, IH.
    change (upd String.eqb (key x) (fun n => n + 1) 0 d)
      with (incr String.eqb (key x) d).
    rewrite sum_filter_incr. unfold count_of. simpl.
    destruct (p (key x)); simpl List.length; lia.
Qed.

Section HourlyFacts.
Variable fromisoformat : string -> option datetime.

(** What the report shows under an ["HH:00"] label: the number of valid
    events whose timestamp, as written, falls in that hour of the day, on
    whatever date. *)
Lemma hourly_counts_of (logs : list raw) (r : report) (label : string) :
  analyze_api_logs fromisoformat (Some logs) = Ok r ->
  get String.eqb label (hourly_distribution r)
  = match filter (fun ev => String.eqb (pad2 (hour (ev_ts ev)) ++ ":00") label)
                 (valid_events fromisoformat logs) with
    | [] => None
    | l => Some (Z.of_nat (List.length l))
    end.
Proof.
  intro H. apply analyze_inv in H. destruct H as (st & Hst & Hr).
  apply build_report_inv in Hr.
  destruct Hr as [[Hz ->]|(_ & ua & _ & _ & _ & _ & Hh & _)].
  - rewrite (no_valid_events fromisoformat logs st Hst Hz). reflexivity.
  - rewrite Hh, hourly_formatted_group.
    rewrite get_group by apply String.eqb_eq. simpl get. simpl or_dflt.
    pose proof (for_each_fields fromisoformat logs initial_state st Hst) as Hf.
    cbv zeta in Hf. destruct Hf as (_ & _ & H3 & _). simpl in H3.
    set (evs := valid_events fromisoformat logs) in *.
    set (p := fun k => String.eqb (hour_label k) label).
    set (srt := sorted (fun a b => String.leb (fst a) (fst b)) (hourly st)).
    assert (Hperm : Permutation
                      (filter (fun kv => p (fst kv)) srt)
                      (filter (fun kv => p (fst kv)) (hourly st)))
      by (apply filter_perm; apply sorted_perm).
    assert (Hsum : sumZ (map snd (filter (fun kv => p (fst kv)) srt))
                   = count_of (fun ev => p (strftime_hour (ev_ts ev))) evs).
    { rewrite (sum_snd_perm _ _ Hperm), H3.
      rewrite (sum_filter_group (fun ev => strftime_hour (ev_ts ev)) p evs []).
      simpl. reflexivity. }
    change (filter (fun x => String.eqb (hour_label (fst x)) label) srt)
      with (filter (fun kv => p (fst kv)) srt).
    change (filter (fun ev => String.eqb (pad2 (hour (ev_ts ev)) ++ ":00") label) evs)
      with (filter (fun ev => p (strftime_hour (ev_ts ev))) evs).
    unfold count_of in Hsum.
    destruct (filter (fun kv => p (fst kv)) srt) as [|kv l] eqn:Es.
    + simpl in Hsum.
      destruct (filter (fun ev => p (strftime_hour (ev_ts ev))) evs);
        [reflexivity|simpl in Hsum; lia].
    + rewrite fold_from_sum, Z.add_0_l, Hsum.
      destruct (filter (fun ev => p (strftime_hour (ev_ts ev))) evs) as [|ev l'] eqn:Ee;
        [|reflexivity].
      exfalso.
      assert (Hin : In kv (filter (fun kv => p (fst kv)) (hourly st))).
      { apply (Permutation_in _ Hperm). left. reflexivity. }
      apply filter_In in Hin. destruct Hin as (Hin & Hp).
      apply (in_map fst) in Hin. fold (keys (hourly st)) in Hin.
      rewrite H3 in Hin.
      apply (keys_group String.eqb String.eqb_eq) in Hin.
      destruct Hin as [Hin|[]].
      apply in_map_iff in Hin. destruct Hin as (ev & Hkey & Hev).
      assert (Hev' : In ev (filter (fun ev => p (strftime_hour (ev_ts ev))) evs)).
      { apply filter_In. split; [exact Hev|]. rewrite Hkey. exact Hp. }
      rewrite Ee in Hev'. destruct Hev'.
Qed.
End HourlyFacts.

(** ** The tests of the repository and two boundary cases *)

Example test_empty_input :
  analyze_api_logs fromisoformat_seconds (Some []) = Ok empty_report.
Proof. reflexivity. Qed.

Example test_single_entry :
  exists r,
    analyze_api_logs fromisoformat_seconds
      (Some [entry "2025-01-15T10:00:00Z" "/api/users" "GET" 120 200 "user_001"])
    = Ok r
    /\ total_requests (summary r) = 1
    /\ map es_request_count (endpoint_stats r) = [1].
Proof. eexists. repeat split; vm_compute; reflexivity. Qed.

Example test_malformed_entries :
  analyze_api_logs fromisoformat_seconds
    (Some [ Some {| timestamp := PStr "invalid"; endpoint := Some "/api/x"%string;
                    method := None; response_time_ms := PInt 100;
                    status_code := PInt 200; user_id := None |};
            Some {| timestamp := PNone; endpoint := Some "/api/x"%string;
                    method := None; response_time_ms := PInt (-5);
                    status_code := PInt 200; user_id := None |};
            None ])
  = Ok empty_report.
Proof. vm_compute. reflexivity. Qed.

Example test_invalid_timestamp :
  analyze_api_logs fromisoformat_seconds
    (Some [entry "2025-13-01T00:00:00Z" "/api/x" "GET" 100 200 "anonymous"])
  = Ok empty_report.
Proof. vm_compute. reflexivity. Qed.

Example test_negative_values :
  analyze_api_logs fromisoformat_seconds
    (Some [entry "2025-01-15T10:00:00Z" "/api/x" "GET" (-10) 200 "anonymous"])
  = Ok empty_report.
Proof. vm_compute. reflexivity. Qed.

(** A gap of exactly 300 seconds is inside the window, 301 is not. *)
Example window_gap_300 : window_counts [0; 300] = [1; 2].
Proof. reflexivity. Qed.

Example window_gap_301 : window_counts [0; 301] = [1; 1].
Proof. reflexivity. Qed.

(** A user with exactly half of the requests is not flagged. *)
Example exactly_half_not_flagged :
  unusual_user [("user_a"%string, 50); ("user_b"%string, 50)] = Ok [].
Proof. vm_compute. reflexivity. Qed.

(** * Further properties *)

(** ** When the analysis returns *)

Lemma dt_lt_same_kind (a b : datetime) :
  aware a = aware b -> exists c, dt_lt a b = Ok c.
Proof.
  unfold aware, dt_lt.
  destruct (tzinfo a), (tzinfo b); intro H; try discriminate; eexists; reflexivity.
Qed.

Lemma dt_lt_other_kind (a b : datetime) :
  aware a <> aware b -> dt_lt a b = Raise TypeError.
Proof.
  unfold aware, dt_lt.
  destruct (tzinfo a), (tzinfo b); intro H; try reflexivity; congruence.
Qed.

Lemma accumulate_first (st : state) (ev : event) :
  earliest st = None -> latest st = None ->
  exists st', accumulate st ev = Ok st' /\ seen_kind (aware (ev_ts ev)) st'.
Proof.
  intros He Hl. unfold accumulate. rewrite He, Hl. simpl.
  eexists. split; [reflexivity|].
  split; exists (ev_ts ev); split; reflexivity.
Qed.

Lemma accumulate_same_kind (k : bool) (st : state) (ev : event) :
  seen_kind k st -> aware (ev_ts ev) = k ->
  exists st', accumulate st ev = Ok st' /\ seen_kind k st'.
Proof.
  intros ((e0 & He & Hek) & (l0 & Hl & Hlk)) Hk.
  unfold accumulate. rewrite He, Hl.
  destruct (dt_lt_same_kind (ev_ts ev) e0) as (c1 & H1); [congruence|].
  destruct (dt_lt_same_kind l0 (ev_ts ev)) as (c2 & H2); [congruence|].
  rewrite H1, H2. simpl. eexists. split; [reflexivity|].
  split; simpl.
  - destruct c1; eexists; split; try reflexivity; assumption.
  - destruct c2; eexists; split; try reflexivity; assumption.
Qed.

Lemma accumulate_other_kind (k : bool) (st : state) (ev : event) :
  seen_kind k st -> aware (ev_ts ev) <> k ->
  accumulate st ev = Raise TypeError.
Proof.
  intros ((e0 & He & Hek) & _) Hk.
  unfold accumulate. rewrite He.
  rewrite (dt_lt_other_kind (ev_ts ev) e0) by congruence. reflexivity.
Qed.

Lemma seen_kind_count_entry (k : bool) (st : state) :
  seen_kind k st -> seen_kind k (count_entry st).
Proof. intro H. exact H. Qed.

Section ReturnFacts.
Variable fromisoformat : string -> option datetime.

Lemma for_each_seen_kind (k : bool) (logs : list raw) (st : state) :
  seen_kind k st ->
  match for_each fromisoformat st logs with
  | Ok _ =>
      forallb (fun ev => Bool.eqb (aware (ev_ts ev)) k)
              (valid_events fromisoformat logs) = true
  | Raise e =>
      e = TypeError
      /\ forallb (fun ev => Bool.eqb (aware (ev_ts ev)) k)
                 (valid_events fromisoformat logs) = false
  end.
Proof.
  revert st. induction logs as [|e logs IH]; intros st Hst.
  - reflexivity.
  - simpl for_each. unfold loop_body. rewrite valid_events_cons.
    destruct (validate fromisoformat e) as [ev|].
    + destruct (Bool.eqb (aware (ev_ts ev)) k) eqn:Ek.
      * apply Bool.eqb_prop in Ek.
        destruct (accumulate_same_kind k (count_entry st) ev
                    (seen_kind_count_entry k st Hst) Ek) as (st' & Hacc & Hst').
        rewrite Hacc. simpl bind. simpl forallb.
        replace (Bool.eqb (aware (ev_ts ev)) k) with true
          by (symmetry; rewrite Ek; apply Bool.eqb_reflx).
        simpl. apply IH. exact Hst'.
      * rewrite (accumulate_other_kind k (count_entry st) ev
                   (seen_kind_count_entry k st Hst)).
        -- simpl. rewrite Ek. split; reflexivity.
        -- intro Heq. rewrite Heq, Bool.eqb_reflx in Ek. discriminate.
    + simpl bind. apply IH. apply seen_kind_count_entry. exact Hst.
Qed.

Lemma forallb_kind_true (evs : list event) :
  forallb (fun ev => Bool.eqb (aware (ev_ts ev)) true) evs = all_aware evs.
Proof.
  unfold all_aware. induction evs as [|ev evs IH]; simpl; [reflexivity|].
  rewrite IH. destruct (aware (ev_ts ev)); reflexivity.
Qed.

Lemma forallb_kind_false (evs : list event) :
  forallb (fun ev => Bool.eqb (aware (ev_ts ev)) false) evs = all_naive evs.
Proof.
  unfold all_naive. induction evs as [|ev evs IH]; simpl; [reflexivity|].
  rewrite IH. destruct (aware (ev_ts ev)); reflexivity.
Qed.

Lemma for_each_outcome (logs : list raw) (st : state) :
  earliest st = None -> latest st = None ->
  match for_each fromisoformat st logs with
  | Ok _ =>
      all_aware (valid_events fromisoformat logs)
      || all_naive (valid_events fromisoformat logs) = true
  | Raise e =>
      e = TypeError
      /\ all_aware (valid_events fromisoformat logs)
         || all_naive (valid_events fromisoformat logs) = false
  end.
Proof.
  revert st. induction logs as [|e logs IH]; intros st He Hl.
  - reflexivity.
  - simpl for_each. unfold loop_body. rewrite valid_events_cons.
    destruct (validate fromisoformat e) as [ev|].
    + destruct (accumulate_first (count_entry st) ev He Hl) as (st' & Hacc & Hst').
      rewrite Hacc. simpl bind.
      pose proof (for_each_seen_kind _ logs st' Hst') as Hrest.
      unfold all_aware, all_naive in *. simpl forallb.
      destruct (aware (ev_ts ev)).
      * rewrite forallb_kind_true in Hrest. unfold all_aware in Hrest.
        simpl. rewrite orb_false_r.
        destruct (for_each fromisoformat st' logs); exact Hrest.
      * rewrite forallb_kind_false in Hrest. unfold all_naive in Hrest.
        simpl.
        destruct (for_each fromisoformat st' logs); exact Hrest.
    + simpl bind. apply IH; assumption.
Qed.
End ReturnFacts.

(** X1.  The analysis returns a report only if the timestamps of the
    records that pass validation are all aware or all naive: on an input
    that mixes the two kinds among its valid records it never returns
    one. *)
Theorem report_only_for_one_kind_of_timestamp
    (fromisoformat : string -> option datetime) (logs : list raw) (r : report) :
  analyze_api_logs fromisoformat (Some logs) = Ok r ->
  all_aware (valid_events fromisoformat logs)
  || all_naive (valid_events fromisoformat logs) = true.
Proof.
  intro H. apply analyze_inv in H. destruct H as (st & Hst & _).
  pose proof (for_each_outcome fromisoformat logs initial_state eq_refl eq_refl) as Ho.
  rewrite Hst in Ho. exact Ho.
Qed.

Lemma report_only_for_one_kind_of_timestamp_witness :
  analyze_api_logs fromisoformat_seconds (Some sample_mixed) = Ok sample_mixed_report
  /\ all_aware (valid_events fromisoformat_seconds sample_mixed)
     || all_naive (valid_events fromisoformat_seconds sample_mixed) = true.
Proof.
  assert (H : analyze_api_logs fromisoformat_seconds (Some sample_mixed)
              = Ok sample_mixed_report) by (vm_compute; reflexivity).
  split; [exact H|].
  apply (report_only_for_one_kind_of_timestamp fromisoformat_seconds sample_mixed
           sample_mixed_report H).
Defined.

(** X2.  A returned report is the empty report exactly when no record of the
    input passes validation. *)
Theorem empty_report_iff_no_valid_record
    (fromisoformat : string -> option datetime) (logs : list raw) (r : report) :
  analyze_api_logs fromisoformat (Some logs) = Ok r ->
  r = empty_report
  <-> forall e, In e logs -> passes_validation fromisoformat e = false.
Proof.
  intro H. split.
  - intros -> e He.
    pose proof (total_requests_length fromisoformat logs empty_report H) as Ht.
    rewrite valid_events_length in Ht. simpl in Ht.
    destruct (passes_validation fromisoformat e) eqn:E; [|reflexivity].
    assert (Hin : In e (filter (passes_validation fromisoformat) logs))
      by (apply filter_In; split; assumption).
    destruct (filter (passes_validation fromisoformat) logs); [destruct Hin|].
    simpl in Ht. lia.
  - intro Hall.
    rewrite (analyze_all_invalid fromisoformat logs Hall) in H.
    inversion H. reflexivity.
Qed.

Lemma empty_report_iff_no_valid_record_witness :
  analyze_api_logs fromisoformat_seconds (Some sample_mixed)
  = Ok sample_mixed_report
  /\ ~ (forall e, In e sample_mixed ->
                  passes_validation fromisoformat_seconds e = false).
Proof.
  assert (H : analyze_api_logs fromisoformat_seconds (Some sample_mixed)
              = Ok sample_mixed_report) by (vm_compute; reflexivity).
  split; [exact H|].
  intro Hall.
  apply (proj2 (empty_report_iff_no_valid_record fromisoformat_seconds
                  sample_mixed sample_mixed_report H)) in Hall.
  discriminate Hall.
Defined.

(** ** [_parse_timestamp] *)

Lemma replace_Z_app (a b : string) :
  replace_Z (a ++ b) = (replace_Z a ++ replace_Z b)%string.
Proof.
  induction a as [|c a IH]; simpl; [reflexivity|].
  rewrite IH. destruct (Ascii.eqb c "Z"); reflexivity.
Qed.

Lemma append_not_empty (a b : string) :
  b <> EmptyString -> String.eqb (a ++ b) "" = false.
Proof.
  intro Hb. destruct a as [|c a]; simpl; [|reflexivity].
  destruct b; [congruence|reflexivity].
Qed.

(** X3.  [_parse_timestamp] accepts exactly the non-empty strings that
    [fromisoformat] accepts once every [Z] is replaced by [+00:00]; every
    other value gives [ValueError] and no other exception; and a text
    ending in [Z] parses like the same text ending in [+00:00]. *)
Theorem parse_timestamp_contract (fromisoformat : string -> option datetime) :
  (forall v t,
      _parse_timestamp fromisoformat v = Ok t
      <-> exists s, v = PStr s /\ s <> EmptyString
                    /\ fromisoformat (replace_Z s) = Some t)
  /\ (forall v e, _parse_timestamp fromisoformat v = Raise e -> e = ValueError)
  /\ (forall s,
         _parse_timestamp fromisoformat (PStr (s ++ "Z"))
         = _parse_timestamp fromisoformat (PStr (s ++ "+00:00"))).
Proof.
  split; [|split].
  - intros v t. unfold _parse_timestamp. split.
    + destruct v as [|b|z|q|s]; simpl;
        try discriminate;
        try (destruct b; discriminate);
        try (destruct (negb (z =? 0)); discriminate);
        try (destruct (negb (Qeq_bool q 0)); discriminate).
      destruct (String.eqb s "") eqn:E; simpl; [discriminate|].
      destruct (fromisoformat (replace_Z s)) as [t'|] eqn:Ep; [|discriminate].
      intro H. inversion H; subst. exists s. repeat split; [|exact Ep].
      intros ->. discriminate.
    + intros (s & -> & Hne & Hp). simpl.
      destruct (String.eqb s "") eqn:E;
        [apply String.eqb_eq in E; contradiction|].
      simpl. rewrite Hp. reflexivity.
  - intros v e. unfold _parse_timestamp.
    destruct (negb (truthy v)); [intro H; inversion H; reflexivity|].
    destruct v as [|b|z|q|s]; try (intro H; inversion H; reflexivity).
    destruct (fromisoformat (replace_Z s)); intro H; inversion H; reflexivity.
  - intro s. unfold _parse_timestamp, truthy.
    rewrite !append_not_empty by discriminate. simpl negb. cbv iota.
    rewrite !replace_Z_app. reflexivity.
Qed.

(** ** The summary *)

Lemma build_report_summary (st : state) (r : report) :
  build_report st = Ok r -> valid_requests_of st <> 0 ->
  summary r
  = {| total_requests := valid_requests_of st;
       time_range_start := earliest st;
       time_range_end := latest st;
       avg_response_time_ms :=
         Some (sum_response st / inject_Z (valid_requests_of st))%Q;
       error_rate_percentage :=
         Some (inject_Z (sumZ (map d_errors (values (endpoint_info st))))
               / inject_Z (valid_requests_of st) * 100)%Q |}.
Proof.
  unfold build_report. intros H Hne.
  destruct (valid_requests_of st =? 0) eqn:E;
    [apply Z.eqb_eq in E; contradiction|].
  destruct (unusual_user (user_counts st)); simpl in H; [|discriminate].
  inversion H. reflexivity.
Qed.

Lemma dt_lt_instant (a b : datetime) (c : bool) :
  dt_lt a b = Ok c -> c = (instant_us a <? instant_us b).
Proof.
  unfold dt_lt, instant_us.
  destruct (tzinfo a), (tzinfo b); intro H; inversion H; reflexivity.
Qed.

Lemma accumulate_time_range (evs : list event) (st st' : state) (ev : event) :
  time_range_of evs st -> accumulate st ev = Ok st' ->
  time_range_of (evs ++ [ev]) st'
  /\ sum_response st' = (sum_response st + ev_rt ev)%Q.
Proof.
  intros (He & Hl & Hen & Hln). unfold accumulate.
  destruct (match earliest st with
            | Some e => dt_lt (ev_ts ev) e
            | None => Ok true
            end) as [c1|] eqn:E1; simpl; [|discriminate].
  destruct (match latest st with
            | Some l => dt_lt l (ev_ts ev)
            | None => Ok true
            end) as [c2|] eqn:E2; simpl; [|discriminate].
  intro H. inversion H; subst; clear H. simpl. split; [|reflexivity].
  unfold time_range_of. simpl. rewrite map_app. simpl.
  assert (Hlast : In (ev_ts ev) (map ev_ts evs ++ [ev_ts ev]))
    by (apply in_or_app; right; left; reflexivity).
  split; [|split; [|split]].
  - intros t Ht. destruct (earliest st) as [e0|] eqn:Ee.
    + apply dt_lt_instant in E1. destruct (He e0 eq_refl) as (Hin & Hmin).
      destruct c1; inversion Ht; subst; clear Ht.
      * symmetry in E1. apply Z.ltb_lt in E1. split; [exact Hlast|].
        intros ev' Hev'. apply in_app_or in Hev'.
        destruct Hev' as [Hev'|[<-|[]]]; [specialize (Hmin ev' Hev')|]; lia.
      * symmetry in E1. apply Z.ltb_ge in E1.
        split; [apply in_or_app; left; exact Hin|].
        intros ev' Hev'. apply in_app_or in Hev'.
        destruct Hev' as [Hev'|[<-|[]]]; [apply Hmin; exact Hev'|lia].
    + inversion E1; subst. inversion Ht; subst. rewrite (Hen eq_refl).
      split; [left; reflexivity|].
      intros ev' [<-|[]]. lia.
  - intros t Ht. destruct (latest st) as [l0|] eqn:El.
    + apply dt_lt_instant in E2. destruct (Hl l0 eq_refl) as (Hin & Hmax).
      destruct c2; inversion Ht; subst; clear Ht.
      * symmetry in E2. apply Z.ltb_lt in E2. split; [exact Hlast|].
        intros ev' Hev'. apply in_app_or in Hev'.
        destruct Hev' as [Hev'|[<-|[]]]; [specialize (Hmax ev' Hev')|]; lia.
      * symmetry in E2. apply Z.ltb_ge in E2.
        split; [apply in_or_app; left; exact Hin|].
        intros ev' Hev'. apply in_app_or in Hev'.
        destruct Hev' as [Hev'|[<-|[]]]; [apply Hmax; exact Hev'|lia].
    + inversion E2; subst. inversion Ht; subst. rewrite (Hln eq_refl).
      split; [left; reflexivity|].
      intros ev' [<-|[]]. lia.
  - destruct c1; [discriminate|]. intro Hnone.
    rewrite Hnone in E1. inversion E1.
  - destruct c2; [discriminate|]. intro Hnone.
    rewrite Hnone in E2. inversion E2.
Qed.

Lemma sum_errors_upd (ev : event) (d : list (string * endpoint_data)) :
  sumZ (map d_errors
          (values (upd String.eqb (ev_endpoint ev) (record_request ev)
                       new_endpoint_data d)))
  = sumZ (map d_errors (values d)) + (if is_error ev then 1 else 0).
Proof.
  unfold values, is_error. induction d as [|[k0 v0] d IH]; simpl.
  - destruct (ev_status ev >=? 400); reflexivity.
  - destruct (String.eqb (ev_endpoint ev) k0); simpl.
    + destruct (ev_status ev >=? 400); lia.
    + rewrite IH. lia.
Qed.

Lemma sum_errors_group (evs : list event) (d : list (string * endpoint_data)) :
  sumZ (map d_errors
          (values (group String.eqb ev_endpoint record_request
                         new_endpoint_data evs d)))
  = sumZ (map d_errors (values d)) + count_of is_error evs.
Proof.
  revert d. induction evs as [|ev evs IH]; intro d.
  - unfold count_of. simpl. lia.
  - rewrite group_cons, IH, sum_errors_upd. unfold count_of. simpl.
    destruct (is_error ev); simpl List.length; lia.
Qed.

Lemma count_of_le {A} (p : A -> bool) (l : list A) :
  0 <= count_of p l <= Z.of_nat (List.length l).
Proof.
  unfold count_of. pose proof (filter_length_le p l). lia.
Qed.

Lemma fold_left_Qplus_nonneg (l : list Q) (a : Q) :
  (0 <= a)%Q -> (forall x, In x l -> (0 <= x)%Q) ->
  (0 <= fold_left Qplus l a)%Q.
Proof.
  revert a. induction l as [|x l IH]; intros a Ha Hl; simpl; [exact Ha|].
  apply IH.
  - specialize (Hl x (or_introl eq_refl)). lra.
  - intros y Hy. apply Hl. right. exact Hy.
Qed.

Section SummaryFacts.
Variable fromisoformat : string -> option datetime.

Lemma validate_nonneg (e : raw) (ev : event) :
  validate fromisoformat e = Some ev -> (0 <= ev_rt ev)%Q.
Proof.
  unfold validate. destruct e as [le|]; [|discriminate].
  destruct (_parse_timestamp fromisoformat (timestamp le)); [|discriminate].
  destruct (as_number (response_time_ms le)) as [rt|]; [|discriminate].
  destruct (Qltb rt 0) eqn:E; [discriminate|].
  destruct (as_int (status_code le)); [|discriminate].
  intro H. inversion H; subst. simpl. apply Qltb_ge. exact E.
Qed.

Lemma valid_events_nonneg (logs : list raw) (ev : event) :
  In ev (valid_events fromisoformat logs) -> (0 <= ev_rt ev)%Q.
Proof.
  unfold valid_events. intro H. apply in_flat_map in H.
  destruct H as (e & _ & He).
  destruct (validate fromisoformat e) as [ev'|] eqn:Ev; [|destruct He].
  destruct He as [<-|[]]. apply (validate_nonneg e ev' Ev).
Qed.

Lemma for_each_time_range (logs : list raw) (seen : list event) (st st' : state) :
  time_range_of seen st ->
  for_each fromisoformat st logs = Ok st' ->
  time_range_of (seen ++ valid_events fromisoformat logs) st'
  /\ sum_response st'
     = fold_left Qplus (map ev_rt (valid_events fromisoformat logs))
                 (sum_response st).
Proof.
  revert seen st. induction logs as [|e logs IH]; intros seen st Hst H.
  - simpl in H. inversion H; subst. simpl. rewrite app_nil_r. split; [exact Hst|reflexivity].
  - simpl in H. unfold loop_body in H. rewrite valid_events_cons.
    destruct (validate fromisoformat e) as [ev|].
    + destruct (accumulate (count_entry st) ev) as [st1|] eqn:Hacc;
        simpl in H; [|discriminate].
      destruct (accumulate_time_range seen (count_entry st) st1 ev Hst Hacc)
        as (Hst1 & Hsum).
      destruct (IH (seen ++ [ev]) st1 Hst1 H) as (I1 & I2).
      rewrite <- app_assoc in I1. split; [exact I1|].
      rewrite I2, Hsum. reflexivity.
    + simpl in H. apply (IH seen (count_entry st) Hst H).
Qed.
End SummaryFacts.
Lemma ratio_pct_bounds (e n : Z) :
  0 <= e <= n -> 0 < n ->
  (0 <= inject_Z e / inject_Z n * 100 /\ inject_Z e / inject_Z n * 100 <= 100)%Q.
Proof.
  intros He Hn. destruct n as [|p|p]; try lia.
  unfold Qle, Qdiv, Qmult, Qinv, inject_Z. cbn [Qnum Qden]. split; nia.
Qed.

(** X4.  The time range of a report: with no valid record both bounds are
    null; otherwise [start] and [end] are timestamps of valid records, no
    valid record is earlier than [start] and none is later than [end]. *)
Theorem time_range_bounds
    (fromisoformat : string -> option datetime) (logs : list raw) (r : report) :
  analyze_api_logs fromisoformat (Some logs) = Ok r ->
  let evs := valid_events fromisoformat logs in
  match time_range_start (summary r), time_range_end (summary r) with
  | Some first, Some last =>
      In first (map ev_ts evs) /\ In last (map ev_ts evs)
      /\ forall ev, In ev evs ->
                    instant_us first <= instant_us (ev_ts ev) <= instant_us last
  | None, None => evs = []
  | _, _ => False
  end.
Proof.
  intro H. cbv zeta. apply analyze_inv in H. destruct H as (st & Hst & Hr).
  assert (Hinit : time_range_of [] initial_state).
  { repeat split; try discriminate. }
  destruct (for_each_time_range fromisoformat logs [] initial_state st Hinit Hst)
    as ((He & Hl & Hen & Hln) & _).
  simpl app in *.
  destruct (Z.eq_dec (valid_requests_of st) 0) as [Hz|Hnz].
  - apply build_report_inv in Hr. destruct Hr as [[_ ->]|(Hc & _)]; [|contradiction].
    simpl. apply (no_valid_events fromisoformat logs st Hst Hz).
  - rewrite (build_report_summary st r Hr Hnz). simpl.
    destruct (earliest st) as [e0|] eqn:Ee.
    + destruct (latest st) as [l0|] eqn:El.
      * destruct (He e0 eq_refl) as (H1 & H2).
        destruct (Hl l0 eq_refl) as (H3 & H4).
        repeat split; try assumption; [apply H2|apply H4]; assumption.
      * rewrite (Hln eq_refl) in *. destruct (He e0 eq_refl) as ([] & _).
    + rewrite (valid_requests_length fromisoformat logs st Hst) in Hnz.
      rewrite (Hen eq_refl) in Hnz. simpl in Hnz. contradiction.
Qed.

Lemma time_range_bounds_witness :
  analyze_api_logs fromisoformat_seconds (Some error_burst)
  = Ok error_burst_report
  /\ option_map timestamp_int (time_range_start (summary error_burst_report))
     = Some 1736935200
  /\ option_map timestamp_int (time_range_end (summary error_burst_report))
     = Some 1736935211.
Proof.
  assert (H : analyze_api_logs fromisoformat_seconds (Some error_burst)
              = Ok error_burst_report) by (vm_compute; reflexivity).
  pose proof (time_range_bounds fromisoformat_seconds error_burst
                error_burst_report H) as Hb.
  split; [exact H|]. cbv zeta in Hb.
  destruct (time_range_start (summary error_burst_report)) as [first|] eqn:E1;
    destruct (time_range_end (summary error_burst_report)) as [last|] eqn:E2;
    try (vm_compute in E1; discriminate E1);
    try (vm_compute in E2; discriminate E2).
  vm_compute in E1, E2. inversion E1; inversion E2.
  split; vm_compute; reflexivity.
Defined.

(** X5.  The averages of a report with at least one valid record: the mean
    response time is the sum of the valid response times over their
    number and is not negative; the error rate is 100 times the number
    of valid records with status >= 400 over their number and lies
    between 0 and 100. *)
Theorem summary_rates
    (fromisoformat : string -> option datetime) (logs : list raw) (r : report) :
  analyze_api_logs fromisoformat (Some logs) = Ok r ->
  let evs := valid_events fromisoformat logs in
  evs <> [] ->
  let n := Z.of_nat (List.length evs) in
  exists avg rate,
    avg_response_time_ms (summary r) = Some avg
    /\ error_rate_percentage (summary r) = Some rate
    /\ avg = (fold_left Qplus (map ev_rt evs) 0 / inject_Z n)%Q
    /\ rate = (inject_Z (count_of is_error evs) / inject_Z n * 100)%Q
    /\ (0 <= avg)%Q /\ (0 <= rate)%Q /\ (rate <= 100)%Q.
Proof.
  intros H evs Hne. cbv zeta.
  apply analyze_inv in H. destruct H as (st & Hst & Hr).
  pose proof (valid_requests_length fromisoformat logs st Hst) as Hlen.
  fold evs in Hlen.
  assert (Hpos : 0 < Z.of_nat (List.length evs))
    by (destruct evs; [congruence|simpl; lia]).
  assert (Hnz : valid_requests_of st <> 0) by lia.
  rewrite (build_report_summary st r Hr Hnz). simpl.
  assert (Hinit : time_range_of [] initial_state)
    by (repeat split; try discriminate).
  destruct (for_each_time_range fromisoformat logs [] initial_state st Hinit Hst)
    as (_ & Hsum).
  pose proof (for_each_fields fromisoformat logs initial_state st Hst) as Hf.
  cbv zeta in Hf. destruct Hf as (Hinfo & _).
  fold evs in Hsum, Hinfo.
  rewrite Hsum, Hinfo, sum_errors_group, Hlen. simpl sum_response.
  simpl (sumZ (map d_errors (values []))). rewrite Z.add_0_l.
  do 2 eexists. split; [reflexivity|]. split; [reflexivity|].
  split; [reflexivity|]. split; [reflexivity|].
  split.
  - apply Qle_shift_div_l.
    + unfold Qlt, inject_Z. simpl. lia.
    + rewrite Qmult_0_l. apply fold_left_Qplus_nonneg; [lra|].
      intros x Hx. apply in_map_iff in Hx. destruct Hx as (ev & <- & Hev).
      apply (valid_events_nonneg fromisoformat logs ev Hev).
  - apply ratio_pct_bounds; [apply count_of_le|exact Hpos].
Qed.

Lemma summary_rates_witness :
  analyze_api_logs fromisoformat_seconds (Some slow_failing_logs)
  = Ok slow_failing_report
  /\ valid_events fromisoformat_seconds slow_failing_logs <> []
  /\ exists avg rate,
       avg_response_time_ms (summary slow_failing_report) = Some avg
       /\ error_rate_percentage (summary slow_failing_report) = Some rate
       /\ (avg == 2550)%Q /\ (rate == 50)%Q.
Proof.
  assert (H : analyze_api_logs fromisoformat_seconds (Some slow_failing_logs)
              = Ok slow_failing_report) by (vm_compute; reflexivity).
  assert (Hne : valid_events fromisoformat_seconds slow_failing_logs <> [])
    by (vm_compute; discriminate).
  split; [exact H|]. split; [exact Hne|].
  destruct (summary_rates fromisoformat_seconds slow_failing_logs
              slow_failing_report H Hne)
    as (avg & rate & Ha & Hr & Havg & Hrate & _).
  exists avg, rate. split; [exact Ha|]. split; [exact Hr|].
  rewrite Havg, Hrate. split; vm_compute; reflexivity.
Defined.

(** ** Endpoint statistics *)

Lemma sumZ_perm (l l' : list Z) : Permutation l l' -> sumZ l = sumZ l'.
Proof. induction 1; simpl; lia. Qed.

Lemma stats_counts (info : list (string * endpoint_data)) :
  map es_request_count (endpoint_stats_of info) = map d_count (values info).
Proof.
  unfold endpoint_stats_of, values. rewrite !map_map.
  apply map_ext. intros [k d]. reflexivity.
Qed.

Lemma count_leb_total (a b : endpoint_stat) :
  (- es_request_count a <=? - es_request_count b) = true
  \/ (- es_request_count b <=? - es_request_count a) = true.
Proof. rewrite !Z.leb_le. lia. Qed.

Lemma count_leb_trans (a b c : endpoint_stat) :
  (- es_request_count a <=? - es_request_count b) = true ->
  (- es_request_count b <=? - es_request_count c) = true ->
  (- es_request_count a <=? - es_request_count c) = true.
Proof. rewrite !Z.leb_le. lia. Qed.

Lemma StronglySorted_weaken {A} (R S : A -> A -> Prop) (l : list A) :
  (forall a b, R a b -> S a b) -> StronglySorted R l -> StronglySorted S l.
Proof.
  intros HRS. induction 1 as [|x l Hs IH Hall]; constructor.
  - exact IH.
  - rewrite Forall_forall in *. intros y Hy. apply HRS. apply Hall. exact Hy.
Qed.

Section StatsFacts.
Variable fromisoformat : string -> option datetime.

Lemma stat_in_get (logs : list raw) (r : report) (ep : string) :
  analyze_api_logs fromisoformat (Some logs) = Ok r ->
  stat_in r ep
  = match events_of ep (valid_events fromisoformat logs) with
    | [] => None
    | l => Some (stat_of ep (aggregate l))
    end.
Proof.
  intro H. apply analyze_inv in H. destruct H as (st & Hst & Hr).
  destruct (endpoint_info_get fromisoformat logs st ep Hst) as (Hnd & Hget).
  apply build_report_inv in Hr.
  destruct Hr as [[Hz ->]|(_ & ua & _ & _ & Hs & _)].
  - rewrite (no_valid_events fromisoformat logs st Hst Hz). reflexivity.
  - unfold stat_in. rewrite Hs.
    rewrite <- (find_perm_unique es_endpoint ep (endpoint_stats_of (endpoint_info st))).
    + rewrite find_stat_get, Hget.
      destruct (events_of ep (valid_events fromisoformat logs)); reflexivity.
    + rewrite stats_names. exact Hnd.
    + apply Permutation_sym. apply sorted_perm.
Qed.

(** X6.  The statistics list holds one entry per endpoint that has a valid
    record and no other, in order of decreasing request count, and its
    request counts add up to [total_requests]. *)
Theorem endpoint_stats_layout (logs : list raw) (r : report) :
  analyze_api_logs fromisoformat (Some logs) = Ok r ->
  NoDup (map es_endpoint (endpoint_stats r))
  /\ StronglySorted (fun a b => es_request_count b <= es_request_count a)
                    (endpoint_stats r)
  /\ sumZ (map es_request_count (endpoint_stats r)) = total_requests (summary r)
  /\ forall ep, In ep (map es_endpoint (endpoint_stats r))
                <-> events_of ep (valid_events fromisoformat logs) <> [].
Proof.
  intro H. pose proof H as H0.
  apply analyze_inv in H. destruct H as (st & Hst & Hr).
  apply build_report_inv in Hr.
  destruct Hr as [[Hz ->]|(Hnz & ua & _ & Ht & Hs & _)].
  - rewrite (no_valid_events fromisoformat logs st Hst Hz). simpl.
    repeat split; try constructor; try reflexivity; try contradiction;
      try (intro Hc; apply Hc; reflexivity).
  - set (leb := fun a b => - es_request_count a <=? - es_request_count b) in *.
    assert (Hperm : Permutation (endpoint_stats r)
                                (endpoint_stats_of (endpoint_info st)))
      by (rewrite Hs; apply sorted_perm).
    assert (Hnd : NoDup (keys (endpoint_info st)))
      by (apply (endpoint_info_get fromisoformat logs st EmptyString Hst)).
    split; [|split; [|split]].
    + apply (Permutation_NoDup (l := map es_endpoint (endpoint_stats_of (endpoint_info st)))).
      * apply Permutation_sym. apply Permutation_map. exact Hperm.
      * rewrite stats_names. exact Hnd.
    + rewrite Hs.
      apply (StronglySorted_weaken (fun a b => leb a b = true)).
      * unfold leb. intros a b Hab. apply Z.leb_le in Hab. lia.
      * apply sorted_sorted; [exact count_leb_total|exact count_leb_trans].
    + rewrite (sumZ_perm _ _ (Permutation_map es_request_count Hperm)).
      rewrite stats_counts. rewrite Ht. reflexivity.
    + intro ep. split.
      * intro Hin.
        apply (Permutation_in _ (Permutation_map es_endpoint Hperm)) in Hin.
        rewrite stats_names in Hin.
        destruct (endpoint_info_get fromisoformat logs st ep Hst) as (_ & Hget).
        intro Hnil. rewrite Hnil in Hget.
        apply (get_None_keys String.eqb String.eqb_eq) in Hget. contradiction.
      * intro Hne.
        apply (Permutation_in _ (Permutation_sym (Permutation_map es_endpoint Hperm))).
        rewrite stats_names.
        destruct (endpoint_info_get fromisoformat logs st ep Hst) as (_ & Hget).
        destruct (in_dec string_dec ep (keys (endpoint_info st))) as [Hin|Hnin];
          [exact Hin|].
        apply (get_None_keys String.eqb String.eqb_eq) in Hnin.
        rewrite Hnin in Hget.
        destruct (events_of ep (valid_events fromisoformat logs));
          [congruence|discriminate].
Qed.
End StatsFacts.

Lemma endpoint_stats_layout_witness :
  analyze_api_logs fromisoformat_seconds (Some (sample_mixed ++ [sample_extra]))
  = Ok sample_extended_report
  /\ sumZ (map es_request_count (endpoint_stats sample_extended_report)) = 2.
Proof.
  assert (H : analyze_api_logs fromisoformat_seconds
                (Some (sample_mixed ++ [sample_extra]))
              = Ok sample_extended_report) by (vm_compute; reflexivity).
  split; [exact H|].
  destruct (endpoint_stats_layout fromisoformat_seconds _ _ H) as (_ & _ & Hsum & _).
  rewrite Hsum. vm_compute. reflexivity.
Defined.

Lemma fold_left_Qplus_bounds (l : list Q) (a m M : Q) :
  (forall x, In x l -> m <= x /\ x <= M)%Q ->
  (a + inject_Z (Z.of_nat (List.length l)) * m <= fold_left Qplus l a
   /\ fold_left Qplus l a <= a + inject_Z (Z.of_nat (List.length l)) * M)%Q.
Proof.
  revert a. induction l as [|x l IH]; intros a Hl.
  - simpl fold_left. simpl List.length. change (inject_Z (Z.of_nat 0)) with 0%Q. lra.
  - simpl fold_left. simpl List.length.
    destruct (Hl x (or_introl eq_refl)) as (H1 & H2).
    destruct (IH (a + x)%Q) as (I1 & I2).
    { intros y Hy. apply Hl. right. exact Hy. }
    rewrite Nat2Z.inj_succ. unfold Z.succ. rewrite inject_Z_plus.
    set (N := inject_Z (Z.of_nat (List.length l))) in *.
    change (inject_Z 1) with 1%Q.
    split.
    + setoid_replace ((N + 1) * m)%Q with (N * m + m)%Q by ring. lra.
    + setoid_replace ((N + 1) * M)%Q with (N * M + M)%Q by ring. lra.
Qed.

Lemma aggregate_status (evs : list event) (d : endpoint_data) :
  d_status_counter (fold_from record_request evs d)
  = group Z.eqb ev_status (fun _ n => n + 1) 0 evs (d_status_counter d).
Proof.
  revert d. induction evs as [|ev evs IH]; intro d.
  - reflexivity.
  - rewrite group_cons. unfold fold_from in *. simpl fold_left. rewrite IH.
    reflexivity.
Qed.

Section StatEntryFacts.
Variable fromisoformat : string -> option datetime.

(** X7.  The statistics entry of an endpoint: it exists exactly when the
    endpoint has a valid record, and then its request count is their
    number, its error count is the number with status >= 400 (so at most
    the request count), its average is the sum of their response times
    over their number, and [fastest] and [slowest] are response times of
    the endpoint that bound every other one, with [fastest] not
    negative.  When the response times are whole numbers of milliseconds
    with a total below 2^52, the average lies between [fastest] and
    [slowest]; a float average of other values can fall just outside. *)
Theorem endpoint_stat_entry (logs : list raw) (r : report) (ep : string) :
  analyze_api_logs fromisoformat (Some logs) = Ok r ->
  let l := events_of ep (valid_events fromisoformat logs) in
  match stat_in r ep with
  | None => l = []
  | Some s =>
      l <> []
      /\ es_endpoint s = ep
      /\ es_request_count s = Z.of_nat (List.length l)
      /\ es_error_count s = count_of is_error l
      /\ 0 <= es_error_count s <= es_request_count s
      /\ es_avg_response_time_ms s
         = (total_rt l / inject_Z (Z.of_nat (List.length l)))%Q
      /\ exists fastest slowest,
           es_fastest_request_ms s = Some fastest
           /\ es_slowest_request_ms s = Some slowest
           /\ In fastest (map ev_rt l) /\ In slowest (map ev_rt l)
           /\ (forall x, In x (map ev_rt l) -> fastest <= x /\ x <= slowest)%Q
           /\ (0 <= fastest)%Q
           /\ (whole_times l = true ->
               (fastest <= es_avg_response_time_ms s)%Q
               /\ (es_avg_response_time_ms s <= slowest)%Q)
  end.
Proof.
  intro H. cbv zeta. rewrite (stat_in_get fromisoformat logs r ep H).
  destruct (events_of ep (valid_events fromisoformat logs)) as [|ev l'] eqn:El;
    [reflexivity|].
  set (l := ev :: l') in *.
  assert (Hne : l <> []) by discriminate.
  assert (Hpos : 0 < Z.of_nat (List.length l)) by (unfold l; simpl; lia).
  assert (Havg : avg_rt_of (aggregate l)
                 = (total_rt l / inject_Z (Z.of_nat (List.length l)))%Q).
  { unfold avg_rt_of, total_rt.
    change (aggregate l) with (fold_from record_request l new_endpoint_data).
    rewrite aggregate_sum, fold_from_count. reflexivity. }
  split; [exact Hne|]. split; [reflexivity|].
  simpl es_request_count. simpl es_error_count.
  simpl es_avg_response_time_ms. simpl es_fastest_request_ms.
  simpl es_slowest_request_ms.
  rewrite aggregate_count, aggregate_error_count, Havg.
  split; [reflexivity|]. split; [reflexivity|].
  split; [apply count_of_le|]. split; [reflexivity|].
  change (aggregate l) with (fold_from record_request l new_endpoint_data).
  destruct (fold_max l new_endpoint_data (or_introl Hne))
    as (M & HM & HMin & HMub & _).
  destruct (fold_min l new_endpoint_data (or_introl Hne))
    as (m & Hm & Hmin & Hmlb & _).
  destruct HMin as [HMin|HMin]; [discriminate|].
  destruct Hmin as [Hmin|Hmin]; [discriminate|].
  exists m, M. split; [exact Hm|]. split; [exact HM|].
  split; [exact Hmin|]. split; [exact HMin|].
  assert (Hb : forall x, In x (map ev_rt l) -> (m <= x /\ x <= M)%Q)
    by (intros x Hx; split; [apply Hmlb|apply HMub]; exact Hx).
  split; [exact Hb|].
  assert (Hin : forall x, In x (map ev_rt l) -> (0 <= x)%Q).
  { intros x Hx. apply in_map_iff in Hx. destruct Hx as (e & <- & He).
    apply (valid_events_nonneg fromisoformat logs).
    assert (He' : In e (events_of ep (valid_events fromisoformat logs)))
      by (rewrite El; exact He).
    unfold events_of in He'. apply filter_In in He'. apply He'. }
  split; [apply Hin; exact Hmin|].
  destruct (fold_left_Qplus_bounds (map ev_rt l) 0 m M Hb) as (B1 & B2).
  rewrite length_map in B1, B2.
  assert (HposQ : (0 < inject_Z (Z.of_nat (List.length l)))%Q)
    by (unfold Qlt, inject_Z; simpl; lia).
  intros _. unfold total_rt. split.
  - apply Qle_shift_div_l; [exact HposQ|]. lra.
  - apply Qle_shift_div_r; [exact HposQ|]. lra.
Qed.

(** X8.  The most common status of an endpoint's entry is a status code that
    at least one of its valid records carries, and no status code is
    carried by more of them. *)
Theorem most_common_status_is_a_mode (logs : list raw) (r : report)
    (ep : string) (s : endpoint_stat) :
  analyze_api_logs fromisoformat (Some logs) = Ok r ->
  stat_in r ep = Some s ->
  let l := events_of ep (valid_events fromisoformat logs) in
  exists c,
    es_most_common_status s = Some c
    /\ 1 <= count_of (has_status c) l
    /\ forall c', count_of (has_status c') l <= count_of (has_status c) l.
Proof.
  intros H Hs. cbv zeta. rewrite (stat_in_get fromisoformat logs r ep H) in Hs.
  destruct (events_of ep (valid_events fromisoformat logs)) as [|ev l'] eqn:El;
    [discriminate|].
  set (l := ev :: l') in *. inversion Hs; subst s; clear Hs.
  simpl es_most_common_status.
  change (aggregate l) with (fold_from record_request l new_endpoint_data).
  rewrite aggregate_status. simpl d_status_counter.
  set (sc := group Z.eqb ev_status (fun _ n => n + 1) 0 l []).
  assert (Hnd : NoDup (keys sc))
    by (apply NoDup_keys_group; [apply Z.eqb_eq|constructor]).
  assert (Hget : forall c, get Z.eqb c sc
                           = match filter (has_status c) l with
                             | [] => None
                             | l0 => Some (Z.of_nat (List.length l0))
                             end).
  { intro c. unfold sc. rewrite get_group by apply Z.eqb_eq.
    fold (has_status c).
    change (filter (fun x => ev_status x =? c) l) with (filter (has_status c) l).
    destruct (filter (has_status c) l); [reflexivity|].
    rewrite fold_from_incr. reflexivity. }
  destruct (most_common_1 sc) as [[c n]|] eqn:Emc.
  - apply most_common_1_spec in Emc. destruct Emc as (Hin & Hmax).
    apply (get_In Z.eqb Z.eqb_eq _ _ _ Hnd) in Hin. rewrite Hget in Hin.
    exists c. split; [reflexivity|]. unfold count_of.
    destruct (filter (has_status c) l) as [|e0 l0] eqn:Ec; [discriminate|].
    assert (Hn : Z.of_nat (List.length (e0 :: l0)) = n) by congruence.
    split; [simpl List.length; lia|].
    intro c'. destruct (filter (has_status c') l) as [|e1 l1] eqn:Ec';
      [simpl List.length; lia|].
    rewrite Hn. apply (Hmax c').
    apply (get_In Z.eqb Z.eqb_eq _ _ _ Hnd). rewrite Hget, Ec'. reflexivity.
  - apply most_common_1_none in Emc.
    assert (Hk : In (ev_status ev) (keys sc)).
    { unfold sc. apply (keys_group Z.eqb Z.eqb_eq). left. left. reflexivity. }
    rewrite Emc in Hk. destruct Hk.
Qed.
End StatEntryFacts.

Lemma endpoint_stat_entry_witness :
  analyze_api_logs fromisoformat_seconds (Some slow_failing_logs)
  = Ok slow_failing_report
  /\ exists s, stat_in slow_failing_report "/api/reports" = Some s
               /\ es_request_count s = 2 /\ es_error_count s = 1.
Proof.
  assert (H : analyze_api_logs fromisoformat_seconds (Some slow_failing_logs)
              = Ok slow_failing_report) by (vm_compute; reflexivity).
  split; [exact H|].
  pose proof (endpoint_stat_entry fromisoformat_seconds slow_failing_logs
                slow_failing_report "/api/reports" H) as Hs.
  cbv zeta in Hs.
  destruct (stat_in slow_failing_report "/api/reports") as [s|] eqn:E.
  - exists s. split; [reflexivity|].
    destruct Hs as (_ & _ & Hc & He & _). rewrite Hc, He.
    split; vm_compute; reflexivity.
  - exfalso. vm_compute in E. discriminate E.
Defined.

Lemma most_common_status_witness :
  analyze_api_logs fromisoformat_seconds (Some error_burst)
  = Ok error_burst_report
  /\ exists s, stat_in error_burst_report "/api/pay" = Some s
               /\ es_most_common_status s = Some 500.
Proof.
  assert (H : analyze_api_logs fromisoformat_seconds (Some error_burst)
              = Ok error_burst_report) by (vm_compute; reflexivity).
  split; [exact H|].
  destruct (stat_in error_burst_report "/api/pay") as [s|] eqn:E.
  - exists s. split; [reflexivity|].
    destruct (most_common_status_is_a_mode fromisoformat_seconds error_burst
                error_burst_report "/api/pay" s H E) as (c & Hc & _ & _).
    rewrite Hc. vm_compute in E. inversion E; subst s.
    vm_compute in Hc. inversion Hc. reflexivity.
  - exfalso. vm_compute in E. discriminate E.
Defined.

(** ** Recommendations and response-time degradation *)

Lemma recommendations_flat_map (info : list (string * endpoint_data)) :
  recommendations_of (endpoint_stats_of info)
  = flat_map (fun '(ep, d) =>
                if (d_count d >? 100) && Qltb (avg_rt_of d) 500
                then [ConsiderCaching ep (d_count d)]
                else []) info.
Proof.
  unfold recommendations_of, endpoint_stats_of.
  induction info as [|[k d] info IH]; simpl; [reflexivity|].
  rewrite IH. reflexivity.
Qed.

Lemma degradation_tags (ep : string) (st : state) (ua : list anomaly) (a : anomaly) :
  unusual_user (user_counts st) = Ok ua ->
  In a (flat_map (fun '(k, times) => request_spike k times)
                 (per_endpoint_timestamps st))
  \/ In a (flat_map (fun '(k, errs) => error_cluster k errs)
                    (per_endpoint_errors st))
  \/ In a ua ->
  is_degradation_of ep a = false.
Proof.
  intros Hua [Hin|[Hin|Hin]].
  - apply in_flat_map in Hin. destruct Hin as ([k times] & _ & Hin).
    unfold request_spike in Hin. destruct times as [|t0 times]; [destruct Hin|].
    match type of Hin with In a (if ?c then _ else _) => destruct c end;
      [|destruct Hin].
    destruct Hin as [<-|[]]. reflexivity.
  - apply in_flat_map in Hin. destruct Hin as ([k errs] & _ & Hin).
    unfold error_cluster in Hin. destruct errs as [|t0 errs]; [destruct Hin|].
    match type of Hin with
    | In a (match ?c with _ => _ end) => destruct c as [[l0 r0]|]
    end; [|destruct Hin].
    destruct Hin as [<-|[]]. reflexivity.
  - unfold unusual_user in Hua.
    destruct (most_common_1 (user_counts st)) as [[u c]|]; [|discriminate].
    match type of Hua with (if ?c then _ else _) = _ => destruct c end;
      inversion Hua; subst; [|destruct Hin].
    destruct Hin as [<-|[]]. reflexivity.
Qed.

Lemma response_degradation_own_tag (ep k : string) (d : endpoint_data) (a : anomaly) :
  In a (response_degradation k d) -> is_degradation_of ep a = String.eqb k ep.
Proof.
  unfold response_degradation. destruct (d_max_response d); [|intros []].
  match goal with |- In a (if ?c then _ else _) -> _ => destruct c end;
    [|intros []].
  intros [<-|[]]. reflexivity.
Qed.

Section RuleFacts.
Variable fromisoformat : string -> option datetime.

(** X9.  For an endpoint whose response times are whole numbers of
    milliseconds with a total below 2^52 (the float average then falls on
    the same side of 500 as the exact one): the plain recommendation is
    given exactly when the endpoint has more than 100 valid records and
    their average response time is below 500; it names the endpoint and
    its request count. *)
Theorem recommendation_rule (logs : list raw) (r : report) (ep : string) :
  analyze_api_logs fromisoformat (Some logs) = Ok r ->
  let l := events_of ep (valid_events fromisoformat logs) in
  whole_times l = true ->
  let n := Z.of_nat (List.length l) in
  let found := filter (is_recommendation_of ep) (recommendations r) in
  let eligible := n > 100 /\ (total_rt l / inject_Z n < 500)%Q in
  (eligible -> found = [ConsiderCaching ep n])
  /\ (~ eligible -> found = []).
Proof.
  intros H l _. subst l. cbv zeta. apply analyze_inv in H. destruct H as (st & Hst & Hr).
  destruct (endpoint_info_get fromisoformat logs st ep Hst) as (Hnd & Hget).
  unfold build_report in Hr.
  destruct (valid_requests_of st =? 0) eqn:Ez.
  - apply Z.eqb_eq in Ez. inversion Hr; subst r.
    rewrite (no_valid_events fromisoformat logs st Hst Ez). simpl.
    split; [intros (Hc & _); lia|reflexivity].
  - destruct (unusual_user (user_counts st)); simpl in Hr; [|discriminate].
    inversion Hr; subst r; clear Hr. simpl recommendations.
    rewrite recommendations_flat_map.
    rewrite (filter_flat_map_key
               (fun k d => if (d_count d >? 100) && Qltb (avg_rt_of d) 500
                           then [ConsiderCaching k (d_count d)] else [])
               is_recommendation_of).
    2:{ intros k v x Hin.
        destruct ((d_count v >? 100) && Qltb (avg_rt_of v) 500); [|destruct Hin].
        destruct Hin as [<-|[]]. reflexivity. }
    2:{ exact Hnd. }
    rewrite Hget.
    destruct (events_of ep (valid_events fromisoformat logs)) as [|ev l'] eqn:El.
    { simpl. split; [intros (Hc & _); lia|reflexivity]. }
    set (l := ev :: l') in *.
    assert (Havg : avg_rt_of (aggregate l)
                   = (total_rt l / inject_Z (Z.of_nat (List.length l)))%Q).
    { unfold avg_rt_of, total_rt.
      change (aggregate l) with (fold_from record_request l new_endpoint_data).
      rewrite aggregate_sum, fold_from_count. reflexivity. }
    rewrite aggregate_count, Havg.
    destruct (Z.of_nat (List.length l) >? 100) eqn:E1; cbn [andb].
    2:{ rewrite Z.gtb_ltb in E1. apply Z.ltb_ge in E1.
        split; [intros (Hc & _); lia|reflexivity]. }
    rewrite Z.gtb_ltb in E1. apply Z.ltb_lt in E1.
    destruct (Qltb (total_rt l / inject_Z (Z.of_nat (List.length l))) 500) eqn:E2.
    + apply Qltb_lt in E2. split; [reflexivity|].
      intro Hno. exfalso. apply Hno. split; [lia|exact E2].
    + apply Qltb_false_not in E2. split; [|reflexivity].
      intros (_ & Hc). contradiction.
Qed.

(** X10.  For an endpoint whose response times are whole numbers of
    milliseconds with a total below 2^52 (twice the float average then
    falls on the same side of a response time as twice the exact one): a
    [response_degradation] anomaly is reported exactly when one of its
    valid records has a response time above twice the endpoint's average
    and above 500; it then carries the average, the largest response
    time of the endpoint and severity [high], and it is the only one for
    that endpoint. *)
Theorem response_degradation_rule (logs : list raw) (r : report) (ep : string) :
  analyze_api_logs fromisoformat (Some logs) = Ok r ->
  let l := events_of ep (valid_events fromisoformat logs) in
  whole_times l = true ->
  let avg := (total_rt l / inject_Z (Z.of_nat (List.length l)))%Q in
  let found := filter (is_degradation_of ep) (anomalies r) in
  let flagged :=
    exists x, In x (map ev_rt l) /\ (2 * avg < x)%Q /\ (500 < x)%Q in
  (flagged ->
   exists slowest,
     found = [ResponseDegradation ep avg slowest High]
     /\ In slowest (map ev_rt l)
     /\ forall x, In x (map ev_rt l) -> (x <= slowest)%Q)
  /\ (~ flagged -> found = []).
Proof.
  intros H l _. subst l. cbv zeta. apply analyze_inv in H. destruct H as (st & Hst & Hr).
  destruct (endpoint_info_get fromisoformat logs st ep Hst) as (Hnd & Hget).
  apply build_report_inv in Hr.
  destruct Hr as [[Hz ->]|(_ & ua & Hua & _ & _ & _ & _ & _ & Ha)].
  - rewrite (no_valid_events fromisoformat logs st Hst Hz). simpl.
    split; [intros (x & [] & _)|reflexivity].
  - rewrite Ha, !filter_app.
    rewrite (filter_none _ (flat_map _ (per_endpoint_timestamps st))).
    2:{ intros a Hin. apply (degradation_tags ep st ua a Hua). left. exact Hin. }
    rewrite (filter_none _ (flat_map _ (per_endpoint_errors st))).
    2:{ intros a Hin. apply (degradation_tags ep st ua a Hua).
        right. left. exact Hin. }
    rewrite (filter_none _ ua).
    2:{ intros a Hin. apply (degradation_tags ep st ua a Hua).
        right. right. exact Hin. }
    rewrite (filter_flat_map_key response_degradation is_degradation_of); [|
      intros k v a Hin; apply (response_degradation_own_tag ep k v a Hin)
      | exact Hnd].
    rewrite Hget, !app_nil_r. simpl app.
    destruct (events_of ep (valid_events fromisoformat logs)) as [|ev l'] eqn:El.
    { simpl. split; [intros (x & [] & _)|reflexivity]. }
    set (l := ev :: l') in *.
    assert (Hne : l <> []) by discriminate.
    assert (Havg : avg_rt_of (aggregate l)
                   = (total_rt l / inject_Z (Z.of_nat (List.length l)))%Q).
    { unfold avg_rt_of, total_rt.
      change (aggregate l) with (fold_from record_request l new_endpoint_data).
      rewrite aggregate_sum, fold_from_count. reflexivity. }
    unfold response_degradation. rewrite Havg.
    change (aggregate l) with (fold_from record_request l new_endpoint_data).
    destruct (fold_max l new_endpoint_data (or_introl Hne))
      as (M & HM & HMin & HMub & _).
    destruct HMin as [HMin|HMin]; [discriminate|].
    rewrite HM.
    set (avg := (total_rt l / inject_Z (Z.of_nat (List.length l)))%Q).
    change (inject_Z (medium RESPONSE_THRESHOLDS)) with 500%Q.
    destruct (Qltb (2 * avg) M) eqn:E1; cbn [andb].
    2:{ apply Qltb_ge in E1. split; [|reflexivity].
        intros (x & Hx & H1 & _). exfalso. specialize (HMub x Hx). lra. }
    apply Qltb_lt in E1.
    destruct (Qltb 500 M) eqn:E2.
    + apply Qltb_lt in E2. split.
      * intros _. exists M. split; [reflexivity|]. split; assumption.
      * intro Hno. exfalso. apply Hno. exists M. repeat split; assumption.
    + apply Qltb_ge in E2. split; [|reflexivity].
      intros (x & Hx & _ & H2). exfalso. specialize (HMub x Hx). lra.
Qed.
End RuleFacts.

(** ** What a spike needs, and the span of a cluster *)

Lemma sum_widths_ge (secs : list Z) (a k : nat) :
  Z.of_nat k <= sumZ (map (width secs) (seq a k)).
Proof.
  revert a. induction k as [|k IH]; intro a.
  - simpl. lia.
  - simpl seq. simpl map. simpl sumZ.
    pose proof (IH (S a)). pose proof (left_after_le secs a).
    unfold width at 1. lia.
Qed.

Lemma width_le (secs : list Z) (r : nat) : 1 <= width secs r <= Z.of_nat r + 1.
Proof. unfold width. pose proof (left_after_le secs r). lia. Qed.

(** Up to a position whose window holds [w] events the counts add up to
    at least 1 + 2 + ... + w, plus one for every other position. *)
Lemma width_prefix_sum (secs : list Z) (r : nat) :
  width secs r * (width secs r + 1) + 2 * (Z.of_nat r + 1 - width secs r)
  <= 2 * sumZ (map (width secs) (seq 0 (S r))).
Proof.
  induction r as [|r IH].
  - change (seq 0 1) with [O]. cbn [map sumZ fold_right].
    rewrite width_first. lia.
  - rewrite seq_S, map_app. cbn [map].
    assert (Happ : forall l x, sumZ (l ++ [x]) = sumZ l + x).
    { induction l as [|y l IHl]; intro x; simpl; [lia|rewrite IHl; lia]. }
    rewrite Happ. change (0 + S r)%nat with (S r).
    pose proof (width_step secs r) as Hs. pose proof (width_le secs r) as Ha.
    pose proof (width_le secs (S r)) as Hb. rewrite Nat2Z.inj_succ in *.
    set (a := width secs r) in *. set (b := width secs (S r)) in *.
    set (S0 := sumZ (map (width secs) (seq 0 (S r)))) in *.
    assert (Hprod : (b - 1) * (b - 2) <= a * (a - 1)).
    { destruct (Z.eq_dec b 1) as [->|Hb1]; [nia|].
      apply Z.mul_le_mono_nonneg; lia. }
    nia.
Qed.

Lemma sum_widths_lower (secs : list Z) (i n : nat) :
  (i < n)%nat ->
  width secs i * (width secs i + 1) + 2 * (Z.of_nat n - width secs i)
  <= 2 * sumZ (map (width secs) (seq 0 n)).
Proof.
  intro Hi. replace n with (S i + (n - S i))%nat at 2 by lia.
  rewrite seq_app, map_app.
  assert (Happ : forall l l', sumZ (l ++ l') = sumZ l + sumZ l').
  { induction l as [|y l IHl]; intro l'; simpl; [lia|rewrite IHl; lia]. }
  rewrite Happ.
  pose proof (width_prefix_sum secs i).
  pose proof (sum_widths_ge secs (0 + S i) (n - S i)). lia.
Qed.

Lemma mean_lt (s n p : Z) :
  0 < n -> (3 * (inject_Z s / inject_Z n) < inject_Z p)%Q <-> 3 * s < p * n.
Proof.
  intro Hn. destruct n as [|q|q]; try lia.
  unfold Qlt, Qdiv, Qmult, Qinv, inject_Z. cbn [Qnum Qden].
  rewrite ?Pos.mul_1_r, ?Pos.mul_1_l. lia.
Qed.

(** What the spike loop needs in order to report: with [n] events and a
    largest window count [peak], it reports only if [peak >= 10] and
    [3 * (peak * (peak + 1) + 2 * (n - peak)) < 2 * peak * n]. *)
Lemma request_spike_needs (ep : string) (times : list datetime) :
  request_spike ep times <> [] ->
  let secs := map timestamp_int (sorted dt_leb times) in
  let peak := max_of (window_counts secs) in
  let n := Z.of_nat (List.length times) in
  10 <= peak <= n
  /\ 3 * (peak * (peak + 1) + 2 * (n - peak)) < 2 * peak * n
  /\ forall a, In a (request_spike ep times) ->
               exists t avg sev, a = RequestSpike ep t avg peak sev.
Proof.
  intro Hne. cbv zeta. unfold request_spike in *.
  destruct times as [|t0 times']; [congruence|].
  set (times := t0 :: times') in *.
  set (secs := map timestamp_int (sorted dt_leb times)) in *.
  assert (Hlen : List.length secs = List.length times)
    by (unfold secs; rewrite length_map, sorted_length; reflexivity).
  assert (Hn : (0 < List.length secs)%nat) by (rewrite Hlen; simpl; lia).
  set (wc := window_counts secs) in *.
  assert (Hwl : List.length wc = List.length secs) by apply length_window_counts.
  assert (Hwne : wc <> []).
  { intro Hnil. rewrite Hnil in Hwl. simpl in Hwl. lia. }
  destruct (max_of_spec wc Hwne) as (Hin & Hmax).
  set (peak := max_of wc) in *.
  destruct (Qltb 0 (inject_Z (sumZ wc) / inject_Z (Z.max 1 (Z.of_nat (List.length wc))))
            && Qltb (3 * (inject_Z (sumZ wc)
                          / inject_Z (Z.max 1 (Z.of_nat (List.length wc)))))
                    (inject_Z peak)
            && (peak >=? 10)) eqn:Ec; [|congruence].
  apply andb_prop in Ec. destruct Ec as (Ec & E3).
  apply andb_prop in Ec. destruct Ec as (_ & E2).
  apply Z.geb_le in E3. apply Qltb_lt in E2.
  replace (Z.max 1 (Z.of_nat (List.length wc))) with (Z.of_nat (List.length secs))
    in E2 by lia.
  apply mean_lt in E2; [|lia].
  destruct (index_spec peak wc Hin) as (Hi & Hnth & _).
  set (i := index peak wc) in *.
  rewrite Hwl in Hi.
  assert (Hw : width secs i = peak).
  { rewrite <- Hnth. unfold wc. symmetry. apply nth_window_counts. exact Hi. }
  pose proof (sum_widths_lower secs i (List.length secs) Hi) as Hsum.
  rewrite <- window_counts_width in Hsum. fold wc in Hsum. rewrite Hw in Hsum.
  pose proof (width_le secs i) as Hwi. rewrite Hw in Hwi.
  rewrite <- Hlen.
  split; [lia|]. split; [nia|].
  intros a [<-|[]]. do 3 eexists. reflexivity.
Qed.

Section SpikeFacts.
Variable fromisoformat : string -> option datetime.

(** X11.  A [request_spike] anomaly is reported only for an endpoint with at
    least 20 valid records, and its [actual_rate] is between 10 and the
    number of those records. *)
Theorem request_spike_needs_twenty (logs : list raw) (r : report)
    (ep : string) (t : datetime) (avg : Q) (peak : Z) (sev : severity) :
  analyze_api_logs fromisoformat (Some logs) = Ok r ->
  In (RequestSpike ep t avg peak sev) (anomalies r) ->
  let n := Z.of_nat (List.length (events_of ep (valid_events fromisoformat logs))) in
  20 <= n /\ 10 <= peak <= n.
Proof.
  intros H Hin. cbv zeta.
  assert (Hf : In (RequestSpike ep t avg peak sev)
                  (filter (is_spike_of ep) (anomalies r))).
  { apply filter_In. split; [exact Hin|]. simpl. apply String.eqb_refl. }
  rewrite (report_spikes fromisoformat logs r ep H) in Hf.
  set (times := map ev_ts (events_of ep (valid_events fromisoformat logs))) in *.
  assert (Hne : request_spike ep times <> [])
    by (intro Hnil; rewrite Hnil in Hf; destruct Hf).
  destruct (request_spike_needs ep times Hne) as (Hp & Hineq & Hall).
  set (pk := max_of (window_counts (map timestamp_int (sorted dt_leb times)))) in *.
  destruct (Hall _ Hf) as (t' & avg' & sev' & Heq).
  assert (Hpeak : peak = pk) by congruence.
  rewrite <- Hpeak in Hp, Hineq.
  unfold times in Hp, Hineq. rewrite length_map in Hp, Hineq.
  split; [|exact Hp].
  assert ((peak - 10) * (3 * peak - 11) >= 0) by nia.
  nia.
Qed.

(** X12.  An endpoint whose valid records all lie within 300 seconds of one
    another is never reported as a spike, however many they are. *)
Theorem single_burst_is_no_spike (logs : list raw) (r : report) (ep : string) :
  analyze_api_logs fromisoformat (Some logs) = Ok r ->
  (forall a b,
      In a (events_of ep (valid_events fromisoformat logs)) ->
      In b (events_of ep (valid_events fromisoformat logs)) ->
      timestamp_int (ev_ts a) - timestamp_int (ev_ts b) <= 300) ->
  filter (is_spike_of ep) (anomalies r) = [].
Proof.
  intros H Hclose.
  rewrite (report_spikes fromisoformat logs r ep H).
  set (l := events_of ep (valid_events fromisoformat logs)) in *.
  destruct (request_spike ep (map ev_ts l)) as [|a rest] eqn:E; [reflexivity|].
  exfalso.
  assert (Hne : request_spike ep (map ev_ts l) <> []) by (rewrite E; discriminate).
  destruct (request_spike_needs ep (map ev_ts l) Hne) as (Hp & Hineq & _).
  set (secs := map timestamp_int (sorted dt_leb (map ev_ts l))) in *.
  set (wc := window_counts secs) in *.
  rewrite length_map in Hp, Hineq.
  assert (Hasc : ascending secs) by apply sorted_times_ascending.
  assert (Hlen : List.length secs = List.length l).
  { unfold secs. rewrite length_map, sorted_length, length_map. reflexivity. }
  assert (Hn : (0 < List.length secs)%nat) by lia.
  assert (Hsecs : forall x, In x secs ->
                            exists ev, In ev l /\ x = timestamp_int (ev_ts ev)).
  { intros x Hx. unfold secs in Hx. apply in_map_iff in Hx.
    destruct Hx as (t & <- & Ht).
    apply (Permutation_in _ (sorted_perm dt_leb (map ev_ts l))) in Ht.
    apply in_map_iff in Ht.
    destruct Ht as (ev & <- & Hev). exists ev. split; [exact Hev|reflexivity]. }
  assert (Hzero : left_after secs (List.length secs - 1) = O).
  { destruct (left_after secs (List.length secs - 1)) as [|j] eqn:Ej;
      [reflexivity|exfalso].
    pose proof (left_after_le secs (List.length secs - 1)) as Hle.
    assert (Hgt : nth (List.length secs - 1) secs 0 - nth j secs 0 > 300)
      by (apply (left_after_skipped secs Hasc); lia).
    destruct (Hsecs (nth (List.length secs - 1) secs 0)) as (ea & Hea & Ha);
      [apply nth_In; lia|].
    destruct (Hsecs (nth j secs 0)) as (eb & Heb & Hb); [apply nth_In; lia|].
    specialize (Hclose ea eb Hea Heb). lia. }
  assert (Hlast : nth (List.length secs - 1) wc 0 = Z.of_nat (List.length secs)).
  { unfold wc. rewrite nth_window_counts by lia. unfold width.
    rewrite Hzero. lia. }
  assert (Hwne : wc <> []).
  { intro Hnil. pose proof (length_window_counts secs) as Hwl.
    fold wc in Hwl. rewrite Hnil in Hwl. simpl in Hwl. lia. }
  destruct (max_of_spec wc Hwne) as (_ & Hmax).
  assert (Hge : Z.of_nat (List.length secs) <= max_of wc).
  { rewrite <- Hlast. apply Hmax. apply nth_In.
    unfold wc. rewrite length_window_counts. lia. }
  assert (Hpeak : max_of wc = Z.of_nat (List.length l)) by lia.
  rewrite Hpeak in Hineq. nia.
Qed.
End SpikeFacts.

Section ClusterWindowFacts.
Variable fromisoformat : string -> option datetime.

(** X13.  For an endpoint whose error timestamps carry an offset and lie
    between 1970 and 2514: the time window of a reported error cluster
    runs between the whole epoch seconds of two error records of the
    endpoint, its start is not after its end, and it spans at most 300
    seconds. *)
Theorem error_cluster_window (logs : list raw) (r : report) (ep : string)
    (window_start window_end error_count : Z) (sev : severity) :
  analyze_api_logs fromisoformat (Some logs) = Ok r ->
  In (ErrorCluster ep window_start window_end error_count sev) (anomalies r) ->
  let errs :=
    map ev_ts (filter is_error (events_of ep (valid_events fromisoformat logs))) in
  forallb in_epoch_range errs = true ->
  let secs := map epoch_second errs in
  In window_start secs /\ In window_end secs
  /\ window_start <= window_end /\ window_end - window_start <= 300.
Proof.
  intros H Hin errs0 Hrange. cbv zeta.
  rewrite <- (timestamps_epoch_seconds errs0 Hrange). subst errs0.
  assert (Hf : In (ErrorCluster ep window_start window_end error_count sev)
                  (filter (is_cluster_of ep) (anomalies r))).
  { apply filter_In. split; [exact Hin|]. simpl. apply String.eqb_refl. }
  rewrite (report_clusters fromisoformat logs r ep H) in Hf.
  rewrite error_cluster_find in Hf. cbv zeta in Hf.
  set (errs := map ev_ts (filter is_error
                            (events_of ep (valid_events fromisoformat logs)))) in *.
  set (secs := sorted Z.leb (map timestamp_int errs)) in *.
  assert (Hasc : ascending secs) by apply sorted_Z_ascending.
  destruct (find (fun k => width secs k >=? 10) (seq 0 (List.length secs)))
    as [k|] eqn:E; [|destruct Hf].
  apply find_seq_first in E. destruct E as (Hk & _ & _).
  destruct Hf as [Heq|[]]. inversion Heq; subst; clear Heq.
  pose proof (left_after_le secs k) as Hle.
  assert (Hperm : forall x, In x secs -> In x (map timestamp_int errs)).
  { intros x Hx. apply (Permutation_in _ (sorted_perm Z.leb _)). exact Hx. }
  split; [apply Hperm; apply nth_In; lia|].
  split; [apply Hperm; apply nth_In; lia|].
  split; [apply Hasc; lia|apply left_after_exit].
Qed.
End ClusterWindowFacts.

Lemma error_cluster_window_witness :
  analyze_api_logs fromisoformat_seconds (Some error_burst)
  = Ok error_burst_report
  /\ In (ErrorCluster "/api/pay" 1736935200 1736935209 10 High)
        (anomalies error_burst_report)
  /\ 1736935200 <= 1736935209 /\ 1736935209 - 1736935200 <= 300.
Proof.
  assert (H : analyze_api_logs fromisoformat_seconds (Some error_burst)
              = Ok error_burst_report) by (vm_compute; reflexivity).
  assert (Hin : In (ErrorCluster "/api/pay" 1736935200 1736935209 10 High)
                   (anomalies error_burst_report))
    by (vm_compute; left; reflexivity).
  split; [exact H|]. split; [exact Hin|].
  assert (Hrange : forallb in_epoch_range
                     (map ev_ts (filter is_error
                                   (events_of "/api/pay"
                                      (valid_events fromisoformat_seconds error_burst))))
                   = true) by (vm_compute; reflexivity).
  destruct (error_cluster_window fromisoformat_seconds error_burst
              error_burst_report "/api/pay" _ _ _ _ H Hin Hrange)
    as (_ & _ & H1 & H2).
  split; assumption.
Defined.

(** ** The busiest users *)

Lemma StronglySorted_app_inv {A} (R : A -> A -> Prop) (l1 l2 : list A) :
  StronglySorted R (l1 ++ l2) ->
  StronglySorted R l1
  /\ forall a b, In a l1 -> In b l2 -> R a b.
Proof.
  induction l1 as [|x l1 IH]; simpl; intro H.
  - split; [constructor|intros a b []].
  - inversion H as [|? ? Hs Hall]; subst. destruct (IH Hs) as (I1 & I2).
    rewrite Forall_forall in Hall. split.
    + constructor; [exact I1|]. rewrite Forall_forall.
      intros y Hy. apply Hall. apply in_or_app. left. exact Hy.
    + intros a b [<-|Ha] Hb; [|apply I2; assumption].
      apply Hall. apply in_or_app. right. exact Hb.
Qed.

Lemma user_leb_total (a b : string * Z) :
  (snd b <=? snd a) = true \/ (snd a <=? snd b) = true.
Proof. rewrite !Z.leb_le. lia. Qed.

Lemma user_leb_trans (a b c : string * Z) :
  (snd b <=? snd a) = true -> (snd c <=? snd b) = true ->
  (snd c <=? snd a) = true.
Proof. rewrite !Z.leb_le. lia. Qed.

Section TopUserFacts.
Variable fromisoformat : string -> option datetime.

(** X14.  [top_users_by_requests] lists at most five users, each once and with
    the number of their valid records, in order of decreasing count; a
    user with more valid records than a listed one is listed too, and
    when fewer than five are listed every user with a valid record is. *)
Theorem top_users_contract (logs : list raw) (r : report) :
  analyze_api_logs fromisoformat (Some logs) = Ok r ->
  let requests := fun u =>
    Z.of_nat (List.length (events_by u (valid_events fromisoformat logs))) in
  let top := top_users_by_requests r in
  (List.length top <= 5)%nat
  /\ NoDup (map fst top)
  /\ StronglySorted (fun a b => snd b <= snd a) top
  /\ (forall u c, In (u, c) top -> c = requests u /\ 1 <= c)
  /\ (forall u c u', In (u, c) top -> c < requests u' -> In u' (map fst top))
  /\ ((List.length top < 5)%nat ->
      forall u, 1 <= requests u -> In u (map fst top)).
Proof.
  intro H. cbv zeta. apply analyze_inv in H. destruct H as (st & Hst & Hr).
  destruct (user_counts_get fromisoformat logs st Hst) as (Hnd & _ & Hget).
  cbv zeta in Hget.
  unfold build_report in Hr.
  destruct (valid_requests_of st =? 0) eqn:Ez.
  - apply Z.eqb_eq in Ez. inversion Hr; subst r. simpl.
    rewrite (no_valid_events fromisoformat logs st Hst Ez).
    repeat split; try lia; try constructor; try contradiction;
      try (intros _ u Hu; simpl in Hu; lia).
  - destruct (unusual_user (user_counts st)) as [ua|]; simpl in Hr; [|discriminate].
    inversion Hr; subst r; clear Hr. simpl top_users_by_requests.
    unfold most_common_5.
    set (leb := fun a b : string * Z => snd b <=? snd a).
    set (srt := sorted leb (user_counts st)).
    assert (Hperm : Permutation srt (user_counts st)) by apply sorted_perm.
    assert (Hsorted : StronglySorted (fun a b => snd b <= snd a) srt).
    { apply (StronglySorted_weaken (fun a b => leb a b = true)).
      - unfold leb. intros x y Hxy. apply Z.leb_le. exact Hxy.
      - apply sorted_sorted; unfold leb; intros.
        + apply user_leb_total.
        + eapply user_leb_trans; eassumption. }
    assert (Hsplit : srt = firstn 5 srt ++ skipn 5 srt)
      by (symmetry; apply firstn_skipn).
    rewrite Hsplit in Hsorted.
    destruct (StronglySorted_app_inv _ _ _ Hsorted) as (Htop & Hcross).
    assert (Hin_uc : forall u c, In (u, c) (user_counts st)
                                 <-> c = Z.of_nat (List.length
                                        (events_by u (valid_events fromisoformat logs)))
                                     /\ 1 <= c).
    { intros u c. rewrite (get_In String.eqb String.eqb_eq _ _ _ Hnd), Hget.
      destruct (events_by u (valid_events fromisoformat logs)) as [|e0 l0].
      - split; [discriminate|]. simpl. lia.
      - split.
        + intro Hs. inversion Hs. split; [reflexivity|simpl List.length; lia].
        + intros (-> & _). reflexivity. }
    assert (Hsub : forall x, In x (firstn 5 srt) -> In x (user_counts st)).
    { intros x Hx. apply (Permutation_in _ Hperm). rewrite Hsplit.
      apply in_or_app. left. exact Hx. }
    assert (Hnd_srt : NoDup (map fst srt)).
    { apply (Permutation_NoDup (l := map fst (user_counts st))).
      - apply Permutation_sym. apply Permutation_map. exact Hperm.
      - exact Hnd. }
    assert (Hlisted : forall u c,
               In (u, c) (user_counts st) ->
               In (u, c) (firstn 5 srt) \/ In (u, c) (skipn 5 srt)).
    { intros u c Hin. apply in_app_or. rewrite <- Hsplit.
      apply (Permutation_in _ (Permutation_sym Hperm)). exact Hin. }
    split; [apply firstn_le_length|].
    split.
    { rewrite Hsplit, map_app in Hnd_srt. apply NoDup_app_remove_r in Hnd_srt.
      exact Hnd_srt. }
    split; [exact Htop|].
    split; [intros u c Hin; apply Hin_uc; apply Hsub; exact Hin|].
    split.
    + intros u c u' Hin Hlt.
      assert (Hu' : In (u', Z.of_nat (List.length
                              (events_by u' (valid_events fromisoformat logs))))
                       (user_counts st)).
      { apply Hin_uc. split; [reflexivity|].
        apply Hsub in Hin. apply Hin_uc in Hin. lia. }
      destruct (Hlisted _ _ Hu') as [Hl|Hl].
      * apply (in_map fst) in Hl. exact Hl.
      * exfalso. specialize (Hcross _ _ Hin Hl). simpl in Hcross. lia.
    + intros Hshort u Hu.
      assert (Hu' : In (u, Z.of_nat (List.length
                             (events_by u (valid_events fromisoformat logs))))
                       (user_counts st))
        by (apply Hin_uc; split; [reflexivity|exact Hu]).
      destruct (Hlisted _ _ Hu') as [Hl|Hl].
      * apply (in_map fst) in Hl. exact Hl.
      * exfalso.
        assert (Hskip : skipn 5 srt = []).
        { apply skipn_all2. rewrite length_firstn in Hshort. lia. }
        rewrite Hskip in Hl. destruct Hl.
Qed.
End TopUserFacts.

Lemma top_users_contract_witness :
  analyze_api_logs fromisoformat_seconds (Some skewed_logs) = Ok skewed_report
  /\ top_users_by_requests skewed_report
     = [("user_a"%string, 60); ("user_b"%string, 40)]
  /\ (List.length (top_users_by_requests skewed_report) <= 5)%nat.
Proof.
  assert (H : analyze_api_logs fromisoformat_seconds (Some skewed_logs)
              = Ok skewed_report) by (vm_compute; reflexivity).
  split; [exact H|]. split; [vm_compute; reflexivity|].
  apply (top_users_contract fromisoformat_seconds skewed_logs skewed_report H).
Defined.

(** ** Witnesses of the rules *)

Lemma recommendation_rule_witness :
  analyze_api_logs fromisoformat_seconds (Some mostly_get_logs)
  = Ok mostly_get_report
  /\ filter (is_recommendation_of "/api/items") (recommendations mostly_get_report)
     = [ConsiderCaching "/api/items" 150].
Proof.
  assert (H : analyze_api_logs fromisoformat_seconds (Some mostly_get_logs)
              = Ok mostly_get_report) by (vm_compute; reflexivity).
  split; [exact H|].
  assert (Hw : whole_times (events_of "/api/items"
                              (valid_events fromisoformat_seconds mostly_get_logs))
               = true) by (vm_compute; reflexivity).
  apply (recommendation_rule fromisoformat_seconds mostly_get_logs
           mostly_get_report "/api/items" H Hw).
  split; vm_compute; reflexivity.
Defined.

Lemma response_degradation_rule_witness :
  analyze_api_logs fromisoformat_seconds (Some degraded_logs)
  = Ok degraded_report
  /\ exists slowest,
       filter (is_degradation_of "/api/search") (anomalies degraded_report)
       = [ResponseDegradation "/api/search" (1200 # 3) slowest High].
Proof.
  assert (H : analyze_api_logs fromisoformat_seconds (Some degraded_logs)
              = Ok degraded_report) by (vm_compute; reflexivity).
  split; [exact H|].
  assert (Hw : whole_times (events_of "/api/search"
                              (valid_events fromisoformat_seconds degraded_logs))
               = true) by (vm_compute; reflexivity).
  destruct (response_degradation_rule fromisoformat_seconds degraded_logs
              degraded_report "/api/search" H Hw) as (Hyes & _).
  destruct Hyes as (slowest & Hfound & _).
  - exists (inject_Z 1000). split; [vm_compute; auto|].
    split; vm_compute; reflexivity.
  - exists slowest. exact Hfound.
Defined.

Lemma request_spike_needs_twenty_witness :
  analyze_api_logs fromisoformat_seconds (Some spike_logs) = Ok spike_report
  /\ exists t avg,
       In (RequestSpike "/api/feed" t avg 10 Medium) (anomalies spike_report)
       /\ 20 <= Z.of_nat (List.length
                            (events_of "/api/feed"
                               (valid_events fromisoformat_seconds spike_logs)))
       /\ List.length spike_logs = 20%nat.
Proof.
  assert (H : analyze_api_logs fromisoformat_seconds (Some spike_logs)
              = Ok spike_report) by (vm_compute; reflexivity).
  split; [exact H|].
  do 2 eexists.
  assert (Hin : In (RequestSpike "/api/feed"
                      {| year := 2025; month := 1; day := 15; hour := 10;
                         minute := 51; second := 49; microsecond := 0;
                         tzinfo := Some 0 |} (65 # 20) 10 Medium)
                   (anomalies spike_report))
    by (vm_compute; left; reflexivity).
  split; [exact Hin|]. split; [|reflexivity].
  apply (request_spike_needs_twenty fromisoformat_seconds spike_logs
           spike_report _ _ _ _ _ H Hin).
Defined.

Lemma single_burst_is_no_spike_witness :
  analyze_api_logs fromisoformat_seconds (Some error_burst)
  = Ok error_burst_report
  /\ filter (is_spike_of "/api/pay") (anomalies error_burst_report) = [].
Proof.
  assert (H : analyze_api_logs fromisoformat_seconds (Some error_burst)
              = Ok error_burst_report) by (vm_compute; reflexivity).
  split; [exact H|].
  apply (single_burst_is_no_spike fromisoformat_seconds error_burst
           error_burst_report "/api/pay" H).
  intros a b Ha Hb.
  assert (Hrange : forall e,
             In e (events_of "/api/pay"
                     (valid_events fromisoformat_seconds error_burst)) ->
             1736935200 <= timestamp_int (ev_ts e) <= 1736935211).
  { intros e He. vm_compute in He.
    repeat (destruct He as [<-|He]; [vm_compute; split; discriminate|]).
    destruct He. }
  pose proof (Hrange a Ha). pose proof (Hrange b Hb). lia.
Defined.

Lemma sum_values_upd_add (k : string) (v : Z) (d : list (string * Z)) :
  sumZ (values (upd String.eqb k (fun n => n + v) 0 d)) = sumZ (values d) + v.
Proof.
  unfold values. induction d as [|[k0 v0] d IH]; simpl.
  - lia.
  - destruct (String.eqb k k0); simpl; [|rewrite IH]; lia.
Qed.

Lemma sum_values_group_add (key : string * Z -> string)
    (xs d : list (string * Z)) :
  sumZ (values (group String.eqb key (fun kv n => n + snd kv) 0 xs d))
  = sumZ (values d) + sumZ (map snd xs).
Proof.
  revert d. induction xs as [|x xs IH]; intro d.
  - simpl. lia.
  - rewrite group_cons, IH, sum_values_upd_add. simpl. lia.
Qed.

(** X15.  The hourly distribution has one entry per label and its counts
    add up to [total_requests].  When the valid timestamps have years of
    four digits (from 1000 on, which [strftime] prints alike on every
    platform), the labels have the form ["HH:00"]: the count under a
    label is the number of valid events whose timestamp, as written,
    falls in that hour of the day, on whatever date, and a label with no
    such event is absent. *)
Theorem hourly_distribution_counts
    (fromisoformat : string -> option datetime) (logs : list raw) (r : report) :
  analyze_api_logs fromisoformat (Some logs) = Ok r ->
  NoDup (keys (hourly_distribution r))
  /\ sumZ (values (hourly_distribution r)) = total_requests (summary r)
  /\ (forallb (fun ev => four_digit_year (ev_ts ev))
              (valid_events fromisoformat logs) = true ->
      forall label,
        get String.eqb label (hourly_distribution r)
        = match filter (fun ev => String.eqb (pad2 (hour (ev_ts ev)) ++ ":00") label)
                       (valid_events fromisoformat logs) with
          | [] => None
          | l => Some (Z.of_nat (List.length l))
          end).
Proof.
  intro H. split; [|split].
  - pose proof H as H'. apply analyze_inv in H'. destruct H' as (st & Hst & Hr).
    apply build_report_inv in Hr.
    destruct Hr as [[Hz ->]|(_ & ua & _ & _ & _ & _ & Hh & _)].
    + constructor.
    + rewrite Hh, hourly_formatted_group.
      apply NoDup_keys_group; [apply String.eqb_eq|constructor].
  - rewrite (total_requests_length fromisoformat logs r H).
    apply analyze_inv in H. destruct H as (st & Hst & Hr).
    apply build_report_inv in Hr.
    destruct Hr as [[Hz ->]|(_ & ua & _ & _ & _ & _ & Hh & _)].
    + rewrite (no_valid_events fromisoformat logs st Hst Hz). reflexivity.
    + rewrite Hh, hourly_formatted_group, sum_values_group_add.
      pose proof (for_each_fields fromisoformat logs initial_state st Hst) as Hf.
      cbv zeta in Hf. destruct Hf as (_ & _ & H3 & _). simpl in H3.
      rewrite (sum_snd_perm _ _ (sorted_perm _ (hourly st))).
      rewrite H3.
      change (map snd ?l) with (values l).
      rewrite sum_values_group. reflexivity.
  - intros _ label. apply hourly_counts_of. exact H.
Qed.

Lemma hourly_distribution_counts_witness :
  analyze_api_logs fromisoformat_seconds (Some two_days_logs)
  = Ok two_days_report
  /\ get String.eqb "10:00"%string (hourly_distribution two_days_report) = Some 2
  /\ get String.eqb "11:00"%string (hourly_distribution two_days_report) = Some 1.
Proof.
  assert (H : analyze_api_logs fromisoformat_seconds (Some two_days_logs)
              = Ok two_days_report) by (vm_compute; reflexivity).
  split; [exact H|].
  destruct (hourly_distribution_counts fromisoformat_seconds two_days_logs
              two_days_report H) as (_ & _ & Hc).
  assert (Hy : forallb (fun ev => four_digit_year (ev_ts ev))
                 (valid_events fromisoformat_seconds two_days_logs) = true)
    by (vm_compute; reflexivity).
  split; rewrite (Hc Hy); vm_compute; reflexivity.
Defined.

(** ** Order of the input *)

Lemma forallb_perm {A} (p : A -> bool) (l l' : list A) :
  Permutation l l' -> forallb p l = forallb p l'.
Proof.
  induction 1 as [|x l l' Hp IH|x y l|l l' l'' H1 IH1 H2 IH2]; simpl.
  - reflexivity.
  - rewrite IH. reflexivity.
  - destruct (p x), (p y); reflexivity.
  - congruence.
Qed.

Section OrderFacts.
Variable fromisoformat : string -> option datetime.

Lemma valid_events_perm (logs logs' : list raw) :
  Permutation logs logs' ->
  Permutation (valid_events fromisoformat logs) (valid_events fromisoformat logs').
Proof.
  induction 1 as [|x l l' Hp IH|x y l|l l' l'' H1 IH1 H2 IH2].
  - apply Permutation_refl.
  - rewrite !valid_events_cons.
    destruct (validate fromisoformat x); [apply perm_skip|]; exact IH.
  - rewrite !valid_events_cons.
    destruct (validate fromisoformat x), (validate fromisoformat y);
      rewrite ?valid_events_cons; try apply Permutation_refl.
    destruct (validate fromisoformat x) eqn:Ex; apply perm_swap.
  - eapply perm_trans; eassumption.
Qed.

(** X16.  When the analysis returns a report for a list and for a
    reordering of it, the two reports agree on [total_requests], on
    every endpoint's request and error counts and on every count of the
    hourly distribution. *)
Theorem counts_do_not_depend_on_order (logs logs' : list raw) (r r' : report) :
  Permutation logs logs' ->
  analyze_api_logs fromisoformat (Some logs) = Ok r ->
  analyze_api_logs fromisoformat (Some logs') = Ok r' ->
  total_requests (summary r') = total_requests (summary r)
  /\ (forall ep,
         request_count_in r' ep = request_count_in r ep
         /\ option_map es_error_count (stat_in r' ep)
            = option_map es_error_count (stat_in r ep))
  /\ (forall label,
         get String.eqb label (hourly_distribution r')
         = get String.eqb label (hourly_distribution r)).
Proof.
  intros Hp H H'.
  pose proof (valid_events_perm logs logs' Hp) as Hev.
  split; [|split].
  - rewrite (total_requests_length fromisoformat _ _ H).
    rewrite (total_requests_length fromisoformat _ _ H').
    rewrite (Permutation_length Hev). reflexivity.
  - intro ep.
    assert (Hep : Permutation (events_of ep (valid_events fromisoformat logs))
                              (events_of ep (valid_events fromisoformat logs')))
      by (apply filter_perm; exact Hev).
    split.
    + rewrite (report_request_count fromisoformat _ _ ep H).
      rewrite (report_request_count fromisoformat _ _ ep H').
      rewrite (Permutation_length Hep). reflexivity.
    + rewrite (stat_in_get fromisoformat logs r ep H).
      rewrite (stat_in_get fromisoformat logs' r' ep H').
      destruct (events_of ep (valid_events fromisoformat logs)) as [|e0 l0] eqn:E0;
        destruct (events_of ep (valid_events fromisoformat logs')) as [|e1 l1] eqn:E1.
      * reflexivity.
      * apply Permutation_length in Hep. discriminate Hep.
      * apply Permutation_length in Hep. discriminate Hep.
      * simpl. rewrite !aggregate_error_count. f_equal. unfold count_of.
        rewrite (Permutation_length (filter_perm is_error _ _ Hep)). reflexivity.
  - intro label.
    rewrite (hourly_counts_of fromisoformat logs r label H).
    rewrite (hourly_counts_of fromisoformat logs' r' label H').
    pose proof (filter_perm
                  (fun ev => String.eqb (pad2 (hour (ev_ts ev)) ++ ":00") label)
                  _ _ Hev) as Hf.
    destruct (filter _ (valid_events fromisoformat logs)) as [|e0 l0];
      destruct (filter _ (valid_events fromisoformat logs')) as [|e1 l1].
    + reflexivity.
    + apply Permutation_length in Hf. discriminate Hf.
    + apply Permutation_length in Hf. discriminate Hf.
    + rewrite (Permutation_length Hf). reflexivity.
Qed.
End OrderFacts.

Lemma counts_do_not_depend_on_order_witness :
  Permutation sample_mixed (rev sample_mixed)
  /\ analyze_api_logs fromisoformat_seconds (Some sample_mixed)
     = Ok sample_mixed_report
  /\ exists r',
       analyze_api_logs fromisoformat_seconds (Some (rev sample_mixed)) = Ok r'
       /\ total_requests (summary r') = 1.
Proof.
  assert (Hp : Permutation sample_mixed (rev sample_mixed))
    by apply Permutation_rev.
  assert (H : analyze_api_logs fromisoformat_seconds (Some sample_mixed)
              = Ok sample_mixed_report) by (vm_compute; reflexivity).
  assert (H' : analyze_api_logs fromisoformat_seconds (Some (rev sample_mixed))
               = Ok (report_or_empty
                       (analyze_api_logs fromisoformat_seconds
                          (Some (rev sample_mixed)))))
    by (vm_compute; reflexivity).
  split; [exact Hp|]. split; [exact H|].
  destruct (counts_do_not_depend_on_order fromisoformat_seconds sample_mixed
              (rev sample_mixed) sample_mixed_report _ Hp H H') as (Ht & _).
  eexists. split; [exact H'|]. rewrite Ht. reflexivity.
Defined.

(** ** The flagged user and the user ranking *)

Lemma most_common_1_head (c : list (string * Z)) :
  most_common_1 c = hd_error (sorted (fun a b : string * Z => snd b <=? snd a) c).
Proof.
  induction c as [|[k n] c IH]; [reflexivity|].
  simpl most_common_1. rewrite IH.
  change (sorted (fun a b : string * Z => snd b <=? snd a) ((k, n) :: c))
    with (insert (fun a b : string * Z => snd b <=? snd a) (k, n)
            (sorted (fun a b : string * Z => snd b <=? snd a) c)).
  destruct (sorted (fun a b : string * Z => snd b <=? snd a) c) as [|[k' n'] l];
    [reflexivity|].
  simpl. destruct (n <? n') eqn:E.
  - apply Z.ltb_lt in E. replace (n' <=? n) with false by (symmetry; apply Z.leb_gt; lia).
    reflexivity.
  - apply Z.ltb_ge in E. replace (n' <=? n) with true by (symmetry; apply Z.leb_le; lia).
    reflexivity.
Qed.

(** X17.  The user of an [unusual_user_behavior] anomaly is the first entry
    of [top_users_by_requests], with the same request count; the anomaly
    has severity [high] and its count is more than half of
    [total_requests]. *)
Theorem flagged_user_leads_top_users
    (fromisoformat : string -> option datetime) (logs : list raw) (r : report)
    (u : string) (c : Z) (sev : severity) :
  analyze_api_logs fromisoformat (Some logs) = Ok r ->
  In (UnusualUserBehavior u c sev) (anomalies r) ->
  (exists rest, top_users_by_requests r = (u, c) :: rest)
  /\ sev = High
  /\ total_requests (summary r) < 2 * c.
Proof.
  intros H Hin.
  pose proof (total_requests_length fromisoformat logs r H) as Htot.
  assert (Hne : valid_events fromisoformat logs <> []).
  { intro He. pose proof H as H'. apply analyze_inv in H'.
    destruct H' as (st & Hst & Hr). apply build_report_inv in Hr.
    destruct Hr as [[_ ->]|(Hnz & _)]; [destruct Hin|].
    rewrite (valid_requests_length fromisoformat logs st Hst), He in Hnz.
    apply Hnz. reflexivity. }
  destruct (report_user_anomaly fromisoformat logs r H Hne) as (st & Hst & Hua).
  destruct (user_counts_get fromisoformat logs st Hst) as (_ & Hsum & _).
  cbv zeta in Hsum.
  assert (Hf : In (UnusualUserBehavior u c sev) (filter is_user_anomaly (anomalies r)))
    by (apply filter_In; split; [exact Hin|reflexivity]).
  assert (Hpos : 0 < Z.of_nat (List.length (valid_events fromisoformat logs)))
    by (destruct (valid_events fromisoformat logs); [congruence|simpl; lia]).
  unfold unusual_user in Hua. rewrite Hsum in Hua.
  destruct (most_common_1 (user_counts st)) as [[u' c']|] eqn:Emc; [|discriminate Hua].
  destruct (Qltb (1 # 2)
              (inject_Z c' / inject_Z (Z.of_nat (List.length (valid_events fromisoformat logs)))))
    eqn:Eq; inversion Hua as [Hl]; clear Hua; rewrite <- Hl in Hf; [|destruct Hf].
  destruct Hf as [Heq|[]]. inversion Heq; subst u' c' sev; clear Heq.
  apply Qltb_lt in Eq. apply (proj1 (Qlt_ratio_r 1 2 c _ Hpos)) in Eq.
  split; [|split; [reflexivity|rewrite Htot; lia]].
  apply analyze_inv in H. destruct H as (st' & Hst' & Hr).
  assert (st' = st) by congruence. subst st'.
  unfold build_report in Hr.
  destruct (valid_requests_of st =? 0) eqn:Ez.
  - inversion Hr; subst r. destruct Hin.
  - destruct (unusual_user (user_counts st)) as [ua|]; simpl in Hr; [|discriminate Hr].
    inversion Hr; subst r; clear Hr. simpl top_users_by_requests.
    unfold most_common_5. rewrite most_common_1_head in Emc.
    destruct (sorted (fun a b : string * Z => snd b <=? snd a) (user_counts st))
      as [|x l]; [discriminate Emc|].
    simpl in Emc. inversion Emc; subst x. eexists. reflexivity.
Qed.

Lemma flagged_user_leads_top_users_witness :
  analyze_api_logs fromisoformat_seconds (Some skewed_logs) = Ok skewed_report
  /\ In (UnusualUserBehavior "user_a" 60 High) (anomalies skewed_report)
  /\ exists rest, top_users_by_requests skewed_report = ("user_a"%string, 60) :: rest.
Proof.
  assert (H : analyze_api_logs fromisoformat_seconds (Some skewed_logs)
              = Ok skewed_report) by (vm_compute; reflexivity).
  assert (Hin : In (UnusualUserBehavior "user_a" 60 High) (anomalies skewed_report))
    by (vm_compute; left; reflexivity).
  split; [exact H|]. split; [exact Hin|].
  apply (flagged_user_leads_top_users fromisoformat_seconds skewed_logs
           skewed_report "user_a" 60 High H Hin).
Defined.

(** ** Caching opportunities and the other parts of the report *)

Section CachingFacts.
Variable fromisoformat : string -> option datetime.

Lemma report_caching (logs : list raw) (r : report) (ep : string) :
  analyze_api_logs fromisoformat (Some logs) = Ok r ->
  filter (is_caching_of ep) (caching_opportunities r)
  = match events_of ep (valid_events fromisoformat logs) with
    | [] => []
    | l => caching_opportunity_of ep (aggregate l)
    end.
Proof.
  intro H. apply analyze_inv in H. destruct H as (st & Hst & Hr).
  apply build_report_inv in Hr.
  destruct Hr as [[Hz ->]|(_ & ua & _ & _ & _ & _ & _ & Hc & _)].
  - rewrite (no_valid_events fromisoformat logs st Hst Hz). reflexivity.
  - rewrite Hc. unfold caching_opportunities_of.
    destruct (endpoint_info_get fromisoformat logs st ep Hst) as (Hnd & Hget).
    rewrite (filter_flat_map_key caching_opportunity_of is_caching_of); [|
      intros k v a Hin; apply (caching_tag ep k v a Hin) | exact Hnd].
    rewrite Hget.
    destruct (events_of ep (valid_events fromisoformat logs)); reflexivity.
Qed.

(** X18.  Every caching opportunity of a report names an endpoint with more
    than 100 valid requests, shown with the same count in
    [endpoint_stats]; its hit rate lies between 80 and 100, its saved
    requests between 80 and the request count; and the report holds no
    [high_error_rate] issue for that endpoint. *)
Theorem caching_opportunity_invariants
    (logs : list raw) (r : report) (c : caching_opportunity) :
  analyze_api_logs fromisoformat (Some logs) = Ok r ->
  In c (caching_opportunities r) ->
  100 < current_requests c
  /\ request_count_in r (co_endpoint c) = current_requests c
  /\ 80 <= potential_cache_hit_rate c <= 100
  /\ 80 <= potential_requests_saved c <= current_requests c
  /\ forall rate sev,
       ~ In (HighErrorRate (co_endpoint c) rate sev) (performance_issues r).
Proof.
  intros H Hin.
  set (ep := co_endpoint c).
  assert (Hf : In c (filter (is_caching_of ep) (caching_opportunities r))).
  { apply filter_In. split; [exact Hin|]. unfold is_caching_of, ep.
    apply String.eqb_refl. }
  rewrite (report_caching logs r ep H) in Hf.
  rewrite (report_request_count fromisoformat logs r ep H).
  pose proof (report_issues fromisoformat logs r ep H) as Hiss.
  destruct (events_of ep (valid_events fromisoformat logs)) as [|ev l] eqn:E;
    [destruct Hf|].
  rewrite <- E in *. clear E.
  set (evs := events_of ep (valid_events fromisoformat logs)) in *.
  assert (Hne : evs <> []) by (unfold evs; destruct (events_of ep _); [destruct Hf|discriminate]).
  assert (Hpos : 0 < Z.of_nat (List.length evs))
    by (destruct evs; [congruence|simpl; lia]).
  pose proof (count_of_le is_get evs) as Hg.
  pose proof (count_of_le is_error evs) as He.
  destruct (caching_of_aggregate ep evs Hne) as (Hyes & Hno). cbv zeta in Hyes, Hno.
  assert (Hel : Z.of_nat (List.length evs) > 100
                /\ 5 * count_of is_get evs > 4 * Z.of_nat (List.length evs)
                /\ 100 * count_of is_error evs < 2 * Z.of_nat (List.length evs)
                /\ spread_below evs 500).
  { destruct (consistent_of (aggregate evs)) eqn:Ec.
    - apply (consistent_spread evs Hne) in Ec.
      destruct (Z_gt_dec (Z.of_nat (List.length evs)) 100) as [H1|H1];
        [|rewrite Hno in Hf by (intros (? & _); contradiction); destruct Hf].
      destruct (Z_gt_dec (5 * count_of is_get evs) (4 * Z.of_nat (List.length evs)))
        as [H2|H2];
        [|rewrite Hno in Hf by (intros (_ & ? & _); contradiction); destruct Hf].
      destruct (Z_lt_dec (100 * count_of is_error evs) (2 * Z.of_nat (List.length evs)))
        as [H3|H3];
        [|rewrite Hno in Hf by (intros (_ & _ & ? & _); contradiction); destruct Hf].
      repeat split; assumption.
    - rewrite Hno in Hf; [destruct Hf|].
      intros (_ & _ & _ & Hs). apply (consistent_spread evs Hne) in Hs. congruence. }
  rewrite (Hyes Hel) in Hf. destruct Hf as [Hc|[]].
  destruct Hel as (H1 & H2 & H3 & _).
  rewrite <- Hc. cbn [current_requests potential_cache_hit_rate potential_requests_saved].
  split; [lia|]. split; [reflexivity|].
  split.
  { split.
    - apply Z.div_le_lower_bound; lia.
    - apply Z.div_le_upper_bound; lia. }
  split.
  { split.
    - apply Z.div_le_lower_bound; lia.
    - apply Z.div_le_upper_bound; lia. }
  intros rate sev Hi.
  assert (Hfi : In (HighErrorRate ep rate sev) (filter (is_issue_of ep) (performance_issues r))).
  { apply filter_In. split; [exact Hi|]. simpl. apply String.eqb_refl. }
  rewrite Hiss in Hfi. cbv zeta in Hfi.
  assert (Hnone : high_error_rate_issue ep (aggregate evs) = []).
  { unfold high_error_rate_issue, err_rate_of.
    rewrite aggregate_error_count, aggregate_count.
    assert (Hlt : (inject_Z (count_of is_error evs)
                   / inject_Z (Z.of_nat (List.length evs)) * 100 < inject_Z 2)%Q)
      by (apply (err_rate_lt _ _ 2 Hpos); lia).
    unfold error_severity.
    replace (Qltb (critical ERROR_RATE_THRESHOLDS) _) with false
      by (symmetry; apply Qltb_ge; simpl; apply Qlt_le_weak;
          eapply Qlt_trans; [exact Hlt|reflexivity]).
    replace (Qltb (high ERROR_RATE_THRESHOLDS) _) with false
      by (symmetry; apply Qltb_ge; simpl; apply Qlt_le_weak;
          eapply Qlt_trans; [exact Hlt|reflexivity]).
    replace (Qltb (medium ERROR_RATE_THRESHOLDS) _) with false
      by (symmetry; apply Qltb_ge; simpl; apply Qlt_le_weak;
          eapply Qlt_trans; [exact Hlt|reflexivity]).
    reflexivity. }
  rewrite Hnone, app_nil_r in Hfi.
  unfold slow_endpoint_issue in Hfi.
  destruct (response_severity (avg_rt_of (aggregate evs))); [|destruct Hfi].
  destruct Hfi as [Hx|[]]. discriminate Hx.
Qed.
End CachingFacts.

Lemma caching_opportunity_invariants_witness :
  analyze_api_logs fromisoformat_seconds (Some mostly_get_logs) = Ok mostly_get_report
  /\ exists c, In c (caching_opportunities mostly_get_report)
               /\ 100 < current_requests c
               /\ 80 <= potential_cache_hit_rate c <= 100.
Proof.
  assert (H : analyze_api_logs fromisoformat_seconds (Some mostly_get_logs)
              = Ok mostly_get_report) by (vm_compute; reflexivity).
  split; [exact H|].
  assert (Hin : In {| co_endpoint := "/api/items";
                      potential_cache_hit_rate := 86;
                      current_requests := 150;
                      potential_requests_saved := 120;
                      estimated_cost_savings_usd := (120 # 10000)%Q;
                      recommended_ttl_minutes := 15;
                      recommendation_confidence := "high" |}
                   (caching_opportunities mostly_get_report))
    by (vm_compute; left; reflexivity).
  eexists. split; [exact Hin|].
  destruct (caching_opportunity_invariants fromisoformat_seconds mostly_get_logs
              mostly_get_report _ H Hin) as (H1 & _ & H3 & _).
  split; assumption.
Defined.

(** ** The sample generator *)

(** The one-character replacement of [_parse_timestamp] is an instance
    of the general [str.replace]. *)
Lemma replace_Z_str_replace (s : string) :
  str_replace "Z" "+00:00" s = replace_Z s.
Proof.
  unfold str_replace. induction s as [|c s IH]; [reflexivity|].
  cbn [replace_from replace_Z String.prefix String.length Nat.sub].
  assert (Hp : String.prefix "" s = true) by (destruct s; reflexivity).
  rewrite Hp, IH.
  destruct (Ascii.ascii_dec "Z" c) as [Hc|Hc].
  - subst c. rewrite Ascii.eqb_refl. reflexivity.
  - destruct (Ascii.eqb c "Z") eqn:E; [apply Ascii.eqb_eq in E; congruence|].
    reflexivity.
Qed.

Lemma stamp_checks_all (s : Z) : 0 <= s < 3600 -> stamp_checks s = true.
Proof.
  intro Hs.
  assert (Hall : forallb stamp_checks (map Z.of_nat (seq 0 3600)) = true)
    by (vm_compute; reflexivity).
  rewrite forallb_forall in Hall. apply Hall.
  apply in_map_iff. exists (Z.to_nat s). split; [lia|].
  apply in_seq. lia.
Qed.

Lemma choice_In {A} (l : list A) (k : nat) (dflt : A) :
  l <> [] -> In (choice l k dflt) l.
Proof.
  intro Hl. unfold choice. apply nth_In.
  apply Nat.mod_upper_bound. destruct l; [congruence|simpl; lia].
Qed.

Lemma py_int_abs_nonneg (x : Q) : 0 <= py_int (Qabs x).
Proof.
  unfold py_int, Qltb.
  pose proof (Qabs_nonneg x) as Hx.
  destruct (Qle_bool 0 (Qabs x)) eqn:E.
  - simpl. change 0 with (Qfloor 0). apply Qfloor_resp_le. exact Hx.
  - apply Qle_bool_iff in Hx. congruence.
Qed.

Section GeneratorFacts.
Variable rnd : nat -> draws.

Lemma sample_entry_valid (i : nat) (d : draws) :
  exists ev,
    validate fromisoformat_seconds (sample_entry default_start i d) = Some ev
    /\ aware (ev_ts ev) = true
    /\ hour (ev_ts ev) = 10
    /\ timestamp_int (ev_ts ev) = 1736935200 + (Z.of_nat i * 2) mod 3600.
Proof.
  pose proof (stamp_checks_all ((Z.of_nat i * 2) mod 3600)
                (Z.mod_pos_bound _ 3600 eq_refl)) as Hc.
  unfold stamp_checks in Hc.
  set (s := (Z.of_nat i * 2) mod 3600) in *.
  unfold validate, sample_entry. cbv zeta. fold s.
  cbn [timestamp response_time_ms status_code endpoint method user_id].
  unfold _parse_timestamp.
  set (str := str_replace "+00:00" "Z" (isoformat (plus_seconds default_start s))) in *.
  assert (Hne : truthy (PStr str) = true).
  { unfold truthy. destruct (String.eqb str "") eqn:E; [|reflexivity].
    apply String.eqb_eq in E. rewrite E in Hc. vm_compute in Hc. discriminate Hc. }
  rewrite Hne. cbn [negb].
  destruct (fromisoformat_seconds (replace_Z str)) as [t|]; [|discriminate Hc].
  apply andb_prop in Hc. destruct Hc as (Hc & H3).
  apply andb_prop in Hc. destruct Hc as (H1 & H2).
  cbn [as_number as_int].
  pose proof (py_int_abs_nonneg (r_gauss d)) as Hrt.
  assert (Hlt : Qltb (inject_Z (py_int (Qabs (r_gauss d)))) 0 = false).
  { unfold Qltb. apply negb_false_iff. apply Qle_bool_iff.
    unfold Qle. simpl. lia. }
  rewrite Hlt.
  eexists. split; [reflexivity|]. cbn [ev_ts].
  split; [exact H1|]. split; [apply Z.eqb_eq; exact H2|apply Z.eqb_eq; exact H3].
Qed.

Lemma generated_events (n : nat) :
  List.length (valid_events fromisoformat_seconds (generate_sample_logs rnd n None)) = n
  /\ forall ev,
       In ev (valid_events fromisoformat_seconds (generate_sample_logs rnd n None)) ->
       aware (ev_ts ev) = true /\ hour (ev_ts ev) = 10.
Proof.
  unfold generate_sample_logs.
  generalize 0%nat as k.
  induction n as [|n IH]; intro k.
  - split; [reflexivity|intros ev []].
  - simpl seq. simpl map. rewrite valid_events_cons.
    destruct (sample_entry_valid k (rnd k)) as (ev0 & Hv & Ha & Hh & _).
    rewrite Hv. destruct (IH (S k)) as (IHl & IHa).
    split.
    + simpl. rewrite IHl. reflexivity.
    + intros ev [<-|Hin]; [split; assumption|apply IHa; exact Hin].
Qed.
End GeneratorFacts.

(** X19.  Every record of [generate_sample_logs(n)] passes validation, whatever
    the random draws: the analysis of the generated list returns a
    report, its [total_requests] is [n], and all [n] requests fall in the
    hourly bucket [10:00]. *)
Theorem generated_logs_all_valid (rnd : nat -> draws) (n : nat) :
  exists r,
    analyze_api_logs fromisoformat_seconds (Some (generate_sample_logs rnd n None)) = Ok r
    /\ total_requests (summary r) = Z.of_nat n
    /\ forall label,
         get String.eqb label (hourly_distribution r)
         = if (String.eqb label "10:00" && negb (Nat.eqb n 0))%bool
           then Some (Z.of_nat n) else None.
Proof.
  destruct (generated_events rnd n) as (Hlen & Hall).
  destruct (analyze_returns_when_aware fromisoformat_seconds
              (generate_sample_logs rnd n None)) as (r & Hr).
  { intros ev Hin. apply Hall. exact Hin. }
  exists r. split; [exact Hr|].
  split.
  - rewrite (total_requests_length _ _ _ Hr), Hlen. reflexivity.
  - intro label.
    rewrite (hourly_counts_of fromisoformat_seconds _ _ label Hr).
    set (evs := valid_events fromisoformat_seconds (generate_sample_logs rnd n None)) in *.
    destruct (String.eqb label "10:00") eqn:El.
    + apply String.eqb_eq in El. subst label.
      assert (Hf : filter (fun ev => String.eqb (pad2 (hour (ev_ts ev)) ++ ":00") "10:00") evs = evs).
      { apply filter_all. intros ev Hin.
        destruct (Hall ev Hin) as (_ & Hh). rewrite Hh. reflexivity. }
      rewrite Hf. destruct evs as [|e0 l0].
      * simpl in Hlen. subst n. reflexivity.
      * rewrite Hlen. destruct n; [discriminate Hlen|reflexivity].
    + assert (Hf : filter (fun ev => String.eqb (pad2 (hour (ev_ts ev)) ++ ":00") label) evs = []).
      { apply filter_none. intros ev Hin.
        destruct (Hall ev Hin) as (_ & Hh). rewrite Hh.
        change (pad2 10 ++ ":00")%string with "10:00"%string.
        rewrite String.eqb_sym. exact El. }
      rewrite Hf. reflexivity.
Qed.

Lemma nth_error_map_seq {A} (f : nat -> A) (n i k : nat) :
  (i < n)%nat -> nth_error (map f (seq k n)) i = Some (f (k + i)%nat).
Proof.
  revert i k. induction n as [|n IH]; intros i k Hi; [lia|].
  destruct i as [|i]; simpl.
  - rewrite Nat.add_0_r. reflexivity.
  - rewrite IH by lia. f_equal. f_equal. lia.
Qed.

(** X20.  For a start from which 3598 more seconds stay within the year
    9999 (past it [start + timedelta] raises [OverflowError] and no list
    is returned): [generate_sample_logs(n, start)] returns [n] records;
    whatever the random draws, record [i] carries one of the five
    endpoints, one of the four methods, a non-negative integer response
    time and a status among 200, 400, 404 and 500; and two records whose
    positions differ by a multiple of 1800 carry the same timestamp. *)
Theorem generated_record_shape
    (rnd : nat -> draws) (n : nat) (start : option datetime) (i : nat) :
  (i < n)%nat ->
  let first := match start with
               | Some t => t
               | None => default_start
               end in
  year (plus_seconds first 3598) <= 9999 ->
  List.length (generate_sample_logs rnd n start) = n
  /\ exists e,
       nth_error (generate_sample_logs rnd n start) i = Some (Some e)
       /\ (exists ep, endpoint e = Some ep /\ In ep sample_endpoints)
       /\ (exists m, method e = Some m /\ In m sample_methods)
       /\ (exists rt, response_time_ms e = PInt rt /\ 0 <= rt)
       /\ (exists sc, status_code e = PInt sc /\ In sc [200; 400; 404; 500])
       /\ forall j e',
            (j < n)%nat -> (j mod 1800 = i mod 1800)%nat ->
            nth_error (generate_sample_logs rnd n start) j = Some (Some e') ->
            timestamp e' = timestamp e.
Proof.
  intros Hi first _. subst first. unfold generate_sample_logs.
  split; [rewrite length_map, length_seq; reflexivity|].
  rewrite (nth_error_map_seq _ n i 0 Hi). simpl Nat.add.
  unfold sample_entry at 1. cbv zeta.
  eexists. split; [reflexivity|].
  cbn [endpoint method response_time_ms status_code timestamp].
  split; [|split; [|split; [|split]]].
  - eexists. split; [reflexivity|]. apply choice_In. discriminate.
  - eexists. split; [reflexivity|]. apply choice_In. discriminate.
  - eexists. split; [reflexivity|]. apply py_int_abs_nonneg.
  - eexists. split; [reflexivity|].
    destruct (Qltb (5 # 100) (r_uniform (rnd i))).
    + left. reflexivity.
    + right. apply (choice_In sample_errors). discriminate.
  - intros j e' Hj Hmod Hnth.
    rewrite (nth_error_map_seq _ n j 0 Hj) in Hnth. simpl Nat.add in Hnth.
    inversion Hnth as [He']. cbn [timestamp].
    assert (Hs : (Z.of_nat j * 2) mod 3600 = (Z.of_nat i * 2) mod 3600).
    { rewrite (Nat.div_mod_eq j 1800), (Nat.div_mod_eq i 1800), Hmod.
      rewrite !Nat2Z.inj_add, !Nat2Z.inj_mul.
      set (r := Z.of_nat (i mod 1800)).
      set (a := Z.of_nat (j / 1800)). set (b := Z.of_nat (i / 1800)).
      change (Z.of_nat 1800) with 1800.
      replace ((1800 * a + r) * 2) with (r * 2 + a * 3600) by lia.
      replace ((1800 * b + r) * 2) with (r * 2 + b * 3600) by lia.
      rewrite !Z_mod_plus_full. reflexivity. }
    rewrite Hs. reflexivity.
Qed.

Lemma generated_record_shape_witness :
  (1 < 3)%nat
  /\ List.length (generate_sample_logs (fun i => {| r_endpoint := i; r_method := 7;
         r_gauss := -(1234#10); r_uniform := 1#100; r_error := 5; r_user := 399 |}) 3 None) = 3%nat.
Proof.
  split; [lia|].
  apply (generated_record_shape _ 3 None 1); [lia|vm_compute; discriminate].
Defined.
